(** * experiment/run_experiment.py: launching a fuzzer benchmarking experiment

    A shallow embedding of [src/experiment/run_experiment.py] and the
    properties of its configuration validation, naming, archive filter,
    dispatcher factory and launch sequence.

    Conventions of the embedding.
    - YAML documents are values of [PyValue]; a [dict] with string keys that
      the code uses as a map is a [gmap string PyValue].
    - [str] values are sequences of ASCII characters ([string]); [str.lower]
      and the character classes of the regular expressions are the ASCII
      ones.
    - Code that can raise returns a [Result]; code that talks to the outside
      world (git, the file system, the filestore, docker, gcloud) runs in the
      monad [M] over a [World], where every call to a collaborator is
      answered by an oracle and recorded in a trace.  The trace is that of
      the launcher's own thread of control: the worker that
      [create_async] starts on Google Cloud appears as the calls that
      start it and join it.
    - [main], which parses the command line and calls [start_experiment],
      is not embedded. *)

From Stdlib Require Import ZArith Ascii String List Bool Lia.
From stdpp Require Import base option list gmap strings.

(** ** Python values *)

Module Py.

(** The values a YAML document can hold.  A float is kept as an opaque
    mantissa/exponent pair: the code never computes with one. *)
#[warnings="-register-all"]
Inductive PyValue : Type :=
| VNone
| VBool (b : bool)
| VInt (n : Z)
| VFloat (m e : Z)
| VStr (s : string)
| VList (l : list PyValue)
| VDict (d : gmap string PyValue).

(** Truth value testing ([if x:], [not x], [x and y]). *)
Definition truthy (v : PyValue) : bool :=
  match v with
  | VNone => false
  | VBool b => b
  | VInt n => negb (n =? 0)%Z
  | VFloat m _ => negb (m =? 0)%Z
  | VStr s => negb (String.eqb s EmptyString)
  | VList l => match l with [] => false | _ => true end
  | VDict d => negb (bool_decide (d = ∅))
  end.

(** [isinstance(v, int)]: [bool] is a subclass of [int]. *)
Definition isinstance_int (v : PyValue) : bool :=
  match v with
  | VInt _ | VBool _ => true
  | _ => false
  end.

(** [isinstance(v, str)]. *)
Definition isinstance_str (v : PyValue) : bool :=
  match v with
  | VStr _ => true
  | _ => false
  end.

(** [isinstance(v, dict)]. *)
Definition isinstance_dict (v : PyValue) : bool :=
  match v with
  | VDict _ => true
  | _ => false
  end.

(** [dict.get(key, default)]. *)
Definition get (d : gmap string PyValue) (key : string) (default : PyValue)
  : PyValue :=
  match d !! key with
  | Some v => v
  | None => default
  end.

(** [key in d]. *)
Definition contains (d : gmap string PyValue) (key : string) : bool :=
  bool_decide (is_Some (d !! key)).

(** [c.lower()] on one ASCII character. *)
Definition lower_ascii (c : ascii) : ascii :=
  let n := nat_of_ascii c in
  if (65 <=? n)%nat && (n <=? 90)%nat then ascii_of_nat (n + 32) else c.

(** [s.lower()]. *)
Fixpoint lower (s : string) : string :=
  match s with
  | EmptyString => EmptyString
  | String c s' => String (lower_ascii c) (lower s')
  end.

(** [s.startswith(p)]. *)
Definition startswith (s p : string) : bool := String.prefix p s.

(** [s.endswith(p)]. *)
Definition endswith (s p : string) : bool :=
  String.prefix (String.rev p) (String.rev s).

(** [s] between double quotes, as the messages print a value. *)
Definition quoted (s : string) : string :=
  let dq := String (ascii_of_nat 34) EmptyString in dq +:+ s +:+ dq.

(** [sep.join(l)]. *)
Definition join (sep : string) (l : list string) : string :=
  String.concat sep l.

(** ASCII whitespace, as [bytes.strip] understands it. *)
Definition is_space (c : ascii) : bool :=
  let n := nat_of_ascii c in
  ((9 <=? n)%nat && (n <=? 13)%nat) || (n =? 32)%nat.

Fixpoint lstrip (s : string) : string :=
  match s with
  | String c s' => if is_space c then lstrip s' else s
  | EmptyString => EmptyString
  end.

(** [s.strip()]. *)
Definition strip (s : string) : string :=
  String.rev (lstrip (String.rev (lstrip s))).

(** [os.path.join(a, b)] on POSIX. *)
Definition path_join (a b : string) : string :=
  if startswith b "/" then b
  else if String.eqb a EmptyString || endswith a "/" then a +:+ b
  else a +:+ "/" +:+ b.

End Py.
Import Py.

(** ** Regular expressions

    The three patterns of the module only repeat single-character classes, so
    the syntax has repetition of a class rather than of an arbitrary
    expression, which keeps the matcher structurally recursive.  The matcher
    explores every alternative and every repetition count, so it accepts
    exactly when Python's backtracking matcher finds a match. *)

Module Re.

Inductive regex : Type :=
| Bol                                   (* ^ *)
| Eol                                   (* $ *)
| Lit (s : string)                      (* literal text *)
| Star (cls : ascii -> bool)            (* c* for a character class c *)
| Rep (cls : ascii -> bool) (lo hi : nat) (* c{lo,hi} *)
| Seq (r1 r2 : regex)
| Alt (r1 r2 : regex).

(** [.]: any character except a newline. *)
Definition dot (c : ascii) : bool := negb (Ascii.eqb c "010"%char).

(** A one-character class holding just [c]. *)
Definition chr (c : ascii) : ascii -> bool := Ascii.eqb c.

Definition in_range (lo hi c : ascii) : bool :=
  (nat_of_ascii lo <=? nat_of_ascii c)%nat
  && (nat_of_ascii c <=? nat_of_ascii hi)%nat.

(** [$] without MULTILINE: at the end of the string, or just before a
    newline that ends the string. *)
Definition at_eol (s : string) : bool :=
  match s with
  | EmptyString => true
  | String c EmptyString => Ascii.eqb c "010"%char
  | _ => false
  end.

(** Strip the literal [p] from the front of [s]. *)
Fixpoint literal (p s : string) : option string :=
  match p with
  | EmptyString => Some s
  | String a p' =>
      match s with
      | String b s' => if Ascii.eqb a b then literal p' s' else None
      | EmptyString => None
      end
  end.

(** [c*]: the continuation is tried after every number of characters of the
    class. *)
Fixpoint star (cls : ascii -> bool) (pos : nat) (s : string)
  (k : nat -> string -> bool) : bool :=
  k pos s ||
  match s with
  | String c s' => cls c && star cls (S pos) s' k
  | EmptyString => false
  end.

(** [c{lo,hi}]. *)
Fixpoint rep (cls : ascii -> bool) (lo hi : nat) (pos : nat) (s : string)
  (k : nat -> string -> bool) : bool :=
  match hi with
  | O => match lo with O => k pos s | S _ => false end
  | S hi' =>
      match lo with O => k pos s | S _ => false end ||
      match s with
      | String c s' => cls c && rep cls (pred lo) hi' (S pos) s' k
      | EmptyString => false
      end
  end.

(** [matches r pos s k]: some way of matching [r] at offset [pos], with [s]
    the rest of the subject, leaves a rest that [k] accepts. *)
Fixpoint matches (r : regex) (pos : nat) (s : string)
  (k : nat -> string -> bool) : bool :=
  match r with
  | Bol => match pos with O => k pos s | S _ => false end
  | Eol => at_eol s && k pos s
  | Lit p =>
      match literal p s with
      | Some s' => k (pos + String.length p)%nat s'
      | None => false
      end
  | Star cls => star cls pos s k
  | Rep cls lo hi => rep cls lo hi pos s k
  | Seq r1 r2 => matches r1 pos s (fun pos' s' => matches r2 pos' s' k)
  | Alt r1 r2 => matches r1 pos s k || matches r2 pos s k
  end.

(** [re.match(r, s)] as a truth value: a match anchored at offset 0. *)
Definition re_match (r : regex) (s : string) : bool :=
  matches r 0 s (fun _ _ => true).

(** [c+]. *)
Definition plus (cls : ascii -> bool) : regex :=
  Seq (Rep cls 1 1) (Star cls).

End Re.
Import Re.

(** ** Module constants *)

Definition lower_digit (extra : ascii) (c : ascii) : bool :=
  in_range "a" "z" c || in_range "0" "9" c || Ascii.eqb c extra.

(** [re.compile(r'^[a-z0-9_]+$')] *)
Definition FUZZER_NAME_REGEX : regex :=
  Seq Bol (Seq (plus (lower_digit "_")) Eol).

(** [re.compile(r'^[a-z0-9-]{0,30}$')] *)
Definition EXPERIMENT_CONFIG_REGEX : regex :=
  Seq Bol (Seq (Rep (lower_digit "-") 0 30) Eol).

(** The alternatives of [FILTER_SOURCE_REGEX], in the order of the source. *)
Definition FILTER_SOURCE_ALTERNATIVES : list regex :=
  [ Seq Bol (Lit ".git/")                                (* ^\.git/ *)
  ; Seq Bol (Lit ".pytype/")                             (* ^\.pytype/ *)
  ; Seq Bol (Lit ".venv/")                               (* ^\.venv/ *)
  ; Seq Bol (Seq (Star dot) (Seq (Lit ".pyc") Eol))      (* ^.*\.pyc$ *)
  ; Seq Bol (Lit "__pycache__/")                         (* ^__pycache__/ *)
  ; Seq (Star dot) (Seq (Lit "~") Eol)                   (* .*~$ *)
  ; Seq (Star (chr "#")) (Seq (Lit "#") Eol)             (* \#*\#$ *)
  ; Lit ".pytest_cache/"                                 (* \.pytest_cache/ *)
  ; Seq (Star dot) (Lit "/test_data/")                   (* .*/test_data/ *)
  ; Seq Bol (Lit "third_party/oss-fuzz/build/")
                                        (* ^third_party/oss-fuzz/build/ *)
  ; Seq Bol (Seq (Lit "docker/generated")
               (Seq (Rep dot 1 1) (Seq (Lit "mk") Eol)))
                                        (* ^docker/generated.mk$ *)
  ; Seq Bol (Lit "docs/") ].                             (* ^docs/ *)

Fixpoint alternation (l : list regex) : regex :=
  match l with
  | [] => Rep dot 1 0        (* matches nothing *)
  | [r] => r
  | r :: l' => Alt r (alternation l')
  end.

Definition FILTER_SOURCE_REGEX : regex :=
  alternation FILTER_SOURCE_ALTERNATIVES.

Definition CONFIG_DIR : string := "config".

(** ** Exceptions and results *)

Inductive Exn : Type :=
| ValidationError (msg : string)
| Exception (msg : string)
| KeyError (key : string)
| TypeError
| AttributeError
| AssertionError (msg : string)
| FileNotFoundError (path : string)
| NotImplementedError
| CollaboratorError (what : string).   (* raised inside a collaborator *)

Inductive Result (A : Type) : Type :=
| Ok (a : A)
| Raise (e : Exn).
Arguments Ok {A} a.
Arguments Raise {A} e.

Definition is_ok {A} (r : Result A) : bool :=
  match r with Ok _ => true | Raise _ => false end.

(** ** Messages of [logs.error]

    One constructor per call site of [read_and_validate_experiment_config],
    with the arguments of its format string. *)
Inductive LogError : Type :=
| RenamedBuckets
    (* '"cloud_experiment_bucket" and "cloud_web_bucket" are now ...' *)
| NotContained (param : string)
    (* 'Config does not contain "%s".' *)
| MustBeInt (param : string) (value : PyValue)
    (* 'Config parameter "%s" is "%s". It must be an int.' *)
| MustBeLowercaseString (param : string) (value : PyValue)
    (* '... It must be a lowercase string.' *)
| MustBePosix (param : string) (value : PyValue)
    (* '... Local experiments only support using Posix file systems ...' *)
| MustBeGs (param : string) (value : PyValue).
    (* '... It must start with gs:// when running on Google Cloud.' *)

(** The parameter a message is about. *)
Definition log_param (e : LogError) : option string :=
  match e with
  | RenamedBuckets => None
  | NotContained p | MustBeInt p _ | MustBeLowercaseString p _
  | MustBePosix p _ | MustBeGs p _ => Some p
  end.

(** ** The outside world *)

Module tarfile.
(** [tarfile.TarInfo], of which the filter reads the member name only. *)
Record TarInfo : Type := { name : string }.
End tarfile.

(** The worker of [multiprocessing.Process(target=gcloud.create_instance,
    args=(instance_name, InstanceType.DISPATCHER, config))]. *)
Record Process : Type :=
  { proc_instance_name : string; proc_config : gmap string PyValue }.

(** Calls to collaborators, indexed by the type of what they return. *)
Inductive Call : Type -> Type :=
| subprocess_check_output (args : list string) (cwd : string) : Call string
| yaml_utils_read (filename : string) : Call PyValue
| yaml_utils_write (filename : string) (data : gmap string PyValue)
  : Call unit
| open_w (filename : string) : Call unit
| yaml_dump (data : gmap string PyValue) (filename : string) : Call unit
| os_listdir (path : string) : Call (list string)
| os_path_isdir (path : string) : Call bool
| filesystem_recreate_directory (path : string) : Call unit
| filesystem_create_directory (path : string) : Call unit
| gcloud_set_default_project (project : PyValue) : Call unit
| gcloud_robust_begin_gcloud_ssh (instance : string) (zone : PyValue)
  : Call unit
| gcloud_ssh (instance : string) (command : string) (zone : PyValue)
  : Call PyValue
| process_start (p : Process) : Call unit
| process_join (p : Process) : Call unit
| tarfile_open_w (archive : string) : Call unit
| tar_walk (root : string) : Call (list tarfile.TarInfo)
| filestore_utils_cp (source destination : string) : Call unit
| filestore_utils_rsync (source destination : string) : Call unit
| new_process_execute (command : list string) : Call PyValue.

(** What the launcher's thread of control did, in order. *)
Inductive Event : Type :=
| ECall {A : Type} (c : Call A) (returned : bool)
| EEnter (function : string)
| EReturn (function : string).

Record World : Type := mkWorld
  { trace : list Event
  ; logs : list LogError
  ; environ : gmap string string
  ; files : gmap string (list tarfile.TarInfo) }.

(** How the collaborators answer: from the call and the world as it is. *)
Definition Oracle : Type := forall A, Call A -> World -> Result A.

Definition emit (e : Event) (w : World) : World :=
  mkWorld (trace w ++ [e]) (logs w) (environ w) (files w).

Definition add_log (e : LogError) (w : World) : World :=
  mkWorld (trace w) (logs w ++ [e]) (environ w) (files w).

Definition set_environ (env : gmap string string) (w : World) : World :=
  mkWorld (trace w) (logs w) env (files w).

Definition set_files (fs : gmap string (list tarfile.TarInfo)) (w : World)
  : World :=
  mkWorld (trace w) (logs w) (environ w) fs.

(** ** The monad of the launcher: state and exceptions *)

Definition M (A : Type) : Type := World -> Result A * World.

Definition ret {A} (a : A) : M A := fun w => (Ok a, w).

Definition bind {A B} (m : M A) (f : A -> M B) : M B := fun w =>
  match m w with
  | (Ok a, w') => f a w'
  | (Raise e, w') => (Raise e, w')
  end.

Notation "'let*' x ':=' m 'in' k" := (bind m (fun x => k))
  (at level 10, x name, m at level 100, k at level 200,
   format "'[v' 'let*'  x  ':='  m  'in' '/' k ']'").
Notation "m '>>' k" := (bind m (fun _ => k))
  (at level 100, k at level 200, right associativity,
   format "'[v' m  '>>' '/' k ']'").

Definition raise {A} (e : Exn) : M A := fun w => (Raise e, w).

Definition lift {A} (r : Result A) : M A := fun w => (r, w).

Definition get_world : M World := fun w => (Ok w, w).

Definition modify (f : World -> World) : M unit := fun w => (Ok tt, f w).

(** [for x in l: acc = body(acc, x)] *)
Fixpoint for_fold {A B} (l : list A) (acc : B) (body : B -> A -> M B)
  : M B :=
  match l with
  | [] => ret acc
  | x :: l' => let* acc' := body acc x in for_fold l' acc' body
  end.

(** [for x in l: body(x)] *)
Definition for_each {A} (l : list A) (body : A -> M unit) : M unit :=
  for_fold l tt (fun _ x => body x).

(** [[x for x in l if p(x)]] *)
Fixpoint filter_m {A} (p : A -> M bool) (l : list A) : M (list A) :=
  match l with
  | [] => ret []
  | x :: l' =>
      let* keep := p x in
      let* rest := filter_m p l' in
      ret (if keep then x :: rest else rest)
  end.

(** ** The program *)

Section run_experiment.

(** Collaborators.  [oracle] answers every call that reaches outside the
    process, from the world as it is when the call is made.  The others are
    pure functions of [common.utils], [common.experiment_utils], [os.path]
    and the built-in [str]. *)
Context (oracle : Oracle).
Context (ROOT_DIR : string).
Context (get_dispatcher_instance_name : PyValue -> string).
Context (get_base_docker_tag : PyValue -> string).
Context (get_experiment_filestore_path : gmap string string -> string).
Context (abspath : string -> string).
Context (py_str : PyValue -> string).

(** Make a call: the oracle answers, the trace records it. *)
Definition call {A} (c : Call A) : M A := fun w =>
  let r := oracle A c w in
  (r, emit (ECall c (is_ok r)) w).

(** Run [body] as the function [function]: the trace records when it is
    entered, and when it returns normally. *)
Definition scoped {A} (function : string) (body : M A) : M A :=
  modify (emit (EEnter function)) >>
  let* result := body in
  modify (emit (EReturn function)) >>
  ret result.

Definition logs_error (e : LogError) : M unit := modify (add_log e).

(** [str(v)], [format] and [%s]. *)
Definition to_str (v : PyValue) : string :=
  match v with
  | VStr s => s
  | _ => py_str v
  end.

(** [d[key]] *)
Definition getitem (d : gmap string PyValue) (key : string)
  : Result PyValue :=
  match d !! key with
  | Some v => Ok v
  | None => Raise (KeyError key)
  end.

(** [value.startswith(prefix)]: an attribute of [str]. *)
Definition value_startswith (value : PyValue) (prefix : string)
  : Result bool :=
  match value with
  | VStr s => Ok (startswith s prefix)
  | _ => Raise AttributeError
  end.

(** [re.match(pattern, value)] as a truth value; the subject has to be a
    string. *)
Definition py_re_match (pattern : regex) (value : PyValue) : Result bool :=
  match value with
  | VStr s => Ok (re_match pattern s)
  | _ => Raise TypeError
  end.

(** [not isinstance(value, str) or value != value.lower()] *)
Definition not_lowercase_str (value : PyValue) : bool :=
  match value with
  | VStr s => negb (String.eqb s (lower s))
  | _ => true
  end.

(** *** read_and_validate_experiment_config *)

Definition filestore_params : gset string :=
  {[ "experiment_filestore"; "report_filestore" ]}.
Definition cloud_config : gset string := {[ "cloud_compute_zone" ]}.
Definition string_params : gset string := cloud_config ∪ filestore_params.
Definition int_params : gset string := {[ "trials"; "max_total_time" ]}.

Definition required_params (local_experiment : PyValue) : gset string :=
  let required_params := int_params ∪ filestore_params in
  if negb (truthy local_experiment)
  then required_params ∪ cloud_config
  else required_params.

(** One iteration of [for param in required_params], from the current
    [valid] to the next. *)
Definition validate_param (config : gmap string PyValue)
  (local_experiment : PyValue) (valid : bool) (param : string) : M bool :=
  match config !! param with
  | None =>
      logs_error (NotContained param) >>
      ret false
  | Some value =>
      if bool_decide (param ∈ int_params) && negb (isinstance_int value)
      then
        logs_error (MustBeInt param value) >>
        ret false
      else if bool_decide (param ∈ string_params) && not_lowercase_str value
      then
        logs_error (MustBeLowercaseString param value) >>
        ret false
      else if negb (bool_decide (param ∈ filestore_params))
      then ret valid
      else if truthy local_experiment
      then
        let* posix := lift (value_startswith value "/") in
        if negb posix
        then
          logs_error (MustBePosix param value) >>
          ret false
        else ret valid
      else
        let* gs := lift (value_startswith value "gs://") in
        if negb gs
        then
          logs_error (MustBeGs param value) >>
          ret false
        else ret valid
  end.

(** The body of the function once the document is read. *)
Definition validate_experiment_config (config_filename : string)
  (config : gmap string PyValue) : M (gmap string PyValue) :=
  let local_experiment := get config "local_experiment" (VBool false) in
  let required_params := required_params local_experiment in
  let valid := true in
  (if contains config "cloud_experiment_bucket"
      || contains config "cloud_web_bucket"
   then logs_error RenamedBuckets
   else ret tt) >>
  let* valid :=
    for_fold (elements required_params) valid
      (validate_param config local_experiment) in
  if negb valid
  then raise (ValidationError ("Config: " +:+ config_filename
                               +:+ " is invalid."))
  else ret config.

Definition read_and_validate_experiment_config (config_filename : string)
  : M (gmap string PyValue) :=
  let* document := call (yaml_utils_read config_filename) in
  match document with
  | VDict config => validate_experiment_config config_filename config
  | _ => raise AttributeError        (* [config.get] on a non-dict *)
  end.

(** *** Validators of names *)

(** [get_directories]: the entries of [parent_dir] that are directories. *)
Definition get_directories (parent_dir : string) : M (list string) :=
  let* entries := call (os_listdir parent_dir) in
  filter_m (fun directory =>
              call (os_path_isdir (path_join parent_dir directory)))
           entries.

(** [validate_benchmarks]: no benchmark may be listed twice.  The loop runs
    over [set(benchmarks)]; here in the order of [elements]. *)
Definition validate_benchmarks (benchmarks : list string) : Result unit :=
  match
    List.filter (fun benchmark => (1 <? count_occ string_dec benchmarks
                                           benchmark)%nat)
                (elements (list_to_set benchmarks : gset string))
  with
  | benchmark :: _ =>
      Raise (Exception ("Benchmark " +:+ quoted benchmark
                        +:+ " is included more than once."))
  | [] => Ok tt
  end.

Definition FUZZERS_DIR : string := path_join ROOT_DIR "fuzzers".
Definition BENCHMARKS_DIR : string := path_join ROOT_DIR "benchmarks".

(** [validate_fuzzer] *)
Definition validate_fuzzer (fuzzer : PyValue) : M unit :=
  let* matched := lift (py_re_match FUZZER_NAME_REGEX fuzzer) in
  if negb matched
  then raise (Exception ("Fuzzer " +:+ quoted (to_str fuzzer)
                         +:+ " may only contain lowercase letters, "
                         +:+ "numbers, or underscores."))
  else
    let* fuzzers_directories := get_directories FUZZERS_DIR in
    if negb (bool_decide (to_str fuzzer ∈ fuzzers_directories))
    then raise (Exception ("Fuzzer " +:+ quoted (to_str fuzzer)
                           +:+ " does not exist."))
    else ret tt.

Definition allowed_fields : list string := ["name"; "env"; "fuzzer"].

(** [validate_fuzzer_config].  The loop over the keys runs in the order of
    [map_to_list]; Python runs it in insertion order, which decides only
    which of several invalid keys the message names. *)
Definition validate_fuzzer_config (fuzzer_config : gmap string PyValue)
  : M unit :=
  if negb (contains fuzzer_config "fuzzer")
  then raise (Exception ("Fuzzer configuration must include the "
                         +:+ quoted "fuzzer" +:+ " field."))
  else
    match List.filter (fun key => negb (bool_decide (key ∈ allowed_fields)))
                      (map_to_list fuzzer_config).*1 with
    | key :: _ =>
        raise (Exception ("Invalid entry " +:+ quoted key
                          +:+ " in fuzzer configuration."))
    | [] =>
        if match fuzzer_config !! "env" with
           | Some env => negb (isinstance_dict env)
           | None => false
           end
        then raise (Exception ("Fuzzer environment " +:+ quoted "env"
                               +:+ " must be a dict."))
        else
          let name := get fuzzer_config "name" VNone in
          (if truthy name
           then
             let* matched := lift (py_re_match FUZZER_NAME_REGEX name) in
             if negb matched
             then raise (Exception
                           ("The " +:+ quoted "name"
                            +:+ " option may only contain lowercase "
                            +:+ "letters, numbers, or underscores."))
             else ret tt
           else ret tt) >>
          let fuzzer := get fuzzer_config "fuzzer" VNone in
          if truthy fuzzer
          then validate_fuzzer fuzzer
          else ret tt
    end.

(** [validate_experiment_name] *)
Definition validate_experiment_name (experiment_name : string)
  : Result unit :=
  if negb (re_match EXPERIMENT_CONFIG_REGEX experiment_name)
  then Raise (Exception ("Experiment name " +:+ quoted experiment_name
                         +:+ " is invalid. Must match: "
                         +:+ quoted "^[a-z0-9-]{0,30}$"))
  else Ok tt.

(** *** Configuration files *)

(** [set_up_experiment_config_file] *)
Definition set_up_experiment_config_file (config : gmap string PyValue)
  : M unit :=
  scoped "set_up_experiment_config_file" (
    call (filesystem_recreate_directory CONFIG_DIR) >>
    let experiment_config_filename :=
      path_join CONFIG_DIR "experiment.yaml" in
    call (open_w experiment_config_filename) >>
    call (yaml_dump config experiment_config_filename)).

(** [check_no_local_changes] *)
Definition check_no_local_changes : M unit :=
  let* output := call (subprocess_check_output ["git"; "diff"] ROOT_DIR) in
  if negb (String.eqb output EmptyString)
  then raise (AssertionError "Local uncommitted changes found, exiting.")
  else ret tt.

(** [get_git_hash] *)
Definition get_git_hash : M string :=
  let* output :=
    call (subprocess_check_output ["git"; "rev-parse"; "HEAD"] ROOT_DIR) in
  ret (Py.strip output).

(** [left + right] where [right] is a [str]. *)
Definition add_str (left : PyValue) (right : string) : Result string :=
  match left with
  | VStr s => Ok (s +:+ right)
  | _ => Raise TypeError
  end.

(** [left + right] where [left] is a [str]. *)
Definition str_add (left : string) (right : PyValue) : Result string :=
  match right with
  | VStr s => Ok (left +:+ s)
  | _ => Raise TypeError
  end.

Definition result_bind {A B} (r : Result A) (f : A -> Result B)
  : Result B :=
  match r with
  | Ok a => f a
  | Raise e => Raise e
  end.

(** [get_full_fuzzer_name]: [<base fuzzer>_<variant name>]. *)
Definition get_full_fuzzer_name (fuzzer_config : gmap string PyValue)
  : Result PyValue :=
  if negb (contains fuzzer_config "name")
  then getitem fuzzer_config "fuzzer"
  else
    result_bind (getitem fuzzer_config "fuzzer") (fun fuzzer =>
    result_bind (add_str fuzzer "_") (fun base =>
    result_bind (getitem fuzzer_config "name") (fun name =>
    result_bind (str_add base name) (fun full =>
    Ok (VStr full))))).

(** [os.path.join(a, v)]: the component has to be a [str]. *)
Definition path_join_value (a : string) (v : PyValue) : Result string :=
  match v with
  | VStr b => Ok (path_join a b)
  | _ => Raise TypeError
  end.

(** [set_up_fuzzer_config_files] *)
Definition set_up_fuzzer_config_files
  (fuzzer_configs : list (gmap string PyValue)) : M unit :=
  scoped "set_up_fuzzer_config_files" (
    match fuzzer_configs with
    | [] =>
        raise (Exception ("Need to provide either a list of fuzzers or "
                          +:+ "a list of fuzzer configs."))
    | _ =>
        let fuzzer_config_dir := path_join CONFIG_DIR "fuzzer-configs" in
        call (filesystem_recreate_directory fuzzer_config_dir) >>
        for_each fuzzer_configs (fun fuzzer_config =>
          validate_fuzzer_config fuzzer_config >>
          let* full_name := lift (get_full_fuzzer_name fuzzer_config) in
          let* config_file_name :=
            lift (path_join_value fuzzer_config_dir full_name) in
          call (yaml_utils_write config_file_name fuzzer_config))
    end).

(** *** The process environment and the local files *)

(** [key in os.environ] *)
Definition environ_contains (key : string) : M bool :=
  let* w := get_world in
  ret (bool_decide (is_Some (environ w !! key))).

(** [os.getenv(key)] *)
Definition os_getenv (key : string) : M (option string) :=
  let* w := get_world in
  ret (environ w !! key).

(** [os.environ[key]] *)
Definition environ_getitem (key : string) : M string :=
  let* w := get_world in
  match environ w !! key with
  | Some v => ret v
  | None => raise (KeyError key)
  end.

(** [os.environ[key] = value]: the value has to be a [str]. *)
Definition environ_setitem (key : string) (value : PyValue) : M unit :=
  match value with
  | VStr s => modify (fun w => set_environ (<[key := s]> (environ w)) w)
  | _ => raise TypeError
  end.

(** [os.remove(path)] *)
Definition os_remove (path : string) : M unit :=
  let* w := get_world in
  match files w !! path with
  | Some _ => modify (fun w => set_files (delete path (files w)) w)
  | None => raise (FileNotFoundError path)
  end.

(** The truth value of what [os.getenv] returned. *)
Definition getenv_truthy (value : option string) : bool :=
  match value with
  | Some s => negb (String.eqb s EmptyString)
  | None => false
  end.

(** *** copy_resources_to_bucket *)

(** [filter_file]: filter out unnecessary directories. *)
Definition filter_file (tar_info : tarfile.TarInfo)
  : option tarfile.TarInfo :=
  if re_match FILTER_SOURCE_REGEX (tarfile.name tar_info)
  then None
  else Some tar_info.

(** [with tarfile.open(archive, 'w:gz') as tar: tar.add(root, filter=f)]:
    the archive holds the members that [tar.add] offers to the filter and
    the filter returns. *)
Definition write_archive (archive root : string)
  (filter : tarfile.TarInfo -> option tarfile.TarInfo) : M unit :=
  call (tarfile_open_w archive) >>
  modify (fun w => set_files (<[archive := []]> (files w)) w) >>
  let* members := call (tar_walk root) in
  modify (fun w => set_files (<[archive := omap filter members]> (files w)) w).

Definition copy_resources_to_bucket (config_dir : string)
  (config : gmap string PyValue) : M unit :=
  scoped "copy_resources_to_bucket" (
    let* experiment_filestore := lift (getitem config "experiment_filestore") in
    environ_setitem "EXPERIMENT_FILESTORE" experiment_filestore >>
    let* experiment := lift (getitem config "experiment") in
    environ_setitem "EXPERIMENT" experiment >>
    let* w := get_world in
    let experiment_filestore_path :=
      get_experiment_filestore_path (environ w) in
    let base_destination := path_join experiment_filestore_path "input" in
    let source_archive := "src.tar.gz" in
    write_archive source_archive ROOT_DIR filter_file >>
    call (filestore_utils_cp source_archive (base_destination +:+ "/")) >>
    os_remove source_archive >>
    let destination := path_join base_destination "config" in
    call (filestore_utils_rsync config_dir destination)).

(** *** Dispatchers *)

(** The attributes of a dispatcher object. *)
Record Self : Type := mkSelf
  { self_config : gmap string PyValue
  ; self_instance_name : string
  ; self_process : option Process }.

Inductive Dispatcher : Type :=
| BaseDispatcher (self : Self)
| LocalDispatcher (self : Self)
| GoogleCloudDispatcher (self : Self).

(** [__init__], the same in [BaseDispatcher] and [LocalDispatcher]. *)
Definition init (config : gmap string PyValue) : Result Self :=
  result_bind (getitem config "experiment") (fun experiment =>
  Ok (mkSelf config (get_dispatcher_instance_name experiment) None)).

(** [create_async]; the object comes back with its [process] attribute
    set. *)
Definition create_async (dispatcher : Dispatcher) : M Dispatcher :=
  scoped "create_async" (
    match dispatcher with
    | BaseDispatcher _ => raise NotImplementedError
    | LocalDispatcher _ => ret dispatcher
    | GoogleCloudDispatcher self =>
        let process :=
          {| proc_instance_name := self_instance_name self;
             proc_config := self_config self |} in
        call (process_start process) >>
        ret (GoogleCloudDispatcher
               (mkSelf (self_config self) (self_instance_name self)
                       (Some process)))
    end).

(** [LocalDispatcher.start] *)
Definition LocalDispatcher_start (self : Self) : M PyValue :=
  let config := self_config self in
  let* experiment_filestore := lift (getitem config "experiment_filestore") in
  match experiment_filestore with
  | VStr filestore =>
      let experiment_filestore_path := abspath filestore in
      call (filesystem_create_directory experiment_filestore_path) >>
      let sql_database_arg :=
        "SQL_DATABASE_URL=sqlite:///"
        +:+ path_join experiment_filestore_path "local.db" in
      let* cloud_project := lift (getitem config "cloud_project") in
      let base_docker_tag := get_base_docker_tag cloud_project in
      let set_instance_name_arg :=
        "INSTANCE_NAME=" +:+ self_instance_name self in
      let* experiment := lift (getitem config "experiment") in
      let set_experiment_arg := "EXPERIMENT=" +:+ to_str experiment in
      let* cloud_project := lift (getitem config "cloud_project") in
      let set_cloud_project_arg :=
        "CLOUD_PROJECT=" +:+ to_str cloud_project in
      let* experiment_filestore :=
        lift (getitem config "experiment_filestore") in
      let shared_experiment_filestore_arg :=
        to_str experiment_filestore +:+ ":" +:+ to_str experiment_filestore in
      let* experiment_filestore :=
        lift (getitem config "experiment_filestore") in
      let set_experiment_filestore_arg :=
        "EXPERIMENT_FILESTORE=" +:+ to_str experiment_filestore in
      let* report_filestore := lift (getitem config "report_filestore") in
      let shared_report_filestore_arg :=
        to_str report_filestore +:+ ":" +:+ to_str report_filestore in
      let* report_filestore := lift (getitem config "report_filestore") in
      let set_report_filestore_arg :=
        "REPORT_FILESTORE=" +:+ to_str report_filestore in
      let docker_image_url := base_docker_tag +:+ "/dispatcher-image" in
      let command :=
        [ "docker"; "run"; "-ti"; "--rm";
          "-v"; "/var/run/docker.sock:/var/run/docker.sock";
          "-v"; shared_experiment_filestore_arg;
          "-v"; shared_report_filestore_arg;
          "-e"; set_instance_name_arg;
          "-e"; set_experiment_arg;
          "-e"; set_cloud_project_arg;
          "-e"; sql_database_arg;
          "-e"; set_experiment_filestore_arg;
          "-e"; set_report_filestore_arg;
          "-e"; "LOCAL_EXPERIMENT=True";
          "--cap-add=SYS_PTRACE"; "--cap-add=SYS_NICE";
          "--name=dispatcher-container";
          docker_image_url;
          "/bin/bash"; "-c";
          "rsync -r "
          +:+ quoted "${EXPERIMENT_FILESTORE}/${EXPERIMENT}/input/"
          +:+ " ${WORK} && "
          +:+ "mkdir ${WORK}/src && "
          +:+ "tar -xvzf ${WORK}/src.tar.gz -C ${WORK}/src && "
          +:+ "source " +:+ quoted "${WORK}/.venv/bin/activate" +:+ " && "
          +:+ "pip3 install -r " +:+ quoted "${WORK}/src/requirements.txt"
          +:+ " && "
          +:+ "PYTHONPATH=${WORK}/src python3 "
          +:+ "${WORK}/src/experiment/dispatcher.py || "
          +:+ "/bin/bash" ] in
      call (new_process_execute command)
  | _ => raise TypeError          (* [os.path.abspath] of a non-path *)
  end.

(** [GoogleCloudDispatcher.start] *)
Definition GoogleCloudDispatcher_start (self : Self) : M PyValue :=
  let config := self_config self in
  match self_process self with
  | None => raise AttributeError      (* [None.join()] *)
  | Some process =>
      call (process_join process) >>
      let* zone := lift (getitem config "cloud_compute_zone") in
      call (gcloud_robust_begin_gcloud_ssh (self_instance_name self) zone) >>
      let* cloud_project := lift (getitem config "cloud_project") in
      let base_docker_tag := get_base_docker_tag cloud_project in
      let* cloud_sql_instance_connection_name :=
        lift (getitem config "cloud_sql_instance_connection_name") in
      let* postgres_password := environ_getitem "POSTGRES_PASSWORD" in
      let* experiment := lift (getitem config "experiment") in
      let* cloud_project := lift (getitem config "cloud_project") in
      let* experiment_filestore :=
        lift (getitem config "experiment_filestore") in
      let command :=
        "echo 0 | sudo tee /proc/sys/kernel/yama/ptrace_scope && "
        +:+ "docker run --rm "
        +:+ "-e INSTANCE_NAME=" +:+ quoted (self_instance_name self) +:+ " "
        +:+ "-e EXPERIMENT=" +:+ quoted (to_str experiment) +:+ " "
        +:+ "-e CLOUD_PROJECT=" +:+ quoted (to_str cloud_project) +:+ " "
        +:+ "-e EXPERIMENT_FILESTORE="
        +:+ quoted (to_str experiment_filestore) +:+ " "
        +:+ "-e POSTGRES_PASSWORD=" +:+ quoted postgres_password +:+ " "
        +:+ "-e CLOUD_SQL_INSTANCE_CONNECTION_NAME="
        +:+ quoted (to_str cloud_sql_instance_connection_name) +:+ " "
        +:+ "--cap-add=SYS_PTRACE --cap-add=SYS_NICE "
        +:+ "-v /var/run/docker.sock:/var/run/docker.sock "
        +:+ "--name=dispatcher-container "
        +:+ base_docker_tag +:+ "/dispatcher-image "
        +:+ "/work/startup-dispatcher.sh" in
      let* zone := lift (getitem config "cloud_compute_zone") in
      call (gcloud_ssh (self_instance_name self) command zone)
  end.

(** [dispatcher.start()], by the class of the object. *)
Definition start (dispatcher : Dispatcher) : M PyValue :=
  scoped "start" (
    match dispatcher with
    | BaseDispatcher _ => raise NotImplementedError
    | LocalDispatcher self => LocalDispatcher_start self
    | GoogleCloudDispatcher self => GoogleCloudDispatcher_start self
    end).

(** [get_dispatcher]: the dispatcher factory. *)
Definition get_dispatcher (config : gmap string PyValue)
  : Result Dispatcher :=
  if truthy (get config "local_experiment" VNone)
  then result_bind (init config) (fun self => Ok (LocalDispatcher self))
  else result_bind (init config) (fun self => Ok (GoogleCloudDispatcher self)).

(** *** Launching *)

(** [start_dispatcher] *)
Definition start_dispatcher (config : gmap string PyValue)
  (config_dir : string) : M unit :=
  let* dispatcher := lift (get_dispatcher config) in
  let* manual_experiment := os_getenv "MANUAL_EXPERIMENT" in
  let* dispatcher :=
    if negb (getenv_truthy manual_experiment)
    then create_async dispatcher
    else ret dispatcher in
  copy_resources_to_bucket config_dir config >>
  if negb (getenv_truthy manual_experiment)
  then start dispatcher >> ret tt
  else ret tt.

(** The block of [start_experiment] under the comment "Make sure we can
    connect to database": the check of the password and the switch of the
    default project, for an experiment that is not local. *)
Definition make_sure_we_can_connect_to_database
  (config : gmap string PyValue) : M unit :=
  let local_experiment := get config "local_experiment" (VBool false) in
  if negb (truthy local_experiment)
  then
    let* has_password := environ_contains "POSTGRES_PASSWORD" in
    if negb has_password
    then raise (Exception
                  "Must set POSTGRES_PASSWORD environment variable.")
    else
      let* cloud_project := lift (getitem config "cloud_project") in
      call (gcloud_set_default_project cloud_project)
  else ret tt.

(** [start_experiment] *)
Definition start_experiment (experiment_name config_filename : string)
  (benchmarks : list string) (fuzzer_configs : list (gmap string PyValue))
  : M unit :=
  check_no_local_changes >>
  lift (validate_experiment_name experiment_name) >>
  lift (validate_benchmarks benchmarks) >>
  let* config := read_and_validate_experiment_config config_filename in
  let config := <["benchmarks" := VStr (join "," benchmarks)]> config in
  let config := <["experiment" := VStr experiment_name]> config in
  let* git_hash := get_git_hash in
  let config := <["git_hash" := VStr git_hash]> config in
  set_up_experiment_config_file config >>
  set_up_fuzzer_config_files fuzzer_configs >>
  make_sure_we_can_connect_to_database config >>
  start_dispatcher config CONFIG_DIR.

End run_experiment.

(** ** Reading the validation rules as the documentation words them

    The four rules a required parameter can violate, each stated on its own:
    a rule does not look at whether another rule is violated too. *)

Inductive Rule : Type :=
| MissingKey            (* the key is absent *)
| NonIntValue           (* an int key whose value is not an int *)
| NonLowercaseString    (* a string key whose value is not a lowercase str *)
| WrongScheme.          (* a filestore whose path scheme does not fit *)

Definition all_rules : list Rule :=
  [MissingKey; NonIntValue; NonLowercaseString; WrongScheme].

(** The prefix a filestore must have: [/] locally, [gs://] on Google Cloud. *)
Definition scheme (local_experiment : PyValue) : string :=
  if truthy local_experiment then "/" else "gs://".

(** [value] is a string that starts with [prefix]. *)
Definition has_scheme (value : PyValue) (prefix : string) : bool :=
  match value with
  | VStr s => startswith s prefix
  | _ => false
  end.

Definition local_experiment_of (config : gmap string PyValue) : PyValue :=
  get config "local_experiment" (VBool false).

Definition violates (config : gmap string PyValue) (param : string)
  (rule : Rule) : bool :=
  match rule, config !! param with
  | MissingKey, None => true
  | MissingKey, Some _ => false
  | _, None => false
  | NonIntValue, Some value =>
      bool_decide (param ∈ int_params) && negb (isinstance_int value)
  | NonLowercaseString, Some value =>
      bool_decide (param ∈ string_params) && not_lowercase_str value
  | WrongScheme, Some value =>
      bool_decide (param ∈ filestore_params)
      && isinstance_str value
      && negb (has_scheme value (scheme (local_experiment_of config)))
  end.

(** Every rule a required parameter violates, parameter by parameter. *)
Definition violations (config : gmap string PyValue)
  : list (string * Rule) :=
  List.filter (fun '(param, rule) => violates config param rule)
    (list_prod (elements (required_params (local_experiment_of config)))
               all_rules).

(** The message [logs.error] gets for a violated rule. *)
Definition report (config : gmap string PyValue) (param : string)
  (rule : Rule) : LogError :=
  let value := get config param VNone in
  match rule with
  | MissingKey => NotContained param
  | NonIntValue => MustBeInt param value
  | NonLowercaseString => MustBeLowercaseString param value
  | WrongScheme =>
      if truthy (local_experiment_of config)
      then MustBePosix param value
      else MustBeGs param value
  end.

(** The first rule [param] violates, in the order the rules are listed. *)
Definition first_violation (config : gmap string PyValue) (param : string)
  : option Rule :=
  List.find (violates config param) all_rules.

(** The messages of a log that are about [param]. *)
Definition errors_about (param : string) (log : list LogError)
  : list LogError :=
  List.filter (fun e => bool_decide (log_param e = Some param)) log.

(** The events a run added to the trace. *)
Definition new_events (before after : World) : list Event :=
  drop (length (trace before)) (trace after).

(** ** Sample collaborators, to run the program on concrete inputs *)

Module Sample.

Definition instance_name (experiment : PyValue) : string :=
  match experiment with
  | VStr s => "d-" +:+ s
  | _ => "d-"
  end.

Definition docker_tag (cloud_project : PyValue) : string :=
  match cloud_project with
  | VStr s => "gcr.io/" +:+ s
  | _ => "gcr.io"
  end.

Definition filestore_path (env : gmap string string) : string :=
  path_join (default EmptyString (env !! "EXPERIMENT_FILESTORE"))
            (default EmptyString (env !! "EXPERIMENT")).

Definition abspath (path : string) : string := path.

Definition py_str (v : PyValue) : string :=
  match v with
  | VNone => "None"
  | VBool true => "True"
  | VBool false => "False"
  | _ => "?"
  end.

Definition ROOT_DIR : string := "/src".

(** A collaborator world where every call returns: [git diff] prints
    nothing, the configuration file holds [document], the fuzzers directory
    holds [fuzzers], the source tree holds [members]; the upload fails when
    [cp_fails] is set. *)
Definition oracle (document : PyValue) (fuzzers : list string)
  (members : list tarfile.TarInfo) (cp_fails : bool) : Oracle :=
  fun A c _ =>
    match c in Call T return Result T with
    | subprocess_check_output args _ =>
        match args with
        | [_; "diff"] => Ok EmptyString
        | _ => Ok ("0123abc" +:+ String "010" EmptyString)
        end
    | yaml_utils_read _ => Ok document
    | yaml_utils_write _ _ => Ok tt
    | open_w _ => Ok tt
    | yaml_dump _ _ => Ok tt
    | os_listdir _ => Ok fuzzers
    | os_path_isdir _ => Ok true
    | filesystem_recreate_directory _ => Ok tt
    | filesystem_create_directory _ => Ok tt
    | gcloud_set_default_project _ => Ok tt
    | gcloud_robust_begin_gcloud_ssh _ _ => Ok tt
    | gcloud_ssh _ _ _ => Ok VNone
    | process_start _ => Ok tt
    | process_join _ => Ok tt
    | tarfile_open_w _ => Ok tt
    | tar_walk _ => Ok members
    | filestore_utils_cp _ _ =>
        if cp_fails then Raise (CollaboratorError "filestore_utils.cp")
        else Ok tt
    | filestore_utils_rsync _ _ => Ok tt
    | new_process_execute _ => Ok VNone
    end.

Definition world : World := mkWorld [] [] ∅ ∅.

(** A valid local configuration: no [cloud_project], no zone. *)
Definition local_config : gmap string PyValue :=
  {[ "local_experiment" := VBool true;
     "trials" := VInt 5;
     "max_total_time" := VInt 86400;
     "experiment_filestore" := VStr "/data/experiment";
     "report_filestore" := VStr "/data/report" ]}.

(** A valid cloud configuration. *)
Definition cloud_config : gmap string PyValue :=
  {[ "trials" := VInt 5;
     "max_total_time" := VInt 86400;
     "cloud_compute_zone" := VStr "us-central1-a";
     "experiment_filestore" := VStr "gs://experiment-data";
     "report_filestore" := VStr "gs://report-data" ]}.

End Sample.

(** [logs.error] called for each message of [es] in turn. *)
Definition add_logs (es : list LogError) (w : World) : World :=
  mkWorld (trace w) (logs w ++ es) (environ w) (files w).

(** What the loop logs about [param]: the message of the first rule it
    violates, if it violates one. *)
Definition param_report (config : gmap string PyValue) (param : string)
  : option LogError :=
  report config param <$> first_violation config param.

Definition invalid_message (config_filename : string) : string :=
  "Config: " +:+ config_filename +:+ " is invalid.".

Definition has_legacy_key (config : gmap string PyValue) : bool :=
  contains config "cloud_experiment_bucket"
  || contains config "cloud_web_bucket".

(** Configurations that break the rules, to run the validation on. *)
Module BadSample.

(** A local configuration whose experiment filestore is a relative path
    with a capital letter: neither lowercase nor a Posix absolute path. *)
Definition mixed_case_config : gmap string PyValue :=
  <[ "experiment_filestore" := VStr "Foo" ]> Sample.local_config.

(** A cloud configuration without 'trials', whose 'max_total_time' is a
    string and whose report filestore is a local path. *)
Definition broken_config : gmap string PyValue :=
  {[ "max_total_time" := VStr "a day";
     "cloud_compute_zone" := VStr "us-central1-a";
     "experiment_filestore" := VStr "gs://experiment-data";
     "report_filestore" := VStr "/data/report" ]}.

(** A valid cloud configuration that still carries a legacy key. *)
Definition legacy_config : gmap string PyValue :=
  <[ "cloud_experiment_bucket" := VStr "gs://old-bucket" ]>
    Sample.cloud_config.

End BadSample.

(** ** Reasoning about runs

    [wp m Q w]: run from [w], the computation [m] appends some events [t]
    to the trace and ends with a result, a world and such a [t] that
    satisfy [Q]. *)
Definition wp {A} (m : M A) (Q : Result A -> World -> list Event -> Prop)
  (w : World) : Prop :=
  exists t, trace (m w).2 = trace w ++ t /\ Q (m w).1 (m w).2 t.

(** Kinds of events. *)
Definition enters (function : string) (e : Event) : bool :=
  match e with
  | EEnter f => String.eqb function f
  | _ => false
  end.

Definition returns_from (function : string) (e : Event) : bool :=
  match e with
  | EReturn f => String.eqb function f
  | _ => false
  end.

(** A call that sets up or writes a configuration file. *)
Definition writes_config (e : Event) : bool :=
  match e with
  | ECall c _ =>
      match c with
      | yaml_dump _ _ | yaml_utils_write _ _ | open_w _
      | filesystem_recreate_directory _ => true
      | _ => false
      end
  | _ => false
  end.

(** A call that uploads the archive. *)
Definition uploads (returned : bool) (e : Event) : bool :=
  match e with
  | ECall c b =>
      match c with
      | filestore_utils_cp _ _ => Bool.eqb b returned
      | _ => false
      end
  | _ => false
  end.

(** Entering or leaving the bundling, or entering [start]. *)
Definition launch_marker (e : Event) : bool :=
  enters "copy_resources_to_bucket" e
  || returns_from "copy_resources_to_bucket" e
  || enters "start" e.

(** Neither a launch marker nor a configuration write. *)
Definition calm (e : Event) : bool :=
  negb (launch_marker e) && negb (writes_config e).

(** Every event that any run of [m] appends satisfies [P]. *)
Definition only {A} (P : Event -> bool) (m : M A) : Prop :=
  forall w, wp m (fun _ _ t => Forall (fun e => P e = true) t) w.

(** No run of [m] touches the process environment or the local files. *)
Definition keeps_state {A} (m : M A) : Prop :=
  forall w, environ (m w).2 = environ w /\ files (m w).2 = files w.

(** Not a launch marker: an event of the preparation. *)
Definition unmarked (e : Event) : bool := negb (launch_marker e).

(** The traces [start_dispatcher] can leave: it stopped before the
    bundling, inside the bundling, after the bundling without starting the
    dispatcher, or it entered [start] right after the bundling returned. *)
Inductive dispatch_trace : list Event -> Prop :=
| stopped_before_bundling t :
    Forall (fun e => calm e = true) t ->
    dispatch_trace t
| stopped_in_bundling t body :
    Forall (fun e => calm e = true) t ->
    Forall (fun e => calm e = true) body ->
    dispatch_trace (t ++ EEnter "copy_resources_to_bucket" :: body)
| bundled_not_started t body :
    Forall (fun e => calm e = true) t ->
    Forall (fun e => calm e = true) body ->
    dispatch_trace (t ++ EEnter "copy_resources_to_bucket" :: body
                      ++ [EReturn "copy_resources_to_bucket"])
| bundled_and_started t body rest :
    Forall (fun e => calm e = true) t ->
    Forall (fun e => calm e = true) body ->
    Forall (fun e => calm e = true) rest ->
    dispatch_trace (t ++ EEnter "copy_resources_to_bucket" :: body
                      ++ EReturn "copy_resources_to_bucket"
                      :: EEnter "start" :: rest).

(** The configuration files are written: the dump of the experiment
    configuration returned, a write returned for each fuzzer
    configuration, and both set-up functions returned. *)
Definition prepared (fuzzer_configs : list (gmap string PyValue))
  (t : list Event) : Prop :=
  (exists config,
      ECall (yaml_dump config (path_join CONFIG_DIR "experiment.yaml")) true
      ∈ t)
  /\ (forall fuzzer_config, fuzzer_config ∈ fuzzer_configs ->
        exists config_file_name,
          ECall (yaml_utils_write config_file_name fuzzer_config) true ∈ t)
  /\ EReturn "set_up_experiment_config_file" ∈ t
  /\ EReturn "set_up_fuzzer_config_files" ∈ t.

(** The traces [start_experiment] can leave: it stopped while preparing,
    or it prepared everything and went on to the dispatcher. *)
Inductive launch_trace (fuzzer_configs : list (gmap string PyValue))
  : list Event -> Prop :=
| stopped_preparing t :
    Forall (fun e => unmarked e = true) t ->
    launch_trace fuzzer_configs t
| dispatching t d :
    Forall (fun e => unmarked e = true) t ->
    prepared fuzzer_configs t ->
    dispatch_trace d ->
    launch_trace fuzzer_configs (t ++ d).

(** A launch to run: one fuzzer, one benchmark, a source tree of two
    members. *)
Module SampleLaunch.

Definition fuzzer_configs : list (gmap string PyValue) :=
  [ {[ "fuzzer" := VStr "afl" ]} ].

Definition members : list tarfile.TarInfo :=
  [ {| tarfile.name := ".git/config" |};
    {| tarfile.name := "fuzzers/afl/fuzzer.py" |} ].

Definition oracle (document : PyValue) (cp_fails : bool) : Oracle :=
  Sample.oracle document ["afl"] members cp_fails.

(** [start_experiment] on the configuration file [document]. *)
Definition launch (document : PyValue) (cp_fails : bool) (w : World)
  : Result unit * World :=
  start_experiment (oracle document cp_fails) Sample.ROOT_DIR
    Sample.instance_name Sample.docker_tag Sample.filestore_path
    Sample.abspath Sample.py_str
    "exp-1" "experiment.yaml" ["libpng"] fuzzer_configs w.

(** A configuration as [start_experiment] stamps it. *)
Definition stamped (config : gmap string PyValue) : gmap string PyValue :=
  <[ "git_hash" := VStr "0123abc" ]>
    (<[ "experiment" := VStr "exp-1" ]>
       (<[ "benchmarks" := VStr "libpng" ]> config)).

(** [copy_resources_to_bucket] on a stamped configuration. *)
Definition bundle (config : gmap string PyValue) (cp_fails : bool)
  (w : World) : Result unit * World :=
  copy_resources_to_bucket (oracle VNone cp_fails) Sample.ROOT_DIR
    Sample.filestore_path CONFIG_DIR (stamped config) w.

End SampleLaunch.

Definition source_archive : string := "src.tar.gz".

(** A process environment that holds the database password. *)
Definition world_with_password : World :=
  mkWorld [] [] {[ "POSTGRES_PASSWORD" := "secret" ]} ∅.

(** ** What a regular expression matches

    [Matches r pos u rest]: at offset [pos] of the subject, [r] matches the
    text [u], which [rest] follows.  The matcher [matches] is checked
    against this relation below. *)

(** Every character of [u] is in the class. *)
Fixpoint all_in (cls : ascii -> bool) (u : string) : bool :=
  match u with
  | EmptyString => true
  | String c u' => cls c && all_in cls u'
  end.

Inductive Matches : regex -> nat -> string -> string -> Prop :=
| matches_bol rest :
    Matches Bol 0 EmptyString rest
| matches_eol pos rest :
    at_eol rest = true ->
    Matches Eol pos EmptyString rest
| matches_lit p pos rest :
    Matches (Lit p) pos p rest
| matches_star cls pos u rest :
    all_in cls u = true ->
    Matches (Star cls) pos u rest
| matches_rep cls lo hi pos u rest :
    all_in cls u = true ->
    (lo <= String.length u <= hi)%nat ->
    Matches (Rep cls lo hi) pos u rest
| matches_seq r1 r2 pos u1 u2 rest :
    Matches r1 pos u1 (u2 +:+ rest) ->
    Matches r2 (pos + String.length u1) u2 rest ->
    Matches (Seq r1 r2) pos (u1 +:+ u2) rest
| matches_alt_l r1 r2 pos u rest :
    Matches r1 pos u rest ->
    Matches (Alt r1 r2) pos u rest
| matches_alt_r r1 r2 pos u rest :
    Matches r2 pos u rest ->
    Matches (Alt r1 r2) pos u rest.

(** A path matches the denylist: one of the patterns matches a prefix of
    it, as [re.match] looks for a match at the start of the path. *)
Definition denylisted (path : string) : Prop :=
  exists pattern u rest,
    In pattern FILTER_SOURCE_ALTERNATIVES
    /\ path = u +:+ rest
    /\ Matches pattern 0 u rest.

(** [\n], which [$] lets follow the end of a match. *)
Definition newline : string := String "010"%char EmptyString.

(** The write of a fuzzer configuration file that an event records: the
    file name, the data and whether the call returned. *)
Definition write_event (e : Event)
  : option (string * gmap string PyValue * bool) :=
  match e with
  | ECall c returned =>
      match c with
      | yaml_utils_write filename data => Some (filename, data, returned)
      | _ => None
      end
  | _ => None
  end.

(** The writes of fuzzer configuration files in a trace, in order. *)
Definition write_events (t : list Event)
  : list (string * gmap string PyValue * bool) :=
  omap write_event t.

Definition not_write (e : Event) : bool :=
  match write_event e with
  | Some _ => false
  | None => true
  end.

(** The write that [set_up_fuzzer_config_files] makes for a
    configuration. *)
Definition written_as (fuzzer_config : gmap string PyValue)
  (write : string * gmap string PyValue * bool) : Prop :=
  exists name,
    get_full_fuzzer_name fuzzer_config = Ok (VStr name)
    /\ write = (path_join (path_join CONFIG_DIR "fuzzer-configs") name,
                fuzzer_config, true).

(** The dump of the experiment configuration. *)
Definition is_dump (e : Event) : bool :=
  match e with
  | ECall c _ =>
      match c with
      | yaml_dump _ _ => true
      | _ => false
      end
  | _ => false
  end.

Definition not_dump (e : Event) : bool := negb (is_dump e).

(** Not a call that sets up or writes a configuration file. *)
Definition not_config_write (e : Event) : bool := negb (writes_config e).

(** The configuration as [start_experiment] stamps it. *)
Definition stamp (config : gmap string PyValue) (benchmarks : list string)
  (experiment_name git_hash : string) : gmap string PyValue :=
  <[ "git_hash" := VStr git_hash ]>
    (<[ "experiment" := VStr experiment_name ]>
       (<[ "benchmarks" := VStr (join "," benchmarks) ]> config)).

(** A step that brings the dispatcher up: entering or leaving
    [create_async] or [start], or a call that one of them makes. *)
Definition dispatcher_step (e : Event) : bool :=
  match e with
  | ECall c _ =>
      match c with
      | process_start _ | process_join _
      | gcloud_robust_begin_gcloud_ssh _ _ | gcloud_ssh _ _ _
      | filesystem_create_directory _ | new_process_execute _ => true
      | _ => false
      end
  | EEnter f | EReturn f =>
      String.eqb f "create_async" || String.eqb f "start"
  end.

Definition not_dispatcher_step (e : Event) : bool := negb (dispatcher_step e).

(** A call to Google Cloud: the switch of the default project, the worker
    that creates the dispatcher instance, or a command on that instance. *)
Definition touches_cloud (e : Event) : bool :=
  match e with
  | ECall c _ =>
      match c with
      | gcloud_set_default_project _ | process_start _ | process_join _
      | gcloud_robust_begin_gcloud_ssh _ _ | gcloud_ssh _ _ _ => true
      | _ => false
      end
  | _ => false
  end.

Definition not_cloud (e : Event) : bool := negb (touches_cloud e).

(** A call to a collaborator that raised. *)
Definition call_raised (e : Event) : bool :=
  match e with
  | ECall _ returned => negb returned
  | _ => false
  end.

(** The keys of a configuration that the validation looks at. *)
Definition validated_keys : list string :=
  [ "trials"; "max_total_time"; "experiment_filestore"; "report_filestore";
    "cloud_compute_zone"; "local_experiment"; "cloud_experiment_bucket";
    "cloud_web_bucket" ].

(** What [copy_resources_to_bucket] may change: the local archive
    'src.tar.gz' and the variables EXPERIMENT_FILESTORE and EXPERIMENT of
    the process environment. *)
Definition bundling_frame (w w' : World) : Prop :=
  (forall path, path <> source_archive -> files w' !! path = files w !! path)
  /\ (forall key, key <> "EXPERIMENT_FILESTORE" -> key <> "EXPERIMENT" ->
        environ w' !! key = environ w !! key)
  /\ logs w' = logs w.

(** The trace of a bundling that returns: the archive is opened, the tree
    under [root] is walked, the archive is copied below [base] and the
    configuration directory is synchronised to [base]/config. *)
Definition bundled_trace (root config_dir base : string) : list Event :=
  [ EEnter "copy_resources_to_bucket";
    ECall (tarfile_open_w source_archive) true;
    ECall (tar_walk root) true;
    ECall (filestore_utils_cp source_archive (base +:+ "/")) true;
    ECall (filestore_utils_rsync config_dir (path_join base "config")) true;
    EReturn "copy_resources_to_bucket" ].

(** * Properties *)

(** ** get_full_fuzzer_name *)

Lemma contains_true (d : gmap string PyValue) key v :
  d !! key = Some v -> contains d key = true.
Proof. intros H. unfold contains. rewrite H. by apply bool_decide_eq_true. Qed.

Lemma contains_false (d : gmap string PyValue) key :
  d !! key = None -> contains d key = false.
Proof.
  intros H. unfold contains. rewrite H. apply bool_decide_eq_false.
  by intros [? ?].
Qed.

Lemma string_app_assoc (a b c : string) : (a +:+ b) +:+ c = a +:+ b +:+ c.
Proof.
  induction a as [|x a IH]; [done|].
  change (String x ((a +:+ b) +:+ c) = String x (a +:+ b +:+ c)).
  by rewrite IH.
Qed.

(** C5.  With the base name [fuzzer] under the key 'fuzzer':
    without a 'name' key the full name is [fuzzer]; with the variant [name]
    under 'name' it is [fuzzer], an underscore and [name].  So
    {fuzzer: afl} is named afl and {fuzzer: afl, name: v2} is named
    afl_v2. *)
Theorem get_full_fuzzer_name_spec
  (fuzzer_config : gmap string PyValue) (fuzzer : string)
  (Hfuzzer : fuzzer_config !! "fuzzer" = Some (VStr fuzzer)) :
  (fuzzer_config !! "name" = None ->
   get_full_fuzzer_name fuzzer_config = Ok (VStr fuzzer))
  /\ (forall name, fuzzer_config !! "name" = Some (VStr name) ->
      get_full_fuzzer_name fuzzer_config
      = Ok (VStr (fuzzer +:+ "_" +:+ name)))
  /\ get_full_fuzzer_name {[ "fuzzer" := VStr "afl" ]} = Ok (VStr "afl")
  /\ get_full_fuzzer_name {[ "fuzzer" := VStr "afl"; "name" := VStr "v2" ]}
     = Ok (VStr "afl_v2").
Proof.
  repeat split.
  - intros Hname. unfold get_full_fuzzer_name, getitem.
    by rewrite (contains_false _ _ Hname), Hfuzzer.
  - intros name Hname. unfold get_full_fuzzer_name, getitem.
    rewrite (contains_true _ _ _ Hname), Hfuzzer, Hname. simpl.
    by rewrite string_app_assoc.
Qed.

Lemma get_full_fuzzer_name_spec_witness :
  get_full_fuzzer_name {[ "fuzzer" := VStr "honggfuzz" ]}
  = Ok (VStr "honggfuzz")
  /\ get_full_fuzzer_name
       {[ "fuzzer" := VStr "honggfuzz"; "name" := VStr "qemu" ]}
     = Ok (VStr "honggfuzz_qemu").
Proof.
  split.
  - refine (proj1 (get_full_fuzzer_name_spec
                     {[ "fuzzer" := VStr "honggfuzz" ]} "honggfuzz" _) _);
      vm_compute; reflexivity.
  - refine (proj1 (proj2 (get_full_fuzzer_name_spec
                     {[ "fuzzer" := VStr "honggfuzz"; "name" := VStr "qemu" ]}
                     "honggfuzz" _)) "qemu" _);
      vm_compute; reflexivity.
Defined.

(** ** The matcher against the meaning of the patterns *)

Lemma string_length_app (a b : string) :
  String.length (a +:+ b) = (String.length a + String.length b)%nat.
Proof.
  induction a as [|x a IH]; [done|].
  change (S (String.length (a +:+ b))
          = S (String.length a + String.length b)).
  by rewrite IH.
Qed.

Lemma literal_spec p s s' : literal p s = Some s' <-> s = p +:+ s'.
Proof.
  revert s. induction p as [|a p IH]; intros s; simpl.
  - split; [by intros [= ->] | by intros ->].
  - destruct s as [|b s]; [split; [discriminate|by intros ?]|].
    destruct (Ascii.eqb_spec a b) as [->|Hne].
    + rewrite IH. split; [by intros -> | by intros [= ->]].
    + split; [discriminate|]. intros [= ? ?]. done.
Qed.

Lemma string_app_nil_l (s : string) : EmptyString +:+ s = s.
Proof. reflexivity. Qed.

Lemma string_app_cons (c : ascii) (a b : string) :
  String c a +:+ b = String c (a +:+ b).
Proof. reflexivity. Qed.

(** Unfolds [+:+], [String.length] and [all_in] on explicit heads. *)
Ltac str_simpl :=
  rewrite ?string_app_nil_l, ?string_app_cons in *;
  cbn [String.length all_in] in *.

Lemma star_spec cls pos s k :
  star cls pos s k = true
  <-> exists u rest,
        s = u +:+ rest /\ all_in cls u = true
        /\ k (pos + String.length u)%nat rest = true.
Proof.
  revert pos. induction s as [|c s IH]; intros pos; simpl.
  - rewrite orb_false_r. split.
    + intros Hk. exists EmptyString, EmptyString.
      by rewrite Nat.add_0_r.
    + intros (u & rest & Heq & _ & Hk).
      destruct u; [|discriminate]. str_simpl. subst rest.
      by rewrite Nat.add_0_r in Hk.
  - rewrite orb_true_iff, andb_true_iff, IH. split.
    + intros [Hk | [Hc (u & rest & -> & Hu & Hk)]].
      * exists EmptyString, (String c s). by rewrite Nat.add_0_r.
      * exists (String c u), rest. str_simpl. rewrite Hc, Hu.
        by rewrite Nat.add_succ_r.
    + intros (u & rest & Heq & Hu & Hk). destruct u as [|c' u].
      * left. str_simpl. subst rest. by rewrite Nat.add_0_r in Hk.
      * right. str_simpl. injection Heq as <- ->.
        apply andb_true_iff in Hu as [Hc Hu]. split; [done|].
        exists u, rest. by rewrite Nat.add_succ_r in Hk.
Qed.

Lemma rep_spec cls lo hi pos s k :
  rep cls lo hi pos s k = true
  <-> exists u rest,
        s = u +:+ rest /\ all_in cls u = true
        /\ (lo <= String.length u <= hi)%nat
        /\ k (pos + String.length u)%nat rest = true.
Proof.
  revert lo pos s. induction hi as [|hi IH]; intros lo pos s; simpl.
  - split.
    + destruct lo; [|discriminate]. intros Hk.
      exists EmptyString, s. rewrite Nat.add_0_r. str_simpl. auto with lia.
    + intros (u & rest & -> & _ & Hlen & Hk).
      destruct u; [|str_simpl; lia]. str_simpl.
      destruct lo; [|lia]. by rewrite Nat.add_0_r in Hk.
  - rewrite orb_true_iff. split.
    + intros [Hk | Hstep].
      * destruct lo; [|discriminate].
        exists EmptyString, s. rewrite Nat.add_0_r. str_simpl.
        auto with lia.
      * destruct s as [|c s]; [discriminate|].
        apply andb_true_iff in Hstep as [Hc Hstep].
        apply IH in Hstep as (u & rest & -> & Hu & Hlen & Hk).
        exists (String c u), rest. str_simpl. rewrite Hc, Hu.
        rewrite Nat.add_succ_r. repeat split; [lia..|done].
    + intros (u & rest & -> & Hu & Hlen & Hk). destruct u as [|c u].
      * left. str_simpl. destruct lo; [|lia].
        by rewrite Nat.add_0_r in Hk.
      * right. str_simpl. apply andb_true_iff in Hu as [Hc Hu].
        rewrite Hc. cbn [andb]. apply IH. exists u, rest.
        rewrite Nat.add_succ_r in Hk. repeat split; [done|lia..|done].
Qed.

(** The matcher accepts exactly when the subject splits into a text that
    the pattern matches and a rest that the continuation accepts. *)
Theorem matches_spec r pos s k :
  matches r pos s k = true
  <-> exists u rest,
        s = u +:+ rest /\ Matches r pos u rest
        /\ k (pos + String.length u)%nat rest = true.
Proof.
  revert pos s k. induction r as [| |p|cls|cls lo hi|r1 IH1 r2 IH2|r1 IH1 r2 IH2];
    intros pos s k; simpl.
  - split.
    + destruct pos; [|discriminate]. intros Hk.
      exists EmptyString, s. repeat split; [constructor|done].
    + intros (u & rest & -> & Hm & Hk). inversion Hm; subst. done.
  - rewrite andb_true_iff. split.
    + intros [Heol Hk]. exists EmptyString, s. rewrite Nat.add_0_r.
      repeat split; [by constructor|done].
    + intros (u & rest & -> & Hm & Hk). inversion Hm; subst.
      by rewrite Nat.add_0_r in Hk.
  - split.
    + destruct (literal p s) as [s'|] eqn:E; [|discriminate].
      apply literal_spec in E as ->. intros Hk. exists p, s'.
      repeat split; [constructor|done].
    + intros (u & rest & -> & Hm & Hk). inversion Hm; subst.
      by rewrite (proj2 (literal_spec u (u +:+ rest) rest) eq_refl).
  - rewrite star_spec. split.
    + intros (u & rest & -> & Hu & Hk). exists u, rest.
      repeat split; [by constructor|done].
    + intros (u & rest & -> & Hm & Hk). inversion Hm; subst. eauto.
  - rewrite rep_spec. split.
    + intros (u & rest & -> & Hu & Hlen & Hk). exists u, rest.
      repeat split; [by constructor|done].
    + intros (u & rest & -> & Hm & Hk). inversion Hm; subst.
      exists u, rest. eauto.
  - rewrite IH1. split.
    + intros (u1 & rest1 & -> & Hm1 & Hk).
      apply IH2 in Hk as (u2 & rest & -> & Hm2 & Hk).
      exists (u1 +:+ u2), rest.
      rewrite string_app_assoc, string_length_app, Nat.add_assoc.
      repeat split; [by constructor|done].
    + intros (u & rest & -> & Hm & Hk). inversion Hm; subst.
      exists u1, (u2 +:+ rest). rewrite string_app_assoc.
      repeat split; [done|]. apply IH2. exists u2, rest.
      rewrite string_length_app, Nat.add_assoc in Hk. done.
  - rewrite orb_true_iff, IH1, IH2. split.
    + intros [(u & rest & -> & Hm & Hk) | (u & rest & -> & Hm & Hk)];
        exists u, rest; repeat split; try done;
        [by apply matches_alt_l | by apply matches_alt_r].
    + intros (u & rest & -> & Hm & Hk). inversion Hm; subst;
        [left | right]; eauto.
Qed.

(** [re.match] finds a match exactly when the pattern matches a prefix of
    the subject at offset 0. *)
Corollary re_match_spec r s :
  re_match r s = true
  <-> exists u rest, s = u +:+ rest /\ Matches r 0 u rest.
Proof.
  unfold re_match. rewrite matches_spec. split.
  - intros (u & rest & ? & ? & _). eauto.
  - intros (u & rest & ? & ?). eauto 6.
Qed.

Lemma re_match_alternation l s :
  re_match (alternation l) s = existsb (fun r => re_match r s) l.
Proof.
  induction l as [|r [|r' l] IH].
  - reflexivity.
  - simpl. by rewrite orb_false_r.
  - change (re_match (alternation (r :: r' :: l)) s)
      with (re_match r s || re_match (alternation (r' :: l)) s).
    by rewrite IH.
Qed.

Lemma excluded_by r u rest :
  In r FILTER_SOURCE_ALTERNATIVES ->
  Matches r 0 u rest ->
  filter_file {| tarfile.name := u +:+ rest |} = None.
Proof.
  intros Hin Hm. unfold filter_file, FILTER_SOURCE_REGEX.
  rewrite re_match_alternation.
  replace (existsb _ _) with true; [done|]. symmetry.
  apply existsb_exists. exists r. split; [done|].
  apply re_match_spec. eauto.
Qed.

Lemma matches_anchored_lit p rest :
  Matches (Seq Bol (Lit p)) 0 p rest.
Proof.
  apply (matches_seq Bol (Lit p) 0 EmptyString p rest); constructor.
Qed.

(** The denylist by families: whatever follows one of the excluded
    directory prefixes is excluded, and so is whatever holds a
    [/test_data/] component after text without a newline. *)
Lemma denylist_families :
  (forall prefix rest,
      prefix ∈ [ ".git/"; ".pytype/"; ".venv/"; "__pycache__/";
                 ".pytest_cache/"; "third_party/oss-fuzz/build/"; "docs/" ] ->
      filter_file {| tarfile.name := prefix +:+ rest |} = None)
  /\ (forall before rest,
         all_in dot before = true ->
         filter_file {| tarfile.name := before +:+ "/test_data/" +:+ rest |}
         = None).
Proof.
  split.
  - intros prefix rest Hin.
    repeat (apply elem_of_cons in Hin as [->|Hin]);
      [| | | | | | |by apply elem_of_nil in Hin].
    1-4, 6-7: (eapply excluded_by; [|apply matches_anchored_lit];
               simpl; auto 20).
    eapply excluded_by; [|apply matches_lit]. simpl. auto 20.
  - intros before rest Hbefore. rewrite <- string_app_assoc.
    eapply excluded_by;
      [|apply (matches_seq (Star dot) (Lit "/test_data/")); constructor].
    + simpl. auto 20.
    + done.
Qed.

(** ** The archive filter *)

Lemma elem_of_omap_filter_file (members : list tarfile.TarInfo) tar_info :
  tar_info ∈ omap filter_file members
  <-> tar_info ∈ members
      /\ re_match FILTER_SOURCE_REGEX (tarfile.name tar_info) = false.
Proof.
  rewrite list_elem_of_omap. unfold filter_file. split.
  - intros (x & Hin & Hx).
    destruct (re_match FILTER_SOURCE_REGEX (tarfile.name x)) eqn:E; [done|].
    by simplify_eq.
  - intros [Hin Hm]. exists tar_info. by rewrite Hm.
Qed.

Lemma denylisted_iff path :
  re_match FILTER_SOURCE_REGEX path = true <-> denylisted path.
Proof.
  unfold FILTER_SOURCE_REGEX, denylisted.
  rewrite re_match_alternation, existsb_exists. split.
  - intros (pattern & Hin & Hmatch).
    apply re_match_spec in Hmatch as (u & rest & Heq & Hm). eauto 6.
  - intros (pattern & u & rest & Hin & Heq & Hm). exists pattern.
    split; [done|]. apply re_match_spec. eauto.
Qed.

(** C6.  The filter drops a member when its path matches the denylist (a
    pattern of [FILTER_SOURCE_REGEX] matches at the start of the path) and
    returns every other member unchanged, so that the archive written from
    the members of the source tree holds exactly those whose path does not
    match.  '.git/config' is dropped and 'benchmarks/foo/build.sh' is
    kept. *)
Theorem filter_file_spec :
  (forall tar_info,
      (denylisted (tarfile.name tar_info) /\ filter_file tar_info = None)
      \/ (~ denylisted (tarfile.name tar_info)
          /\ filter_file tar_info = Some tar_info))
  /\ (forall (members : list tarfile.TarInfo) tar_info,
         tar_info ∈ omap filter_file members
         <-> tar_info ∈ members /\ ~ denylisted (tarfile.name tar_info))
  /\ filter_file {| tarfile.name := ".git/config" |} = None
  /\ filter_file {| tarfile.name := "benchmarks/foo/build.sh" |}
     = Some {| tarfile.name := "benchmarks/foo/build.sh" |}.
Proof.
  split; [|split; [|split]].
  - intros tar_info. unfold filter_file.
    destruct (re_match FILTER_SOURCE_REGEX (tarfile.name tar_info)) eqn:E.
    + left. split; [by apply denylisted_iff|done].
    + right. split; [|done]. rewrite <- denylisted_iff. congruence.
  - intros members tar_info. rewrite elem_of_omap_filter_file.
    rewrite <- denylisted_iff. by rewrite not_true_iff_false.
  - by vm_compute.
  - by vm_compute.
Qed.

(** ** The dispatcher factory *)

Section get_dispatcher.

Context (get_dispatcher_instance_name : PyValue -> string).

Lemma get_truthy_true (config : gmap string PyValue) key default :
  config !! key = Some (VBool true) -> truthy (get config key default) = true.
Proof. intros H. unfold get. by rewrite H. Qed.

Lemma get_absent (config : gmap string PyValue) key default :
  config !! key = None -> get config key default = default.
Proof. intros H. unfold get. by rewrite H. Qed.

(** C7, amended.  For a configuration that has the 'experiment' key, which
    the constructors read: the factory returns the LocalDispatcher when
    'local_experiment' is true and the GoogleCloudDispatcher when the key is
    absent; whatever it returns is one of these two, the local one exactly
    when 'local_experiment' is truthy, and it holds the configuration and
    the instance name derived from the experiment. *)
Theorem get_dispatcher_spec (config : gmap string PyValue)
  (experiment : PyValue)
  (Hexperiment : config !! "experiment" = Some experiment) :
  let self := mkSelf config (get_dispatcher_instance_name experiment) None in
  (config !! "local_experiment" = Some (VBool true) ->
   get_dispatcher get_dispatcher_instance_name config
   = Ok (LocalDispatcher self))
  /\ (config !! "local_experiment" = None ->
      get_dispatcher get_dispatcher_instance_name config
      = Ok (GoogleCloudDispatcher self))
  /\ get_dispatcher get_dispatcher_instance_name config
     = Ok (if truthy (get config "local_experiment" VNone)
           then LocalDispatcher self
           else GoogleCloudDispatcher self)
  /\ (forall self', get_dispatcher get_dispatcher_instance_name config
                    <> Ok (BaseDispatcher self')).
Proof.
  intros self.
  assert (Hrun : get_dispatcher get_dispatcher_instance_name config
                 = Ok (if truthy (get config "local_experiment" VNone)
                       then LocalDispatcher self
                       else GoogleCloudDispatcher self)).
  { unfold get_dispatcher, init, getitem. rewrite Hexperiment. simpl.
    by destruct (truthy _). }
  split; [|split; [|split]].
  - intros Hlocal. by rewrite Hrun, (get_truthy_true _ _ _ Hlocal).
  - intros Hlocal. by rewrite Hrun, (get_absent _ _ _ Hlocal).
  - exact Hrun.
  - intros self'. rewrite Hrun. by destruct (truthy _).
Qed.

End get_dispatcher.

Lemma get_dispatcher_spec_witness :
  get_dispatcher Sample.instance_name
    {[ "local_experiment" := VBool true; "experiment" := VStr "exp-1" ]}
  = Ok (LocalDispatcher
          (mkSelf {[ "local_experiment" := VBool true;
                     "experiment" := VStr "exp-1" ]} "d-exp-1" None))
  /\ get_dispatcher Sample.instance_name {[ "experiment" := VStr "exp-1" ]}
     = Ok (GoogleCloudDispatcher
             (mkSelf {[ "experiment" := VStr "exp-1" ]} "d-exp-1" None)).
Proof.
  split.
  - refine (proj1 (get_dispatcher_spec Sample.instance_name
                     {[ "local_experiment" := VBool true;
                        "experiment" := VStr "exp-1" ]}
                     (VStr "exp-1") _) _);
      vm_compute; reflexivity.
  - refine (proj1 (proj2 (get_dispatcher_spec Sample.instance_name
                     {[ "experiment" := VStr "exp-1" ]}
                     (VStr "exp-1") _)) _);
      vm_compute; reflexivity.
Defined.

(** C7 as stated fails: the configuration {local_experiment: true} has a
    true 'local_experiment', and the factory raises KeyError('experiment')
    from the constructor instead of returning a dispatcher. *)
Lemma get_dispatcher_needs_experiment :
  let config : gmap string PyValue := {[ "local_experiment" := VBool true ]} in
  config !! "local_experiment" = Some (VBool true)
  /\ get_dispatcher Sample.instance_name config
     = Raise (KeyError "experiment")
  /\ ~ exists self,
         get_dispatcher Sample.instance_name config
         = Ok (LocalDispatcher self).
Proof.
  assert (H : get_dispatcher Sample.instance_name
                ({[ "local_experiment" := VBool true ]} : gmap string PyValue)
              = Raise (KeyError "experiment")) by (vm_compute; reflexivity).
  split; [by vm_compute|]. split; [exact H|].
  intros [self Hself]. rewrite H in Hself. discriminate.
Qed.

(** ** Validation of the experiment configuration *)

Lemma add_logs_nil w : add_logs [] w = w.
Proof. destruct w. unfold add_logs. simpl. by rewrite app_nil_r. Qed.

Lemma add_logs_cons e es w : add_logs (e :: es) w = add_logs es (add_log e w).
Proof. unfold add_logs, add_log. simpl. by rewrite <- app_assoc. Qed.

Lemma add_logs_app es1 es2 w :
  add_logs (es1 ++ es2) w = add_logs es2 (add_logs es1 w).
Proof. unfold add_logs. simpl. by rewrite app_assoc. Qed.

Lemma filestore_is_string param :
  param ∈ filestore_params -> param ∈ string_params.
Proof. intros H. unfold string_params. by apply elem_of_union_r. Qed.

Lemma not_lowercase_str_false value :
  not_lowercase_str value = false -> exists s, value = VStr s.
Proof. destruct value; simpl; try discriminate. eauto. Qed.

(** One iteration of the loop: it logs the first rule the parameter
    violates and clears [valid], or does nothing. *)
Lemma validate_param_run config valid param w :
  validate_param config (local_experiment_of config) valid param w
  = match first_violation config param with
    | Some rule => (Ok false, add_log (report config param rule) w)
    | None => (Ok valid, w)
    end.
Proof.
  unfold validate_param, first_violation, all_rules, violates, report, get.
  simpl. destruct (config !! param) as [value|] eqn:Hvalue; simpl; [|done].
  destruct (bool_decide (param ∈ int_params) && negb (isinstance_int value));
    simpl; [done|].
  destruct (bool_decide (param ∈ string_params) && not_lowercase_str value)
    eqn:Hstr; simpl; [done|].
  destruct (bool_decide (param ∈ filestore_params)) eqn:Hfs; simpl; [|done].
  apply bool_decide_eq_true in Hfs.
  apply filestore_is_string in Hfs.
  rewrite (bool_decide_eq_true_2 _ Hfs) in Hstr. simpl in Hstr.
  destruct (not_lowercase_str_false _ Hstr) as [s ->]. simpl.
  unfold scheme.
  destruct (truthy (local_experiment_of config)); simpl;
    unfold bind, lift; simpl.
  - by destruct (startswith s "/").
  - by destruct (startswith s "gs://").
Qed.

(** The whole loop: it never raises, it logs one message for each
    parameter that violates a rule, and [valid] survives only if none
    does. *)
Lemma validate_loop_run config params valid w :
  for_fold params valid (validate_param config (local_experiment_of config)) w
  = (Ok (valid && forallb (fun param =>
                             bool_decide (first_violation config param = None))
                          params),
     add_logs (omap (param_report config) params) w).
Proof.
  revert valid w. induction params as [|param params IH]; intros valid w.
  - simpl. by rewrite andb_true_r, add_logs_nil.
  - simpl. unfold bind. rewrite validate_param_run.
    unfold param_report at 1.
    destruct (first_violation config param) as [rule|]; simpl.
    + rewrite IH. simpl. by rewrite andb_false_r, add_logs_cons.
    + by rewrite IH.
Qed.

Lemma validate_experiment_config_run config_filename config w :
  validate_experiment_config config_filename config w
  = (if forallb (fun param =>
                   bool_decide (first_violation config param = None))
                (elements (required_params (local_experiment_of config)))
     then Ok config
     else Raise (ValidationError (invalid_message config_filename)),
     add_logs
       ((if has_legacy_key config then [RenamedBuckets] else [])
        ++ omap (param_report config)
             (elements (required_params (local_experiment_of config))))
       w).
Proof.
  unfold validate_experiment_config. fold (local_experiment_of config).
  fold (has_legacy_key config). rewrite add_logs_app.
  unfold bind at 1.
  assert (Hlegacy :
    (if has_legacy_key config then logs_error RenamedBuckets else ret tt) w
    = (Ok tt, add_logs (if has_legacy_key config then [RenamedBuckets]
                        else []) w)).
  { destruct (has_legacy_key config).
    - by rewrite add_logs_cons, add_logs_nil.
    - by rewrite add_logs_nil. }
  rewrite Hlegacy. unfold bind. rewrite validate_loop_run. simpl.
  by destruct (forallb _ _).
Qed.

Lemma read_and_validate_run (oracle : Oracle) config_filename config w :
  oracle _ (yaml_utils_read config_filename) w = Ok (VDict config) ->
  read_and_validate_experiment_config oracle config_filename w
  = validate_experiment_config config_filename config
      (emit (ECall (yaml_utils_read config_filename) true) w).
Proof.
  intros H. unfold read_and_validate_experiment_config, bind, call.
  by rewrite H.
Qed.

(** A parameter passes the loop silently exactly when it violates no
    rule. *)
Lemma first_violation_None config param :
  first_violation config param = None
  <-> forall rule, violates config param rule = false.
Proof.
  unfold first_violation, all_rules. cbn [List.find]. split.
  - intros H rule.
    destruct (violates config param MissingKey) eqn:E1; [done|].
    destruct (violates config param NonIntValue) eqn:E2; [done|].
    destruct (violates config param NonLowercaseString) eqn:E3; [done|].
    destruct (violates config param WrongScheme) eqn:E4; [done|].
    by destruct rule.
  - intros H. by rewrite !H.
Qed.

Lemma first_violation_Some config param rule :
  first_violation config param = Some rule ->
  violates config param rule = true.
Proof. intros H. by apply find_some in H as [_ ?]. Qed.

Lemma all_valid_iff config (params : list string) :
  forallb (fun param => bool_decide (first_violation config param = None))
          params = true
  <-> forall param rule, param ∈ params -> violates config param rule = false.
Proof.
  rewrite forallb_forall. split.
  - intros H param rule Hin. apply list_elem_of_In in Hin.
    specialize (H _ Hin). apply bool_decide_eq_true in H.
    by apply first_violation_None.
  - intros H param Hin. apply bool_decide_eq_true.
    apply first_violation_None. intros rule. apply H.
    by apply list_elem_of_In.
Qed.

Lemma log_param_report config param rule :
  log_param (report config param rule) = Some param.
Proof. destruct rule; simpl; [done..|]. by destruct (truthy _). Qed.

Lemma errors_about_app param l1 l2 :
  errors_about param (l1 ++ l2)
  = errors_about param l1 ++ errors_about param l2.
Proof. unfold errors_about. apply List.filter_app. Qed.

(** Among the messages of the loop, those about one parameter. *)
Lemma errors_about_loop config param (params : list string) :
  NoDup params ->
  errors_about param (omap (param_report config) params)
  = if bool_decide (param ∈ params)
    then option_list (param_report config param)
    else [].
Proof.
  induction 1 as [|q params Hq Hnodup IH]; [done|].
  assert (Hhead : errors_about param (option_list (param_report config q))
                  = if bool_decide (param = q)
                    then option_list (param_report config param) else []).
  { unfold param_report. destruct (first_violation config q) as [rule|] eqn:E;
      simpl.
    - rewrite log_param_report.
      destruct (decide (param = q)) as [->|Hne].
      + rewrite !bool_decide_eq_true_2 by done. by rewrite E.
      + rewrite !bool_decide_eq_false_2 by congruence. done.
    - destruct (decide (param = q)) as [->|Hne].
      + rewrite bool_decide_eq_true_2 by done. by rewrite E.
      + by rewrite bool_decide_eq_false_2 by done. }
  assert (Hsplit : omap (param_report config) (q :: params)
                   = option_list (param_report config q)
                     ++ omap (param_report config) params).
  { simpl. by destruct (param_report config q). }
  rewrite Hsplit, errors_about_app, Hhead, IH.
  destruct (decide (param = q)) as [->|Hne].
  - rewrite bool_decide_eq_true_2 by done.
    rewrite (bool_decide_eq_false_2 (q ∈ params)) by done.
    rewrite (bool_decide_eq_true_2 (q ∈ q :: params)) by (apply elem_of_cons; by left).
    by rewrite app_nil_r.
  - rewrite (bool_decide_eq_false_2 (param = q)) by done. simpl.
    replace (bool_decide (param ∈ q :: params))
      with (bool_decide (param ∈ params)); [done|].
    apply bool_decide_ext. rewrite elem_of_cons. tauto.
Qed.

Lemma some_invalid_iff config (params : list string) :
  forallb (fun param => bool_decide (first_violation config param = None))
          params = false
  <-> exists param rule,
        param ∈ params /\ violates config param rule = true.
Proof.
  induction params as [|q params IH].
  - split; [discriminate|]. intros (? & ? & H & _). by apply elem_of_nil in H.
  - cbn [forallb]. rewrite andb_false_iff, IH. split.
    + intros [H|(param & rule & Hin & Hviol)].
      * apply bool_decide_eq_false in H.
        destruct (first_violation config q) as [rule|] eqn:E; [|done].
        exists q, rule. split; [by apply elem_of_cons; left|].
        by apply first_violation_Some.
      * exists param, rule. split; [by apply elem_of_cons; right|done].
    + intros (param & rule & Hin & Hviol).
      apply elem_of_cons in Hin as [->|Hin].
      * left. apply bool_decide_eq_false. intros Hnone.
        rewrite first_violation_None in Hnone.
        rewrite Hnone in Hviol. discriminate.
      * right. eauto.
Qed.

Lemma errors_about_validation config param :
  errors_about param
    ((if has_legacy_key config then [RenamedBuckets] else [])
     ++ omap (param_report config)
          (elements (required_params (local_experiment_of config))))
  = if bool_decide (param ∈ required_params (local_experiment_of config))
    then option_list (param_report config param)
    else [].
Proof.
  rewrite errors_about_app, errors_about_loop by apply NoDup_elements.
  replace (errors_about param
             (if has_legacy_key config then [RenamedBuckets] else []))
    with (@nil LogError) by (by destruct (has_legacy_key config)).
  simpl. apply (f_equal (fun b : bool => if b then _ else _)).
  apply bool_decide_ext. apply elem_of_elements.
Qed.


Lemma elem_of_by_compute (X : gset string) (x : string) :
  bool_decide (x ∈ X) = true -> x ∈ X.
Proof. apply bool_decide_eq_true_1. Qed.

Lemma elem_of_by_list (l : list string) (x : string) :
  bool_decide (x ∈ l) = true -> x ∈ l.
Proof. apply bool_decide_eq_true_1. Qed.



(** C1: the code at a configuration that is valid on every required
    parameter and carries the legacy key 'cloud_experiment_bucket': the
    validation logs that the keys were renamed and returns the
    configuration; it raises nothing. *)
Theorem legacy_key_is_logged_not_rejected :
  let config := BadSample.legacy_config in
  let run :=
    read_and_validate_experiment_config
      (Sample.oracle (VDict config) [] [] false) "experiment.yaml"
      Sample.world in
  contains config "cloud_experiment_bucket" = true
  /\ violations config = []
  /\ logs run.2 = [RenamedBuckets]
  /\ run.1 = Ok config.
Proof.
  cbv zeta. split; [vm_compute; reflexivity|].
  split; [vm_compute; reflexivity|].
  split; [vm_compute; reflexivity|].
  rewrite (read_and_validate_run _ _ BadSample.legacy_config) by reflexivity.
  rewrite validate_experiment_config_run. simpl.
  replace (forallb _ _) with true by (vm_compute; reflexivity). done.
Qed.

(** In general: a configuration that violates no rule on a required
    parameter is returned, with or without legacy keys; the legacy keys
    only add the message about the renaming. *)
Lemma legacy_keys_do_not_invalidate config_filename
  (config : gmap string PyValue) w :
  (forall param rule,
      param ∈ required_params (local_experiment_of config) ->
      violates config param rule = false) ->
  let run := validate_experiment_config config_filename config w in
  run.1 = Ok config
  /\ logs run.2
     = logs w ++ (if has_legacy_key config then [RenamedBuckets] else []).
Proof.
  intros Hvalid. cbv zeta. rewrite validate_experiment_config_run.
  assert (Hall := proj2 (all_valid_iff config
    (elements (required_params (local_experiment_of config))))).
  rewrite Hall by (intros ? ? ?%elem_of_elements; by apply Hvalid).
  split; [done|]. simpl. f_equal.
  replace (omap _ _) with (@nil LogError); [by rewrite app_nil_r|].
  symmetry.
  assert (Hnone : forall param,
             param ∈ elements (required_params (local_experiment_of config))
             -> param_report config param = None).
  { intros param Hin%elem_of_elements. unfold param_report.
    rewrite (proj2 (first_violation_None config param)); [done|].
    intros rule. by apply Hvalid. }
  revert Hnone.
  generalize (elements (required_params (local_experiment_of config))).
  intros params Hnone. induction params as [|param params IH]; [done|].
  simpl. rewrite Hnone by (apply elem_of_cons; by left).
  apply IH. intros q Hq. apply Hnone. apply elem_of_cons. by right.
Qed.

Lemma required_filestore param local_experiment :
  param ∈ filestore_params -> param ∈ required_params local_experiment.
Proof.
  intros H. unfold required_params.
  destruct (negb (truthy local_experiment)).
  - apply elem_of_union_l. by apply elem_of_union_r.
  - by apply elem_of_union_r.
Qed.

(** A filestore value without the scheme of the mode violates a rule. *)
Lemma wrong_scheme_violates config param value :
  param ∈ filestore_params ->
  config !! param = Some value ->
  has_scheme value (scheme (local_experiment_of config)) = false ->
  exists rule, violates config param rule = true.
Proof.
  intros Hparam Hvalue Hscheme.
  destruct (isinstance_str value) eqn:Hstr.
  - exists WrongScheme. unfold violates. rewrite Hvalue, Hstr, Hscheme.
    by rewrite bool_decide_eq_true_2.
  - exists NonLowercaseString. unfold violates. rewrite Hvalue.
    rewrite bool_decide_eq_true_2 by by apply filestore_is_string.
    by destruct value.
Qed.

(** C4.  Once the file is read as the mapping [config]: if a filestore
    parameter holds a value that does not start with '/' while
    'local_experiment' is true, or that does not start with 'gs://' while
    'local_experiment' is false or absent, the validation raises
    ValidationError. *)
Theorem filestore_scheme_enforced (oracle : Oracle)
  (config_filename : string) (config : gmap string PyValue) (w : World)
  (param : string) (value : PyValue)
  (Hread : oracle _ (yaml_utils_read config_filename) w = Ok (VDict config))
  (Hparam : param ∈ filestore_params)
  (Hvalue : config !! param = Some value)
  (Hmismatch :
     (config !! "local_experiment" = Some (VBool true)
      /\ has_scheme value "/" = false)
     \/ ((config !! "local_experiment" = Some (VBool false)
          \/ config !! "local_experiment" = None)
         /\ has_scheme value "gs://" = false)) :
  (read_and_validate_experiment_config oracle config_filename w).1
  = Raise (ValidationError (invalid_message config_filename)).
Proof.
  destruct (wrong_scheme_violates config param value Hparam Hvalue)
    as [rule Hrule].
  { unfold scheme, local_experiment_of, get.
    destruct Hmismatch as [[-> H]|[[-> | ->] H]]; exact H. }
  rewrite (read_and_validate_run _ _ _ _ Hread),
    validate_experiment_config_run. simpl.
  destruct (forallb _ _) eqn:Hvalid; [exfalso|done].
  rewrite (proj1 (all_valid_iff _ _) Hvalid param rule) in Hrule;
    [discriminate|].
  by apply elem_of_elements, required_filestore.
Qed.

Lemma filestore_scheme_enforced_witness :
  let local := <[ "report_filestore" := VStr "gs://report-data" ]>
                 Sample.local_config in
  let cloud := <[ "experiment_filestore" := VStr "/data/experiment" ]>
                 Sample.cloud_config in
  (read_and_validate_experiment_config
     (Sample.oracle (VDict local) [] [] false) "local.yaml" Sample.world).1
  = Raise (ValidationError (invalid_message "local.yaml"))
  /\ (read_and_validate_experiment_config
        (Sample.oracle (VDict cloud) [] [] false) "cloud.yaml"
        Sample.world).1
     = Raise (ValidationError (invalid_message "cloud.yaml")).
Proof.
  intros local cloud. split.
  - apply (filestore_scheme_enforced _ _ local _ "report_filestore"
             (VStr "gs://report-data")).
    + reflexivity.
    + apply elem_of_by_compute. vm_compute. reflexivity.
    + vm_compute. reflexivity.
    + left. split; vm_compute; reflexivity.
  - apply (filestore_scheme_enforced _ _ cloud _ "experiment_filestore"
             (VStr "/data/experiment")).
    + reflexivity.
    + apply elem_of_by_compute. vm_compute. reflexivity.
    + vm_compute. reflexivity.
    + right. split; [right|]; vm_compute; reflexivity.
Defined.

(** ** Fuzzer configurations with an empty variant name *)

Lemma filter_nil_forall {A} (f : A -> bool) (l : list A) :
  (forall x, x ∈ l -> f x = false) -> List.filter f l = [].
Proof.
  induction l as [|x l IH]; intros H; [done|]. simpl.
  rewrite (H x) by (apply elem_of_cons; by left).
  apply IH. intros y Hy. apply H. apply elem_of_cons. by right.
Qed.

Lemma no_invalid_entry (fuzzer_config : gmap string PyValue) :
  (forall key, is_Some (fuzzer_config !! key) -> key ∈ allowed_fields) ->
  List.filter (fun key => negb (bool_decide (key ∈ allowed_fields)))
              (map_to_list fuzzer_config).*1 = [].
Proof.
  intros Hkeys. apply filter_nil_forall. intros key Hkey.
  apply list_elem_of_fmap in Hkey as ([key' value] & -> & Hin).
  apply elem_of_map_to_list in Hin. simpl.
  rewrite bool_decide_eq_true_2; [done|]. apply Hkeys. by exists value.
Qed.

Section empty_name.

Context (oracle : Oracle) (ROOT_DIR : string) (py_str : PyValue -> string).

(** C10.  A fuzzer configuration whose 'name' is the empty string, and
    which is valid otherwise (only allowed keys, 'env' a dict if present, a
    base fuzzer that [validate_fuzzer] accepts): [validate_fuzzer_config]
    returns normally although the empty string does not match the name
    pattern, because the check runs for truthy names only; and
    [get_full_fuzzer_name], which looks at the presence of the key,
    returns the base name followed by an underscore. *)
Theorem empty_name_is_accepted_and_suffixed
  (fuzzer_config : gmap string PyValue) (fuzzer : string) (w : World)
  (Hname : fuzzer_config !! "name" = Some (VStr EmptyString))
  (Hfuzzer : fuzzer_config !! "fuzzer" = Some (VStr fuzzer))
  (Hkeys : forall key, is_Some (fuzzer_config !! key) ->
                       key ∈ allowed_fields)
  (Henv : forall env, fuzzer_config !! "env" = Some env ->
                      isinstance_dict env = true)
  (Hbase : (validate_fuzzer oracle ROOT_DIR py_str (VStr fuzzer) w).1
           = Ok tt) :
  (validate_fuzzer_config oracle ROOT_DIR py_str fuzzer_config w).1 = Ok tt
  /\ re_match FUZZER_NAME_REGEX EmptyString = false
  /\ get_full_fuzzer_name fuzzer_config = Ok (VStr (fuzzer +:+ "_")).
Proof.
  split; [|split].
  - unfold validate_fuzzer_config.
    rewrite (contains_true _ _ _ Hfuzzer). simpl.
    rewrite (no_invalid_entry _ Hkeys).
    assert (Henv' : match fuzzer_config !! "env" with
                    | Some env => negb (isinstance_dict env)
                    | None => false
                    end = false).
    { destruct (fuzzer_config !! "env") as [env|] eqn:E; [|done].
      by rewrite (Henv env). }
    rewrite Henv'. unfold get. rewrite Hname, Hfuzzer. simpl.
    unfold bind, ret. simpl.
    destruct (negb (String.eqb fuzzer EmptyString)); [exact Hbase|done].
  - reflexivity.
  - unfold get_full_fuzzer_name, getitem.
    rewrite (contains_true _ _ _ Hname), Hfuzzer, Hname. simpl.
    by rewrite string_app_assoc.
Qed.

End empty_name.

Lemma empty_name_is_accepted_and_suffixed_witness :
  let fuzzer_config : gmap string PyValue :=
    {[ "fuzzer" := VStr "afl"; "name" := VStr EmptyString ]} in
  (validate_fuzzer_config (Sample.oracle VNone ["afl"; "libfuzzer"] [] false)
     Sample.ROOT_DIR Sample.py_str fuzzer_config Sample.world).1 = Ok tt
  /\ re_match FUZZER_NAME_REGEX EmptyString = false
  /\ get_full_fuzzer_name fuzzer_config = Ok (VStr "afl_").
Proof.
  intros fuzzer_config.
  apply (empty_name_is_accepted_and_suffixed
           (Sample.oracle VNone ["afl"; "libfuzzer"] [] false)
           Sample.ROOT_DIR Sample.py_str fuzzer_config "afl" Sample.world).
  - vm_compute. reflexivity.
  - vm_compute. reflexivity.
  - intros key [value Hvalue].
    destruct (decide (key = "fuzzer")) as [->|Hne1];
      [apply elem_of_by_list; vm_compute; reflexivity|].
    destruct (decide (key = "name")) as [->|Hne2];
      [apply elem_of_by_list; vm_compute; reflexivity|].
    subst fuzzer_config.
    rewrite lookup_insert_ne, lookup_singleton_ne in Hvalue by done.
    discriminate.
  - intros env Henv. subst fuzzer_config.
    rewrite lookup_insert_ne, lookup_singleton_ne in Henv by done.
    discriminate.
  - vm_compute. reflexivity.
Defined.

(** ** Rules for runs *)

Lemma wp_ret {A} (a : A) Q w : Q (Ok a) w [] -> wp (ret a) Q w.
Proof. intros H. exists []. simpl. by rewrite app_nil_r. Qed.

Lemma wp_raise {A} e (Q : Result A -> World -> list Event -> Prop) w :
  Q (Raise e) w [] -> wp (raise e) Q w.
Proof. intros H. exists []. simpl. by rewrite app_nil_r. Qed.

Lemma wp_lift {A} (r : Result A) Q w : Q r w [] -> wp (lift r) Q w.
Proof. intros H. exists []. simpl. by rewrite app_nil_r. Qed.

Lemma wp_get_world Q w : Q (Ok w) w [] -> wp get_world Q w.
Proof. intros H. exists []. simpl. by rewrite app_nil_r. Qed.

Lemma wp_modify f Q w :
  trace (f w) = trace w -> Q (Ok tt) (f w) [] -> wp (modify f) Q w.
Proof. intros Htrace H. exists []. simpl. by rewrite app_nil_r. Qed.

Lemma wp_emit e Q w : Q (Ok tt) (emit e w) [e] -> wp (modify (emit e)) Q w.
Proof. intros H. by exists [e]. Qed.

Lemma wp_call (oracle : Oracle) {A} (c : Call A) Q w :
  Q (oracle A c w) (emit (ECall c (is_ok (oracle A c w))) w)
    [ECall c (is_ok (oracle A c w))] ->
  wp (call oracle c) Q w.
Proof. intros H. by eexists. Qed.

Lemma wp_bind {A B} (m : M A) (f : A -> M B) Q w :
  wp m (fun r w' t1 =>
          match r with
          | Ok a => wp (f a) (fun r' w'' t2 => Q r' w'' (t1 ++ t2)) w'
          | Raise e => Q (Raise e) w' t1
          end) w ->
  wp (bind m f) Q w.
Proof.
  intros (t1 & Htrace & H). unfold wp, bind.
  destruct (m w) as [[a|e] w']; simpl in *.
  - destruct H as (t2 & Htrace' & H). exists (t1 ++ t2).
    split; [|done]. by rewrite Htrace', Htrace, app_assoc.
  - by exists t1.
Qed.

Lemma wp_mono {A} (m : M A) (Q Q' : Result A -> World -> list Event -> Prop)
  w :
  wp m Q w -> (forall r w' t, Q r w' t -> Q' r w' t) -> wp m Q' w.
Proof. intros (t & Htrace & H) Himpl. exists t. split; [done|]. by apply Himpl. Qed.

Lemma wp_and {A} (m : M A) (Q1 Q2 : Result A -> World -> list Event -> Prop)
  w :
  wp m Q1 w -> wp m Q2 w -> wp m (fun r w' t => Q1 r w' t /\ Q2 r w' t) w.
Proof.
  intros (t1 & Htrace1 & H1) (t2 & Htrace2 & H2).
  assert (t1 = t2) as -> by (rewrite Htrace1 in Htrace2; by simplify_list_eq).
  by exists t2.
Qed.

(** The events of a run, read off the two worlds. *)
Lemma wp_new_events {A} (m : M A) Q w :
  wp m Q w -> Q (m w).1 (m w).2 (new_events w (m w).2).
Proof.
  intros (t & Htrace & H). unfold new_events.
  by rewrite Htrace, drop_app_length.
Qed.

Lemma wp_scoped {A} function (body : M A) Q w :
  wp body (fun r w' t =>
             match r with
             | Ok a => Q (Ok a) (emit (EReturn function) w')
                         (EEnter function :: t ++ [EReturn function])
             | Raise e => Q (Raise e) w' (EEnter function :: t)
             end) (emit (EEnter function) w) ->
  wp (scoped function body) Q w.
Proof.
  intros H. unfold scoped. apply wp_bind. apply wp_emit.
  apply wp_bind. eapply wp_mono; [exact H|]. intros [a|e] w' t Hq; [|done].
  apply wp_bind. apply wp_emit. by apply wp_ret.
Qed.

(** A loop, with an invariant on what is done so far: the items, the
    accumulator, the world, and the events of the loop. *)
Lemma wp_for_fold {A B} (body : B -> A -> M B)
  (I : list A -> B -> World -> list Event -> Prop) Q :
  forall (todo done : list A) acc w t,
  I done acc w t ->
  (forall done x acc w t,
      I done acc w t ->
      wp (body acc x)
         (fun r w' t' =>
            match r with
            | Ok acc' => I (done ++ [x]) acc' w' (t ++ t')
            | Raise e => forall done', Q done' (Raise e) w' (t ++ t')
            end) w) ->
  (forall done acc w t, I done acc w t -> Q done (Ok acc) w t) ->
  wp (for_fold todo acc body)
     (fun r w' t' => Q (done ++ todo) r w' (t ++ t')) w.
Proof.
  induction todo as [|x todo IH]; intros done acc w t Hinv Hbody Hend.
  - apply wp_ret. rewrite !app_nil_r. by apply Hend.
  - simpl. apply wp_bind. eapply wp_mono; [by apply Hbody|].
    intros [acc'|e] w' t' Hstep; simpl.
    + eapply wp_mono; [by apply (IH (done ++ [x]) acc' w' (t ++ t'))|].
      intros r w'' t'' H. by rewrite <- !app_assoc in H.
    + apply Hstep.
Qed.

(** *** Runs whose events are all of one kind *)

Section only.

Context (oracle : Oracle) (P : Event -> bool).

Lemma only_ret {A} (a : A) : only P (ret a).
Proof. intros w. by apply wp_ret. Qed.

Lemma only_raise {A} e : only P (@raise A e).
Proof. intros w. by apply wp_raise. Qed.

Lemma only_lift {A} (r : Result A) : only P (lift r).
Proof. intros w. by apply wp_lift. Qed.

Lemma only_get_world : only P get_world.
Proof. intros w. by apply wp_get_world. Qed.

Lemma only_modify f : (forall w, trace (f w) = trace w) -> only P (modify f).
Proof. intros H w. by apply wp_modify. Qed.

Lemma only_emit e : P e = true -> only P (modify (emit e)).
Proof. intros H w. apply wp_emit. by constructor. Qed.

Lemma only_call {A} (c : Call A) :
  (forall returned, P (ECall c returned) = true) -> only P (call oracle c).
Proof. intros H w. apply wp_call. by constructor. Qed.

Lemma only_bind {A B} (m : M A) (f : A -> M B) :
  only P m -> (forall a, only P (f a)) -> only P (bind m f).
Proof.
  intros Hm Hf w. apply wp_bind. eapply wp_mono; [apply Hm|].
  intros [a|e] w' t1 H1; simpl; [|done].
  eapply wp_mono; [apply Hf|]. intros r w'' t2 H2. simpl.
  by apply Forall_app.
Qed.

Lemma only_scoped {A} function (body : M A) :
  P (EEnter function) = true -> P (EReturn function) = true ->
  only P body -> only P (scoped function body).
Proof.
  intros Henter Hreturn Hbody. unfold scoped.
  apply only_bind; [by apply only_emit|]. intros _.
  apply only_bind; [done|]. intros a.
  apply only_bind; [by apply only_emit|]. intros _. apply only_ret.
Qed.

Lemma only_for_fold {A B} (l : list A) (acc : B) (body : B -> A -> M B) :
  (forall acc x, only P (body acc x)) -> only P (for_fold l acc body).
Proof.
  intros Hbody. revert acc. induction l as [|x l IH]; intros acc; simpl.
  - apply only_ret.
  - apply only_bind; [apply Hbody|]. intros acc'. apply IH.
Qed.

Lemma only_for_each {A} (l : list A) (body : A -> M unit) :
  (forall x, only P (body x)) -> only P (for_each l body).
Proof. intros Hbody. apply only_for_fold. intros _ x. apply Hbody. Qed.

Lemma only_filter_m {A} (p : A -> M bool) (l : list A) :
  (forall x, only P (p x)) -> only P (filter_m p l).
Proof.
  intros Hp. induction l as [|x l IH]; simpl.
  - apply only_ret.
  - apply only_bind; [apply Hp|]. intros keep.
    apply only_bind; [apply IH|]. intros rest. apply only_ret.
Qed.

End only.

(** Applies the rules above along the structure of a computation. *)
Ltac only_step :=
  lazymatch goal with
  | |- only _ (bind _ _) => apply only_bind; [|intros ?]
  | |- only _ (ret _) => apply only_ret
  | |- only _ (raise _) => apply only_raise
  | |- only _ (lift _) => apply only_lift
  | |- only _ get_world => apply only_get_world
  | |- only _ (logs_error _) => apply only_modify; reflexivity
  | |- only _ (modify (emit _)) => apply only_emit; reflexivity
  | |- only _ (modify _) => apply only_modify; reflexivity
  | |- only _ (call _ _) =>
      apply only_call; first [intros []; reflexivity | intros ?; auto]
  | |- only _ (scoped _ _) => apply only_scoped; [reflexivity..|]
  | |- only _ (for_each _ _) => apply only_for_each; intros ?
  | |- only _ (for_fold _ _ _) => apply only_for_fold; intros ? ?
  | |- only _ (filter_m _ _) => apply only_filter_m; intros ?
  | |- only _ (if ?b then _ else _) => destruct b
  | |- only _ (match ?x with _ => _ end) => destruct x
  end.

Ltac only_auto := repeat only_step.

Lemma wp_of_only {A} P (m : M A) w
  (Q : Result A -> World -> list Event -> Prop) :
  only P m ->
  (forall r w' t, Forall (fun e => P e = true) t -> Q r w' t) ->
  wp m Q w.
Proof. intros Hm HQ. eapply wp_mono; [apply Hm|]. intros. by apply HQ. Qed.

(** A scoped function whose body is of one kind: its trace is the entry,
    events of that kind and, if it returned, the return. *)
Lemma wp_scoped_only {A} P function (body : M A) w
  (Q : Result A -> World -> list Event -> Prop) :
  only P body ->
  (forall r w' b,
      Forall (fun e => P e = true) b ->
      Q r w' (EEnter function :: b
                ++ if is_ok r then [EReturn function] else [])) ->
  wp (scoped function body) Q w.
Proof.
  intros Hbody HQ. apply wp_scoped. eapply wp_mono; [apply Hbody|].
  intros [a|e] w' t Ht; simpl.
  - by apply (HQ (Ok a)).
  - specialize (HQ (Raise e) w' t Ht). simpl in HQ.
    by rewrite app_nil_r in HQ.
Qed.

(** Membership in a trace written with [::] and [++]. *)
Lemma in_trace_here (e : Event) t : e ∈ e :: t.
Proof. apply elem_of_cons. by left. Qed.

Lemma in_trace_later (e e' : Event) t : e ∈ t -> e ∈ e' :: t.
Proof. intros H. apply elem_of_cons. by right. Qed.

Lemma in_trace_left (e : Event) t1 t2 : e ∈ t1 -> e ∈ t1 ++ t2.
Proof. intros H. apply elem_of_app. by left. Qed.

Lemma in_trace_right (e : Event) t1 t2 : e ∈ t2 -> e ∈ t1 ++ t2.
Proof. intros H. apply elem_of_app. by right. Qed.

Create HintDb in_trace.
#[local] Hint Resolve in_trace_here in_trace_later in_trace_left
  in_trace_right : in_trace.

(** Equal traces, up to the nesting of [++]. *)
Ltac trace_eq :=
  simpl; repeat (progress (rewrite <- ?app_assoc, ?app_nil_r; simpl));
  reflexivity.

(** ** The launch sequence *)

Section launch.

Context (oracle : Oracle).
Context (ROOT_DIR : string).
Context (get_dispatcher_instance_name : PyValue -> string).
Context (get_base_docker_tag : PyValue -> string).
Context (get_experiment_filestore_path : gmap string string -> string).
Context (abspath : string -> string).
Context (py_str : PyValue -> string).

Lemma only_os_getenv P key : only P (os_getenv key).
Proof. unfold os_getenv. only_auto. Qed.

Lemma only_environ_contains P key : only P (environ_contains key).
Proof. unfold environ_contains. only_auto. Qed.

Lemma only_environ_getitem P key : only P (environ_getitem key).
Proof. unfold environ_getitem. only_auto. Qed.

Lemma only_environ_setitem P key value : only P (environ_setitem key value).
Proof. unfold environ_setitem. only_auto. Qed.

Lemma only_os_remove P path : only P (os_remove path).
Proof. unfold os_remove. only_auto. Qed.

Lemma only_create_async dispatcher :
  only calm (create_async oracle dispatcher).
Proof. unfold create_async. only_auto. Qed.

Lemma only_LocalDispatcher_start self :
  only calm
    (LocalDispatcher_start oracle get_base_docker_tag abspath py_str self).
Proof. unfold LocalDispatcher_start. only_auto. Qed.

Lemma only_GoogleCloudDispatcher_start self :
  only calm
    (GoogleCloudDispatcher_start oracle get_base_docker_tag py_str self).
Proof.
  unfold GoogleCloudDispatcher_start. only_auto.
  apply only_environ_getitem.
Qed.

(** The functions of the preparation make calls only; a kind [P] that
    holds of every call holds of all their events. *)
Section calls_only.

Context (P : Event -> bool).
Context (Hcalls : forall A (c : Call A) returned,
            P (ECall c returned) = true).

Lemma only_check_no_local_changes :
  only P (check_no_local_changes oracle ROOT_DIR).
Proof. unfold check_no_local_changes. only_auto. Qed.

Lemma only_get_git_hash : only P (get_git_hash oracle ROOT_DIR).
Proof. unfold get_git_hash. only_auto. Qed.

Lemma only_validate_param config local_experiment valid param :
  only P (validate_param config local_experiment valid param).
Proof. unfold validate_param. only_auto. Qed.

Lemma only_read_and_validate_body config_filename config :
  only P (validate_experiment_config config_filename config).
Proof.
  unfold validate_experiment_config. only_auto; apply only_validate_param.
Qed.

Lemma only_read_and_validate config_filename :
  only P (read_and_validate_experiment_config oracle config_filename).
Proof.
  unfold read_and_validate_experiment_config.
  only_auto; apply only_read_and_validate_body.
Qed.

Lemma only_get_directories parent_dir :
  only P (get_directories oracle parent_dir).
Proof. unfold get_directories. only_auto. Qed.

Lemma only_validate_fuzzer fuzzer :
  only P (validate_fuzzer oracle ROOT_DIR py_str fuzzer).
Proof.
  unfold validate_fuzzer. only_auto; apply only_get_directories.
Qed.

Lemma only_validate_fuzzer_config fuzzer_config :
  only P (validate_fuzzer_config oracle ROOT_DIR py_str fuzzer_config).
Proof.
  unfold validate_fuzzer_config. only_auto; apply only_validate_fuzzer.
Qed.

Lemma only_make_sure_we_can_connect config :
  only P (make_sure_we_can_connect_to_database oracle config).
Proof.
  unfold make_sure_we_can_connect_to_database. only_auto;
    apply only_environ_contains.
Qed.

End calls_only.

Lemma unmarked_call A (c : Call A) returned :
  unmarked (ECall c returned) = true.
Proof. reflexivity. Qed.

Lemma only_set_up_experiment_config_file config :
  only unmarked (set_up_experiment_config_file oracle config).
Proof. unfold set_up_experiment_config_file. only_auto. Qed.

Lemma only_set_up_fuzzer_config_files fuzzer_configs :
  only unmarked
    (set_up_fuzzer_config_files oracle ROOT_DIR py_str fuzzer_configs).
Proof.
  unfold set_up_fuzzer_config_files. only_auto.
  apply only_validate_fuzzer_config, unmarked_call.
Qed.

(** When [set_up_experiment_config_file] returns, the dump of the
    configuration has returned. *)
Lemma set_up_experiment_config_file_writes config w :
  wp (set_up_experiment_config_file oracle config)
     (fun r _ t =>
        r = Ok tt ->
        ECall (yaml_dump config (path_join CONFIG_DIR "experiment.yaml")) true
        ∈ t
        /\ EReturn "set_up_experiment_config_file" ∈ t) w.
Proof.
  unfold set_up_experiment_config_file. apply wp_scoped.
  apply wp_bind, wp_call.
  destruct (oracle _ (filesystem_recreate_directory CONFIG_DIR) _)
    as [[]|e]; [|done].
  apply wp_bind, wp_call.
  destruct (oracle _ (open_w _) _) as [[]|e]; [|done].
  apply wp_call.
  destruct (oracle _ (yaml_dump config _) _) as [[]|e]; [|done].
  intros _. simpl. split; eauto 10 with in_trace.
Qed.

(** When [set_up_fuzzer_config_files] returns, a write has returned for
    each fuzzer configuration. *)
Lemma set_up_fuzzer_config_files_writes fuzzer_configs w :
  wp (set_up_fuzzer_config_files oracle ROOT_DIR py_str fuzzer_configs)
     (fun r _ t =>
        r = Ok tt ->
        (forall fuzzer_config, fuzzer_config ∈ fuzzer_configs ->
           exists config_file_name,
             ECall (yaml_utils_write config_file_name fuzzer_config) true ∈ t)
        /\ EReturn "set_up_fuzzer_config_files" ∈ t) w.
Proof.
  unfold set_up_fuzzer_config_files. apply wp_scoped.
  destruct fuzzer_configs as [|fuzzer_config0 fuzzer_configs0] eqn:Hlist;
    [by apply wp_raise|].
  rewrite <- Hlist. clear Hlist fuzzer_config0 fuzzer_configs0.
  apply wp_bind, wp_call.
  destruct (oracle _ (filesystem_recreate_directory _) _) as [[]|e];
    [|done].
  simpl. unfold for_each.
  eapply wp_mono.
  - apply (wp_for_fold _
             (fun done _ _ t =>
                forall fuzzer_config, fuzzer_config ∈ done ->
                  exists config_file_name,
                    ECall (yaml_utils_write config_file_name fuzzer_config)
                          true ∈ t)
             (fun done r _ t =>
                r = Ok tt ->
                forall fuzzer_config, fuzzer_config ∈ done ->
                  exists config_file_name,
                    ECall (yaml_utils_write config_file_name fuzzer_config)
                          true ∈ t)
             fuzzer_configs [] tt _ []).
    + intros fuzzer_config Hin. by apply elem_of_nil in Hin.
    + intros done fuzzer_config [] w' t Hinv.
      apply wp_bind.
      apply (wp_of_only (fun _ => true));
        [by apply only_validate_fuzzer_config|].
      intros [[]|e] w1 t1 _; [|done].
      apply wp_bind, wp_lift.
      destruct (get_full_fuzzer_name fuzzer_config) as [full_name|e];
        [|done].
      apply wp_bind, wp_lift.
      destruct (path_join_value _ full_name) as [config_file_name|e];
        [|done].
      apply wp_call.
      destruct (oracle _ (yaml_utils_write _ _) _) as [[]|e]; [|done].
      simpl. intros fc Hfc. apply elem_of_app in Hfc as [Hfc|Hfc].
      * destruct (Hinv fc Hfc) as [name Hname]. exists name.
        eauto with in_trace.
      * apply list_elem_of_singleton in Hfc as ->. exists config_file_name.
        eauto 10 with in_trace.
    + intros done acc w' t Hinv _. exact Hinv.
  - simpl. intros [[]|e] w' t Hq; [|done]. intros _. split.
    + intros fuzzer_config Hin.
      destruct (Hq eq_refl fuzzer_config Hin) as [name Hname].
      exists name. eauto 10 with in_trace.
    + eauto 10 with in_trace.
Qed.

Lemma only_write_archive archive root filter :
  only calm (write_archive oracle archive root filter).
Proof. unfold write_archive. only_auto. Qed.

Lemma dispatch_trace_eq t t' : t = t' -> dispatch_trace t' -> dispatch_trace t.
Proof. by intros ->. Qed.

(** The trace of [start_dispatcher]. *)
Lemma start_dispatcher_trace config config_dir w :
  wp (start_dispatcher oracle ROOT_DIR get_dispatcher_instance_name
        get_base_docker_tag get_experiment_filestore_path abspath py_str
        config config_dir)
     (fun _ _ t => dispatch_trace t) w.
Proof.
  unfold start_dispatcher. apply wp_bind, wp_lift.
  destruct (get_dispatcher _ config) as [dispatcher|e];
    [|by apply stopped_before_bundling].
  apply wp_bind. apply (wp_of_only calm); [apply only_os_getenv|].
  intros [manual_experiment|e] w1 t1 H1;
    [|by apply stopped_before_bundling].
  apply wp_bind. apply (wp_of_only calm).
  { destruct (negb _); [apply only_create_async | apply only_ret]. }
  intros [dispatcher'|e] w2 t2 H2; simpl;
    [|by apply stopped_before_bundling, Forall_app].
  assert (H12 : Forall (fun e => calm e = true) (t1 ++ t2))
    by by apply Forall_app.
  apply wp_bind. unfold copy_resources_to_bucket.
  apply (wp_scoped_only calm).
  { only_auto; first [apply only_environ_setitem | apply only_write_archive
                     | apply only_os_remove]. }
  intros [[]|e] w3 body Hbody; simpl.
  - destruct (negb (getenv_truthy manual_experiment)).
    + apply wp_bind. unfold start. apply (wp_scoped_only calm).
      { destruct dispatcher'; only_auto;
          [apply only_LocalDispatcher_start
          |apply only_GoogleCloudDispatcher_start]. }
      intros r w4 rest Hrest.
      assert (Hshape :
        dispatch_trace
          ((t1 ++ t2) ++ EEnter "copy_resources_to_bucket" :: body
             ++ EReturn "copy_resources_to_bucket" :: EEnter "start"
             :: rest ++ (if is_ok r then [EReturn "start"] else []))).
      { apply bundled_and_started; [done..|].
        apply Forall_app. split; [done|]. destruct (is_ok r); by repeat constructor. }
      destruct r as [result|e].
      * apply wp_ret. eapply dispatch_trace_eq; [|exact Hshape]. trace_eq.
      * eapply dispatch_trace_eq; [|exact Hshape]. trace_eq.
    + apply wp_ret. eapply dispatch_trace_eq;
        [|by apply (bundled_not_started (t1 ++ t2) body)].
      trace_eq.
  - eapply dispatch_trace_eq;
      [|by apply (stopped_in_bundling (t1 ++ t2) body)].
    trace_eq.
Qed.

Lemma launch_trace_eq fuzzer_configs t t' :
  t = t' -> launch_trace fuzzer_configs t' -> launch_trace fuzzer_configs t.
Proof. by intros ->. Qed.

(** The trace of [start_experiment]. *)
Lemma start_experiment_trace experiment_name config_filename benchmarks
  fuzzer_configs w :
  wp (start_experiment oracle ROOT_DIR get_dispatcher_instance_name
        get_base_docker_tag get_experiment_filestore_path abspath py_str
        experiment_name config_filename benchmarks fuzzer_configs)
     (fun _ _ t => launch_trace fuzzer_configs t) w.
Proof.
  unfold start_experiment.
  apply wp_bind. apply (wp_of_only unmarked);
    [apply only_check_no_local_changes, unmarked_call|].
  intros [[]|e] w1 t1 H1; [|by apply stopped_preparing].
  apply wp_bind, wp_lift.
  destruct (validate_experiment_name experiment_name) as [[]|e];
    [|apply stopped_preparing; by rewrite app_nil_r].
  apply wp_bind, wp_lift.
  destruct (validate_benchmarks benchmarks) as [[]|e];
    [|apply stopped_preparing; by rewrite !app_nil_r].
  apply wp_bind. apply (wp_of_only unmarked);
    [apply only_read_and_validate, unmarked_call|].
  intros [config|e] w2 t2 H2;
    [|apply stopped_preparing; simpl; by apply Forall_app].
  apply wp_bind. apply (wp_of_only unmarked);
    [apply only_get_git_hash, unmarked_call|].
  intros [git_hash|e] w3 t3 H3;
    [|apply stopped_preparing; simpl; by rewrite !Forall_app].
  set (stamped := <["git_hash" := VStr git_hash]> _).
  apply wp_bind. eapply wp_mono.
  { apply wp_and;
      [apply (only_set_up_experiment_config_file stamped)
      |apply (set_up_experiment_config_file_writes stamped)]. }
  intros [[]|e] w4 t4 [H4 Hdump]; simpl;
    [|apply stopped_preparing; simpl; by rewrite !Forall_app].
  destruct (Hdump eq_refl) as [Hdumped Hreturned]. clear Hdump.
  apply wp_bind. eapply wp_mono.
  { apply wp_and;
      [apply (only_set_up_fuzzer_config_files fuzzer_configs)
      |apply (set_up_fuzzer_config_files_writes fuzzer_configs)]. }
  intros [[]|e] w5 t5 [H5 Hwrites]; simpl;
    [|apply stopped_preparing; simpl; by rewrite !Forall_app].
  destruct (Hwrites eq_refl) as [Hwritten Hreturned']. clear Hwrites.
  apply wp_bind. apply (wp_of_only unmarked);
    [apply only_make_sure_we_can_connect, unmarked_call|].
  intros [[]|e] w6 t6 H6; simpl;
    [|apply stopped_preparing; simpl; by rewrite !Forall_app].
  eapply wp_mono; [apply start_dispatcher_trace|].
  intros r w7 d Hd. simpl.
  eapply launch_trace_eq;
    [|apply (dispatching fuzzer_configs (t1 ++ t2 ++ t3 ++ t4 ++ t5 ++ t6) d);
      [by rewrite !Forall_app| |exact Hd]].
  { trace_eq. }
  split; [|split; [|split]].
  - exists stamped. eauto 10 with in_trace.
  - intros fuzzer_config Hin. destruct (Hwritten _ Hin) as [name Hname].
    exists name. eauto 10 with in_trace.
  - eauto 10 with in_trace.
  - eauto 10 with in_trace.
Qed.

End launch.

(** *** Reading the order of events off a trace *)

Lemma split_unique (P : Event -> bool) (e : Event) l1 l2 t1 t2 :
  P e = true ->
  Forall (fun x => P x = false) l1 ->
  Forall (fun x => P x = false) l2 ->
  l1 ++ e :: l2 = t1 ++ e :: t2 ->
  t1 = l1 /\ t2 = l2.
Proof.
  intros He Hl1 Hl2. revert t1.
  induction Hl1 as [|x l1 Hx Hl1 IH]; intros [|y t1] Heq; simpl in Heq.
  - by simplify_eq.
  - simplify_eq. rewrite Forall_app, Forall_cons in Hl2.
    destruct Hl2 as (_ & Hfalse & _). congruence.
  - simplify_eq. congruence.
  - simplify_eq. destruct (IH t1) as [-> ->]; done.
Qed.

Lemma split_absent (P : Event -> bool) (e : Event) t t1 t2 :
  P e = true -> t = t1 ++ e :: t2 -> Forall (fun x => P x = false) t ->
  False.
Proof.
  intros He -> Ht. rewrite Forall_app, Forall_cons in Ht.
  destruct Ht as (_ & Hfalse & _). congruence.
Qed.

Lemma calm_inv e :
  calm e = true ->
  enters "copy_resources_to_bucket" e = false
  /\ enters "start" e = false
  /\ writes_config e = false.
Proof.
  unfold calm, launch_marker. intros H.
  apply andb_true_iff in H as [H1 H2].
  apply negb_true_iff in H1, H2.
  apply orb_false_iff in H1 as [H1 H3]. apply orb_false_iff in H1 as [H1 _].
  done.
Qed.

Lemma unmarked_inv e :
  unmarked e = true ->
  enters "copy_resources_to_bucket" e = false /\ enters "start" e = false.
Proof.
  unfold unmarked, launch_marker. intros H. apply negb_true_iff in H.
  apply orb_false_iff in H as [H H3]. apply orb_false_iff in H as [H1 _].
  done.
Qed.

Lemma Forall_calm t :
  Forall (fun e => calm e = true) t ->
  Forall (fun e => enters "copy_resources_to_bucket" e = false) t
  /\ Forall (fun e => enters "start" e = false) t
  /\ Forall (fun e => writes_config e = false) t.
Proof.
  intros H. repeat split; eapply Forall_impl; try exact H;
    intros e He; by apply calm_inv in He as (? & ? & ?).
Qed.

Lemma Forall_unmarked t :
  Forall (fun e => unmarked e = true) t ->
  Forall (fun e => enters "copy_resources_to_bucket" e = false) t
  /\ Forall (fun e => enters "start" e = false) t.
Proof.
  intros H. split; eapply Forall_impl; try exact H;
    intros e He; by apply unmarked_inv in He as (? & ?).
Qed.

Lemma prepared_app fuzzer_configs t t' :
  prepared fuzzer_configs t -> prepared fuzzer_configs (t ++ t').
Proof.
  intros ([config Hdump] & Hwrites & Hret1 & Hret2).
  split; [|split; [|split]]; eauto with in_trace.
  intros fuzzer_config Hin. destruct (Hwrites _ Hin) as [name Hname].
  eauto with in_trace.
Qed.

(** In a launch trace, what precedes the entry into the bundling and what
    follows it, and what precedes the entry into [start]. *)
Lemma launch_trace_order fuzzer_configs t :
  launch_trace fuzzer_configs t ->
  (forall t1 t2,
      t = t1 ++ EEnter "copy_resources_to_bucket" :: t2 ->
      prepared fuzzer_configs t1
      /\ Forall (fun e => writes_config e = false) t2)
  /\ (forall t1 t2,
         t = t1 ++ EEnter "start" :: t2 ->
         EReturn "copy_resources_to_bucket" ∈ t1).
Proof.
  intros [t0 Hprep | p d Hp Hprepared Hd].
  - apply Forall_unmarked in Hprep as [Hcopy Hstart]. split.
    + intros t1 t2 Heq. exfalso.
      by apply (split_absent (enters "copy_resources_to_bucket")
                  (EEnter "copy_resources_to_bucket") _ _ _ eq_refl Heq).
    + intros t1 t2 Heq. exfalso.
      by apply (split_absent (enters "start") (EEnter "start") _ _ _
                 eq_refl Heq).
  - apply Forall_unmarked in Hp as [Hp_copy Hp_start].
    destruct Hd as [c Hc | c body Hc Hbody | c body Hc Hbody
                   | c body rest Hc Hbody Hrest].
    + apply Forall_calm in Hc as (Hc_copy & Hc_start & _). split.
      * intros t1 t2 Heq. exfalso.
        apply (split_absent (enters "copy_resources_to_bucket")
                 (EEnter "copy_resources_to_bucket") _ _ _ eq_refl Heq).
        by apply Forall_app.
      * intros t1 t2 Heq. exfalso.
        apply (split_absent (enters "start") (EEnter "start") _ _ _
                 eq_refl Heq).
        by apply Forall_app.
    + apply Forall_calm in Hc as (Hc_copy & Hc_start & _).
      apply Forall_calm in Hbody as (Hb_copy & Hb_start & Hb_write).
      split.
      * intros t1 t2 Heq. rewrite app_assoc in Heq.
        apply split_unique
          with (P := enters "copy_resources_to_bucket") in Heq
          as [-> ->]; [|done|by apply Forall_app|done].
        split; [by apply prepared_app|done].
      * intros t1 t2 Heq. exfalso.
        apply (split_absent (enters "start") (EEnter "start") _ _ _
                 eq_refl Heq).
        rewrite !Forall_app, Forall_cons. done.
    + apply Forall_calm in Hc as (Hc_copy & Hc_start & _).
      apply Forall_calm in Hbody as (Hb_copy & Hb_start & Hb_write).
      split.
      * intros t1 t2 Heq. rewrite app_assoc in Heq.
        apply split_unique
          with (P := enters "copy_resources_to_bucket") in Heq
          as [-> ->]; [|done|by apply Forall_app|].
        -- split; [by apply prepared_app|].
           apply Forall_app. split; [done|]. by repeat constructor.
        -- apply Forall_app. split; [done|]. by repeat constructor.
      * intros t1 t2 Heq. exfalso.
        apply (split_absent (enters "start") (EEnter "start") _ _ _
                 eq_refl Heq).
        rewrite !Forall_app, Forall_cons, Forall_app.
        repeat split; try done. by repeat constructor.
    + apply Forall_calm in Hc as (Hc_copy & Hc_start & _).
      apply Forall_calm in Hbody as (Hb_copy & Hb_start & Hb_write).
      apply Forall_calm in Hrest as (Hr_copy & Hr_start & Hr_write).
      split.
      * intros t1 t2 Heq. rewrite app_assoc in Heq.
        apply split_unique
          with (P := enters "copy_resources_to_bucket") in Heq
          as [-> ->]; [|done|by apply Forall_app|].
        -- split; [by apply prepared_app|].
           apply Forall_app. split; [done|]. by repeat constructor.
        -- apply Forall_app. split; [done|]. by repeat constructor.
      * intros t1 t2 Heq.
        assert (Heq' :
          ((p ++ c) ++ EEnter "copy_resources_to_bucket" :: body
             ++ [EReturn "copy_resources_to_bucket"])
          ++ EEnter "start" :: rest = t1 ++ EEnter "start" :: t2).
        { rewrite <- Heq. trace_eq. }
        apply split_unique with (P := enters "start") in Heq'
          as [-> _]; [|done| |done].
        -- eauto 10 with in_trace.
        -- rewrite !Forall_app, Forall_cons, Forall_app.
           repeat split; try done. by repeat constructor.
Qed.

(** C8.  In every run of [start_experiment], whatever the collaborators
    answer: if the bundling ([copy_resources_to_bucket]) is entered, then
    before that the dump of the experiment configuration has returned, a
    write has returned for every fuzzer configuration and both set-up
    functions have returned, and no configuration file is set up or written
    afterwards; and if the dispatcher's [start] is entered, then before
    that the bundling has returned. *)
Theorem launch_is_strictly_ordered (oracle : Oracle) (ROOT_DIR : string)
  (get_dispatcher_instance_name get_base_docker_tag : PyValue -> string)
  (get_experiment_filestore_path : gmap string string -> string)
  (abspath : string -> string) (py_str : PyValue -> string)
  (experiment_name config_filename : string) (benchmarks : list string)
  (fuzzer_configs : list (gmap string PyValue)) (w : World) :
  let run :=
    start_experiment oracle ROOT_DIR get_dispatcher_instance_name
      get_base_docker_tag get_experiment_filestore_path abspath py_str
      experiment_name config_filename benchmarks fuzzer_configs w in
  let t := new_events w run.2 in
  (forall before after,
      t = before ++ EEnter "copy_resources_to_bucket" :: after ->
      (exists config,
          ECall (yaml_dump config (path_join CONFIG_DIR "experiment.yaml"))
                true ∈ before)
      /\ (forall fuzzer_config, fuzzer_config ∈ fuzzer_configs ->
            exists config_file_name,
              ECall (yaml_utils_write config_file_name fuzzer_config) true
              ∈ before)
      /\ EReturn "set_up_experiment_config_file" ∈ before
      /\ EReturn "set_up_fuzzer_config_files" ∈ before
      /\ Forall (fun e => writes_config e = false) after)
  /\ (forall before after,
         t = before ++ EEnter "start" :: after ->
         EReturn "copy_resources_to_bucket" ∈ before).
Proof.
  intros run t.
  assert (Htrace : launch_trace fuzzer_configs t).
  { apply (wp_new_events _ (fun _ _ t => launch_trace fuzzer_configs t)).
    apply start_experiment_trace. }
  destruct (launch_trace_order _ _ Htrace) as [Hcopy Hstart].
  split; [|exact Hstart].
  intros before after Heq.
  destruct (Hcopy before after Heq) as [(Hdump & Hwrites & H1 & H2) Hafter].
  done.
Qed.

Lemma launch_is_strictly_ordered_witness :
  let run :=
    SampleLaunch.launch (VDict Sample.local_config) false Sample.world in
  let t := new_events Sample.world run.2 in
  t = take 16 t ++ EEnter "copy_resources_to_bucket" :: drop 17 t
  /\ (exists config_file_name,
         ECall (yaml_utils_write config_file_name {[ "fuzzer" := VStr "afl" ]})
               true ∈ take 16 t)
  /\ t = take 22 t ++ EEnter "start" :: drop 23 t
  /\ EReturn "copy_resources_to_bucket" ∈ take 22 t.
Proof.
  intros run t.
  destruct (launch_is_strictly_ordered
              (SampleLaunch.oracle (VDict Sample.local_config) false)
              Sample.ROOT_DIR Sample.instance_name Sample.docker_tag
              Sample.filestore_path Sample.abspath Sample.py_str
              "exp-1" "experiment.yaml" ["libpng"]
              SampleLaunch.fuzzer_configs Sample.world)
    as [Hcopy Hstart].
  assert (H16 : t = take 16 t ++ EEnter "copy_resources_to_bucket"
                      :: drop 17 t) by (vm_compute; reflexivity).
  assert (H22 : t = take 22 t ++ EEnter "start" :: drop 23 t)
    by (vm_compute; reflexivity).
  split; [exact H16|]. split.
  - destruct (Hcopy _ _ H16) as (_ & Hwrites & _).
    apply (Hwrites {[ "fuzzer" := VStr "afl" ]}).
    apply elem_of_cons. by left.
  - split; [exact H22|]. exact (Hstart _ _ H22).
Defined.

(** ** The local archive *)

Lemma uploads_absent returned t :
  Forall (fun e => uploads returned e = false) t ->
  ~ Exists (fun e => uploads returned e = true) t.
Proof.
  intros Hall Hex. apply Exists_exists in Hex as (e & Hin & He).
  rewrite Forall_forall in Hall. specialize (Hall e Hin). congruence.
Qed.

(** Runs a call and splits on whether it returned. *)
Ltac wp_call_cases :=
  apply wp_call;
  lazymatch goal with
  | |- context [?oracle ?A ?c ?w] =>
      destruct (oracle A c w) as [?|?]; simpl
  end.

(** Closes a case whose trace holds no upload. *)
Ltac no_upload :=
  let absurd :=
    (intros Hex; exfalso; revert Hex; apply uploads_absent;
     by repeat constructor) in
  first
    [ split; [absurd | split; [discriminate | absurd]]
    | discriminate
    | absurd ].

(** C2, amended.  Whatever the collaborators answer, after
    [copy_resources_to_bucket]: if the upload of the archive returned, the
    local archive 'src.tar.gz' is gone, whether the call ends normally or
    the later synchronisation of the configuration raises; a call that ends
    normally has uploaded the archive.  If the upload raised, the call
    raises and the archive is still on disk. *)
Theorem archive_removed_once_uploaded (oracle : Oracle) (ROOT_DIR : string)
  (get_experiment_filestore_path : gmap string string -> string)
  (config_dir : string) (config : gmap string PyValue) (w : World) :
  let run :=
    copy_resources_to_bucket oracle ROOT_DIR get_experiment_filestore_path
      config_dir config w in
  let t := new_events w run.2 in
  (Exists (fun e => uploads true e = true) t ->
   files run.2 !! source_archive = None)
  /\ (run.1 = Ok tt -> Exists (fun e => uploads true e = true) t)
  /\ (Exists (fun e => uploads false e = true) t ->
      is_ok run.1 = false /\ is_Some (files run.2 !! source_archive)).
Proof.
  intros run t.
  apply (wp_new_events
           (copy_resources_to_bucket oracle ROOT_DIR
              get_experiment_filestore_path config_dir config)
           (fun r w' t =>
              (Exists (fun e => uploads true e = true) t ->
               files w' !! source_archive = None)
              /\ (r = Ok tt -> Exists (fun e => uploads true e = true) t)
              /\ (Exists (fun e => uploads false e = true) t ->
                  is_ok r = false /\ is_Some (files w' !! source_archive)))).
  unfold copy_resources_to_bucket. apply wp_scoped.
  apply wp_bind, wp_lift.
  destruct (getitem config "experiment_filestore")
    as [experiment_filestore|e]; [|no_upload].
  apply wp_bind. unfold environ_setitem.
  destruct experiment_filestore as [| | | |filestore| |];
    try (apply wp_raise; no_upload).
  apply wp_modify; [done|].
  apply wp_bind, wp_lift.
  destruct (getitem config "experiment") as [experiment|e]; [|no_upload].
  apply wp_bind.
  destruct experiment as [| | | |experiment| |];
    try (apply wp_raise; no_upload).
  apply wp_modify; [done|].
  apply wp_bind, wp_get_world.
  apply wp_bind. unfold write_archive.
  apply wp_bind. wp_call_cases; [|no_upload].
  apply wp_bind, wp_modify; [done|].
  apply wp_bind. wp_call_cases; [|no_upload].
  apply wp_modify; [done|]. simpl.
  apply wp_bind. wp_call_cases.
  - apply wp_bind. unfold os_remove. apply wp_bind, wp_get_world. simpl.
    rewrite lookup_insert_eq. apply wp_modify; [done|]. simpl.
    wp_call_cases.
    + split; [intros _; apply lookup_delete_eq|]. split.
      * intros _. do 3 apply Exists_cons_tl. by apply Exists_cons_hd.
      * no_upload.
    + split; [intros _; apply lookup_delete_eq|].
      split; [discriminate|no_upload].
  - split; [no_upload|]. split; [discriminate|].
    intros _. split; [done|]. rewrite lookup_insert_eq. by eexists.
Qed.

Lemma archive_removed_once_uploaded_witness :
  let run := SampleLaunch.bundle Sample.local_config false Sample.world in
  run.1 = Ok tt /\ files run.2 !! source_archive = None.
Proof.
  intros run.
  destruct (archive_removed_once_uploaded
              (SampleLaunch.oracle VNone false) Sample.ROOT_DIR
              Sample.filestore_path CONFIG_DIR
              (SampleLaunch.stamped Sample.local_config) Sample.world)
    as (Hgone & Huploaded & _).
  assert (Hok : run.1 = Ok tt) by (vm_compute; reflexivity).
  split; [exact Hok|]. apply Hgone, Huploaded, Hok.
Defined.

(** C2 as stated fails: when the upload raises, the exception leaves
    [copy_resources_to_bucket] before [os.remove] is reached, and the
    archive, holding the members that passed the filter, stays on disk. *)
Lemma archive_left_when_upload_fails :
  let run := SampleLaunch.bundle Sample.local_config true Sample.world in
  run.1 = Raise (CollaboratorError "filestore_utils.cp")
  /\ files run.2 !! source_archive
     = Some [ {| tarfile.name := "fuzzers/afl/fuzzer.py" |} ].
Proof. cbv zeta. split; vm_compute; reflexivity. Qed.

(** ** The cloud project *)

(** A configuration that the validation returns has its experiment
    filestore, a string. *)
Lemma validated_filestore (validator : Oracle) config_filename w
  (config : gmap string PyValue) :
  (read_and_validate_experiment_config validator config_filename w).1
  = Ok config ->
  exists filestore, config !! "experiment_filestore" = Some (VStr filestore).
Proof.
  unfold read_and_validate_experiment_config, bind, call.
  destruct (validator _ _ w) as [document|e]; [|discriminate].
  destruct document as [| | | | | |config']; try discriminate.
  rewrite validate_experiment_config_run. simpl.
  destruct (forallb _ _) eqn:Hvalid; [|discriminate].
  intros [= ->].
  pose proof (proj1 (all_valid_iff _ _) Hvalid "experiment_filestore")
    as Hrules.
  assert (Hin : "experiment_filestore"
                ∈ elements (required_params (local_experiment_of config))).
  { apply elem_of_elements, required_filestore.
    apply elem_of_by_compute. vm_compute. reflexivity. }
  pose proof (Hrules MissingKey Hin) as Hmissing.
  pose proof (Hrules NonLowercaseString Hin) as Hstring.
  unfold violates in Hmissing, Hstring.
  destruct (config !! "experiment_filestore") as [value|]; [|discriminate].
  rewrite bool_decide_eq_true_2 in Hstring
    by (apply elem_of_by_compute; vm_compute; reflexivity).
  simpl in Hstring.
  destruct (not_lowercase_str_false _ Hstring) as [filestore ->]. eauto.
Qed.

(** C9.  (1) A configuration with 'local_experiment' true and without
    'cloud_project' passes [read_and_validate_experiment_config].  (2) On
    every configuration that passes it, has a truthy 'local_experiment' and
    lacks 'cloud_project', [LocalDispatcher.start] creates the filestore
    directory and then raises KeyError('cloud_project'); it raises earlier
    only if creating the directory raises.  (3) On every configuration of a
    non-local experiment that lacks 'cloud_project', the block of
    [start_experiment] that switches the project never returns: it raises
    KeyError('cloud_project') whenever POSTGRES_PASSWORD is set, without
    having called gcloud. *)
Theorem cloud_project_is_read_but_never_required (oracle : Oracle)
  (get_base_docker_tag : PyValue -> string) (abspath : string -> string)
  (py_str : PyValue -> string) :
  (exists config : gmap string PyValue,
      config !! "local_experiment" = Some (VBool true)
      /\ config !! "cloud_project" = None
      /\ (read_and_validate_experiment_config
            (Sample.oracle (VDict config) [] [] false) "experiment.yaml"
            Sample.world).1 = Ok config)
  /\ (forall (validator : Oracle) config_filename w0 config self w,
         (read_and_validate_experiment_config validator config_filename
            w0).1 = Ok config ->
         truthy (local_experiment_of config) = true ->
         config !! "cloud_project" = None ->
         self_config self = config ->
         exists filestore,
           config !! "experiment_filestore" = Some (VStr filestore)
           /\ (LocalDispatcher_start oracle get_base_docker_tag abspath
                 py_str self w).1
              = match oracle _ (filesystem_create_directory
                                  (abspath filestore)) w with
                | Ok _ => Raise (KeyError "cloud_project")
                | Raise e => Raise e
                end)
  /\ (forall (config : gmap string PyValue) w,
         truthy (local_experiment_of config) = false ->
         config !! "cloud_project" = None ->
         let run := make_sure_we_can_connect_to_database oracle config w in
         is_ok run.1 = false
         /\ new_events w run.2 = []
         /\ (is_Some (environ w !! "POSTGRES_PASSWORD") ->
             run.1 = Raise (KeyError "cloud_project"))).
Proof.
  split; [|split].
  - exists Sample.local_config.
    split; [vm_compute; reflexivity|]. split; [vm_compute; reflexivity|].
    rewrite (read_and_validate_run _ _ Sample.local_config) by reflexivity.
    rewrite validate_experiment_config_run. simpl.
    replace (forallb _ _) with true by (vm_compute; reflexivity). done.
  - intros validator config_filename w0 config self w Hvalid Hlocal Hproject
      Hself.
    destruct (validated_filestore _ _ _ _ Hvalid) as [filestore Hfilestore].
    exists filestore. split; [done|].
    unfold LocalDispatcher_start, bind, lift, call, getitem.
    rewrite Hself, Hfilestore. simpl.
    destruct (oracle _ (filesystem_create_directory (abspath filestore)) w)
      as [[]|e]; simpl; [|done].
    by rewrite Hproject.
  - intros config w Hlocal Hproject run. subst run.
    unfold make_sure_we_can_connect_to_database.
    fold (local_experiment_of config). rewrite Hlocal. simpl.
    unfold bind, environ_contains, get_world, ret, lift, getitem, new_events.
    simpl. rewrite Hproject.
    destruct (environ w !! "POSTGRES_PASSWORD") as [password|] eqn:Henv.
    + rewrite bool_decide_eq_true_2 by by eexists. simpl.
      by rewrite drop_all.
    + rewrite bool_decide_eq_false_2 by by intros [? ?]. simpl.
      rewrite drop_all. split; [done|]. split; [done|].
      by intros [? ?].
Qed.

Lemma cloud_project_is_read_but_never_required_witness :
  let oracle := SampleLaunch.oracle VNone false in
  let config := SampleLaunch.stamped Sample.local_config in
  (LocalDispatcher_start oracle Sample.docker_tag Sample.abspath
     Sample.py_str (mkSelf config "d-exp-1" None) Sample.world).1
  = Raise (KeyError "cloud_project")
  /\ (make_sure_we_can_connect_to_database oracle
        (SampleLaunch.stamped Sample.cloud_config) world_with_password).1
     = Raise (KeyError "cloud_project").
Proof.
  intros oracle config.
  destruct (cloud_project_is_read_but_never_required oracle
              Sample.docker_tag Sample.abspath Sample.py_str)
    as (_ & Hlocal & Hcloud).
  split.
  - destruct (Hlocal (Sample.oracle (VDict config) [] [] false)
                "experiment.yaml" Sample.world config
                (mkSelf config "d-exp-1" None) Sample.world)
      as (filestore & Hfilestore & Hrun).
    + vm_compute. reflexivity.
    + vm_compute. reflexivity.
    + vm_compute. reflexivity.
    + reflexivity.
    + rewrite Hrun. reflexivity.
  - apply (Hcloud (SampleLaunch.stamped Sample.cloud_config)
             world_with_password).
    + vm_compute. reflexivity.
    + vm_compute. reflexivity.
    + exists "secret". vm_compute. reflexivity.
Defined.

(** *** The switch of the project inside the launch *)

Lemma wp_result {A} (m : M A) (Q : Result A -> Prop) w :
  wp m (fun r _ _ => Q r) w -> Q (m w).1.
Proof. by intros (t & _ & H). Qed.

(** What [read_and_validate_experiment_config] returns is the mapping that
    the file held. *)
Lemma read_and_validate_result (oracle : Oracle) config_filename w :
  wp (read_and_validate_experiment_config oracle config_filename)
     (fun r _ _ =>
        forall config,
          r = Ok config ->
          oracle _ (yaml_utils_read config_filename) w = Ok (VDict config)) w.
Proof.
  unfold read_and_validate_experiment_config. apply wp_bind, wp_call.
  destruct (oracle _ (yaml_utils_read config_filename) w) as [document|e];
    [|done].
  destruct document as [| | | | | |config'];
    try (apply wp_raise; discriminate).
  eapply wp_mono.
  - apply (wp_and _ (fun _ _ _ => True)
                    (fun r _ _ => forall config, r = Ok config ->
                                                 config = config')).
    + apply (wp_of_only (fun _ => true)); [|done].
      by apply only_read_and_validate_body.
    + exists []. rewrite validate_experiment_config_run. simpl.
      rewrite app_nil_r. split; [done|].
      destruct (forallb _ _); [by intros ? [= ->] | discriminate].
  - intros r w' t [_ H] config Hr. by rewrite (H config Hr).
Qed.

Section project_switch.

Context (oracle : Oracle).
Context (ROOT_DIR : string).
Context (get_dispatcher_instance_name : PyValue -> string).
Context (get_base_docker_tag : PyValue -> string).
Context (get_experiment_filestore_path : gmap string string -> string).
Context (abspath : string -> string).
Context (py_str : PyValue -> string).

(** If the configuration file describes an experiment that is not local and
    has no 'cloud_project', no launch returns normally: it stops at the
    latest in the block that switches the project, before the
    dispatcher. *)
Lemma launch_needs_cloud_project experiment_name config_filename benchmarks
  fuzzer_configs w :
  (forall w' config,
      oracle _ (yaml_utils_read config_filename) w' = Ok (VDict config) ->
      truthy (local_experiment_of config) = false
      /\ config !! "cloud_project" = None) ->
  let run :=
    start_experiment oracle ROOT_DIR get_dispatcher_instance_name
      get_base_docker_tag get_experiment_filestore_path abspath py_str
      experiment_name config_filename benchmarks fuzzer_configs w in
  is_ok run.1 = false
  /\ Forall (fun e => unmarked e = true) (new_events w run.2).
Proof.
  intros Hfile run. subst run.
  apply (wp_new_events
           (start_experiment oracle ROOT_DIR get_dispatcher_instance_name
              get_base_docker_tag get_experiment_filestore_path abspath
              py_str experiment_name config_filename benchmarks
              fuzzer_configs)
           (fun r _ t => is_ok r = false
                         /\ Forall (fun e => unmarked e = true) t)).
  unfold start_experiment.
  apply wp_bind. apply (wp_of_only unmarked);
    [apply only_check_no_local_changes, unmarked_call|].
  intros [[]|e] w1 t1 H1; [|done].
  apply wp_bind, wp_lift.
  destruct (validate_experiment_name experiment_name) as [[]|e];
    [|by rewrite app_nil_r].
  apply wp_bind, wp_lift.
  destruct (validate_benchmarks benchmarks) as [[]|e];
    [|by rewrite !app_nil_r].
  apply wp_bind. eapply wp_mono.
  { apply wp_and;
      [apply (only_read_and_validate oracle unmarked), unmarked_call
      |apply read_and_validate_result]. }
  intros [config|e] w2 t2 [H2 Hconfig]; simpl;
    [|split; [done|by apply Forall_app]].
  destruct (Hfile _ _ (Hconfig config eq_refl)) as [Hlocal Hproject].
  apply wp_bind. apply (wp_of_only unmarked);
    [apply only_get_git_hash, unmarked_call|].
  intros [git_hash|e] w3 t3 H3; [|by rewrite !Forall_app].
  set (stamped := <["git_hash" := VStr git_hash]> _).
  assert (Hlocal' : truthy (local_experiment_of stamped) = false).
  { unfold local_experiment_of, get, stamped in *.
    by rewrite !lookup_insert_ne. }
  assert (Hproject' : stamped !! "cloud_project" = None).
  { unfold stamped. by rewrite !lookup_insert_ne. }
  apply wp_bind. apply (wp_of_only unmarked);
    [apply only_set_up_experiment_config_file|].
  intros [[]|e] w4 t4 H4; [|by rewrite !Forall_app].
  apply wp_bind. apply (wp_of_only unmarked);
    [apply only_set_up_fuzzer_config_files|].
  intros [[]|e] w5 t5 H5; [|by rewrite !Forall_app].
  apply wp_bind.
  unfold make_sure_we_can_connect_to_database.
  fold (local_experiment_of stamped). rewrite Hlocal'. simpl.
  apply wp_bind. unfold environ_contains. apply wp_bind, wp_get_world.
  apply wp_ret.
  destruct (negb _); [apply wp_raise|apply wp_bind, wp_lift];
    [|unfold getitem; rewrite Hproject'];
    (split; [done|]); rewrite ?app_nil_r, !Forall_app; done.
Qed.

End project_switch.

(** The sample launch of a local experiment without 'cloud_project' gets as
    far as the dispatcher's [start], which raises the KeyError. *)
Example local_launch_raises_KeyError :
  (SampleLaunch.launch (VDict Sample.local_config) false Sample.world).1
  = Raise (KeyError "cloud_project").
Proof. vm_compute. reflexivity. Qed.

(** * Further properties of the code *)

(** ** validate_benchmarks *)

Lemma filter_nil_inv {A} (f : A -> bool) (l : list A) :
  List.filter f l = [] -> forall x, x ∈ l -> f x = false.
Proof.
  induction l as [|y l IH]; intros H x Hx; [by apply elem_of_nil in Hx|].
  simpl in H. destruct (f y) eqn:Hy; [discriminate|].
  apply elem_of_cons in Hx as [->|Hx]; [done|by apply IH].
Qed.

Lemma filter_head_inv {A} (f : A -> bool) (l : list A) x rest :
  List.filter f l = x :: rest -> x ∈ l /\ f x = true.
Proof.
  intros H.
  assert (Hin : In x (List.filter f l)) by (rewrite H; by left).
  apply filter_In in Hin as [Hin Hx]. split; [by apply list_elem_of_In|done].
Qed.

(** X1.  [validate_benchmarks] returns normally exactly when no benchmark
    is listed twice; when it raises, the message names a benchmark that the
    list holds at least twice. *)
Theorem validate_benchmarks_spec (benchmarks : list string) :
  (validate_benchmarks benchmarks = Ok tt <-> NoDup benchmarks)
  /\ (forall e,
         validate_benchmarks benchmarks = Raise e ->
         exists benchmark,
           (2 <= count_occ string_dec benchmarks benchmark)%nat
           /\ e = Exception ("Benchmark " +:+ quoted benchmark
                             +:+ " is included more than once.")).
Proof.
  unfold validate_benchmarks.
  destruct (List.filter _ _) as [|benchmark rest] eqn:Hfilter.
  - split; [|discriminate]. split; [intros _|done].
    apply NoDup_ListNoDup, (NoDup_count_occ string_dec). intros x.
    destruct (decide (x ∈ benchmarks)) as [Hin|Hout].
    + pose proof (filter_nil_inv _ _ Hfilter x) as Hx. simpl in Hx.
      apply Nat.ltb_ge. apply Hx. by apply elem_of_elements, elem_of_list_to_set.
    + rewrite (proj1 (count_occ_not_In string_dec benchmarks x)); [lia|].
      by rewrite <- list_elem_of_In.
  - apply filter_head_inv in Hfilter as [_ Hcount].
    apply Nat.ltb_lt in Hcount. split.
    + split; [discriminate|]. intros Hnodup. exfalso.
      apply NoDup_ListNoDup in Hnodup.
      pose proof (proj1 (NoDup_count_occ string_dec benchmarks) Hnodup
                    benchmark).
      lia.
    + intros e [= <-]. exists benchmark. split; [lia|done].
Qed.

Lemma validate_benchmarks_spec_witness :
  validate_benchmarks ["libpng"; "zlib"] = Ok tt.
Proof.
  apply (proj1 (validate_benchmarks_spec ["libpng"; "zlib"])).
  apply NoDup_cons. split; [|apply NoDup_singleton].
  intros Hin. apply list_elem_of_singleton in Hin. discriminate Hin.
Defined.

(** ** The names of experiments and fuzzers *)

Lemma string_app_nil_r (s : string) : s +:+ EmptyString = s.
Proof.
  induction s as [|c s IH]; [done|]. rewrite string_app_cons. by rewrite IH.
Qed.

Lemma at_eol_spec rest :
  at_eol rest = true <-> rest = EmptyString \/ rest = newline.
Proof.
  unfold at_eol, newline. destruct rest as [|c [|c' rest]].
  - split; [by left|done].
  - destruct (Ascii.eqb_spec c "010"%char) as [->|Hne].
    + split; [by right|done].
    + split; [discriminate|]. intros [?|[= ?]]; done.
  - split; [discriminate|]. intros [?|?]; discriminate.
Qed.

(** A text and an optional final newline. *)
Lemma ends_at_eol s u rest :
  s = u +:+ rest -> at_eol rest = true -> s = u \/ s = u +:+ newline.
Proof.
  intros -> [-> | ->]%at_eol_spec; [left; apply string_app_nil_r|by right].
Qed.

(** [^c{lo,hi}$] *)
Lemma anchored_rep_spec cls lo hi s :
  re_match (Seq Bol (Seq (Rep cls lo hi) Eol)) s = true
  <-> exists u,
        all_in cls u = true
        /\ (lo <= String.length u <= hi)%nat
        /\ (s = u \/ s = u +:+ newline).
Proof.
  unfold re_match. cbn [matches]. rewrite rep_spec. split.
  - intros (u & rest & Heq & Hu & Hlen & Heol).
    rewrite andb_true_r in Heol. exists u.
    split; [done|]. split; [done|]. by eapply ends_at_eol.
  - intros (u & Hu & Hlen & [-> | ->]).
    + exists u, EmptyString. by rewrite string_app_nil_r.
    + exists u, newline. done.
Qed.

(** [^c+$] *)
Lemma anchored_plus_spec cls s :
  re_match (Seq Bol (Seq (plus cls) Eol)) s = true
  <-> exists u,
        all_in cls u = true
        /\ u <> EmptyString
        /\ (s = u \/ s = u +:+ newline).
Proof.
  unfold re_match, plus. cbn [matches]. rewrite rep_spec. split.
  - intros (u1 & rest1 & -> & Hu1 & Hlen & Hstar).
    apply star_spec in Hstar as (u2 & rest & -> & Hu2 & Heol).
    rewrite andb_true_r in Heol.
    destruct u1 as [|c [|c' u1]]; cbn in Hlen; try lia.
    exists (String c u2). str_simpl.
    apply andb_true_iff in Hu1 as [Hc _]. rewrite Hc, Hu2.
    split; [done|]. split; [done|].
    rewrite <- string_app_cons. by eapply ends_at_eol.
  - intros (u & Hu & Hne & Hs). destruct u as [|c u]; [done|].
    str_simpl. apply andb_true_iff in Hu as [Hc Hu].
    assert (Htail : exists tail,
               s = String c (u +:+ tail) /\ at_eol tail = true).
    { destruct Hs as [-> | ->].
      - exists EmptyString. by rewrite string_app_nil_r.
      - by exists newline. }
    destruct Htail as (tail & -> & Htail).
    exists (String c EmptyString), (u +:+ tail).
    str_simpl. rewrite Hc. cbn [andb].
    split; [done|]. split; [done|]. split; [lia|]. apply star_spec.
    exists u, tail. split; [done|]. split; [done|]. by rewrite Htail.
Qed.

(** X2.  [validate_experiment_name] accepts exactly the names made of at
    most 30 characters among a-z, 0-9 and '-', possibly followed by one
    newline, which [$] lets through; the empty name is accepted. *)
Theorem validate_experiment_name_spec (experiment_name : string) :
  (validate_experiment_name experiment_name = Ok tt
   <-> exists u,
         all_in (lower_digit "-") u = true
         /\ (String.length u <= 30)%nat
         /\ (experiment_name = u \/ experiment_name = u +:+ newline))
  /\ validate_experiment_name EmptyString = Ok tt.
Proof.
  split; [|reflexivity].
  unfold validate_experiment_name, EXPERIMENT_CONFIG_REGEX.
  destruct (re_match _ experiment_name) eqn:Hmatch; simpl.
  - apply anchored_rep_spec in Hmatch as (u & Hu & Hlen & Hs).
    split; [intros _|done]. exists u. split; [done|]. split; [lia|done].
  - split; [discriminate|]. intros (u & Hu & Hlen & Hs). exfalso.
    apply not_true_iff_false in Hmatch. apply Hmatch.
    apply anchored_rep_spec. exists u. split; [done|]. split; [lia|done].
Qed.

Lemma validate_experiment_name_spec_witness :
  validate_experiment_name "exp-1" = Ok tt.
Proof.
  apply (proj1 (validate_experiment_name_spec "exp-1")).
  exists "exp-1". split; [reflexivity|]. split; [simpl; lia|by left].
Defined.

Lemma filter_m_subset {A} (p : A -> M bool) (l : list A) w kept :
  (filter_m p l w).1 = Ok kept -> forall x, x ∈ kept -> x ∈ l.
Proof.
  revert w kept. induction l as [|y l IH]; intros w kept; simpl.
  - intros [= <-] x Hx. by apply elem_of_nil in Hx.
  - unfold bind at 1. destruct (p y w) as [[keep|e] w1]; [|discriminate].
    unfold bind at 1.
    destruct (filter_m p l w1) as [[rest|e] w2] eqn:Hrest; [|discriminate].
    simpl. intros [= <-] x Hx.
    pose proof (IH w1 rest) as IH'. rewrite Hrest in IH'.
    specialize (IH' eq_refl). apply elem_of_cons.
    destruct keep.
    + apply elem_of_cons in Hx as [->|Hx]; [by left|right; by apply IH'].
    + right. by apply IH'.
Qed.

Section validate_fuzzer.

Context (oracle : Oracle) (ROOT_DIR : string) (py_str : PyValue -> string).

(** X3.  A fuzzer name that is not a string, or not made of one or more
    characters among a-z, 0-9 and '_' (possibly followed by one newline),
    is rejected before the fuzzers directory is looked at: [validate_fuzzer]
    raises and the world is as it was, no call made. *)
Theorem validate_fuzzer_rejects_before_listing (fuzzer : PyValue) (w : World)
  (Hbad : forall f u,
      fuzzer = VStr f -> all_in (lower_digit "_") u = true ->
      u <> EmptyString -> f <> u /\ f <> u +:+ newline) :
  (exists e, validate_fuzzer oracle ROOT_DIR py_str fuzzer w = (Raise e, w))
  /\ (isinstance_str fuzzer = false ->
      validate_fuzzer oracle ROOT_DIR py_str fuzzer w = (Raise TypeError, w)).
Proof.
  unfold validate_fuzzer, bind, lift, py_re_match.
  destruct fuzzer as [| | | |f| |]; simpl; try (split; [by eexists|done]).
  split; [|discriminate].
  destruct (re_match FUZZER_NAME_REGEX f) eqn:Hmatch; simpl;
    [|by eexists].
  apply anchored_plus_spec in Hmatch as (u & Hu & Hne & Hs).
  destruct (Hbad f u eq_refl Hu Hne) as [H1 H2].
  destruct Hs; done.
Qed.

(** X4.  When [validate_fuzzer] returns normally, the fuzzer is a string of
    one or more characters among a-z, 0-9 and '_' (possibly followed by one
    newline) and it is one of the entries that [os.listdir] returned for
    the fuzzers directory. *)
Theorem validate_fuzzer_sound (fuzzer : PyValue) (w : World)
  (Hok : (validate_fuzzer oracle ROOT_DIR py_str fuzzer w).1 = Ok tt) :
  exists f u entries,
    fuzzer = VStr f
    /\ all_in (lower_digit "_") u = true
    /\ u <> EmptyString
    /\ (f = u \/ f = u +:+ newline)
    /\ oracle _ (os_listdir (path_join ROOT_DIR "fuzzers")) w = Ok entries
    /\ f ∈ entries.
Proof.
  revert Hok. unfold validate_fuzzer, bind at 1, lift, py_re_match.
  destruct fuzzer as [| | | |f| |]; simpl; try discriminate.
  destruct (re_match FUZZER_NAME_REGEX f) eqn:Hmatch; simpl;
    [|discriminate].
  apply anchored_plus_spec in Hmatch as (u & Hu & Hne & Hs).
  unfold bind at 1, get_directories, FUZZERS_DIR, bind at 1, call.
  destruct (oracle _ (os_listdir _) w) as [entries|e] eqn:Hlist; simpl;
    [|discriminate].
  destruct (filter_m _ entries _) as [[directories|e] w'] eqn:Hfilter;
    simpl; [|discriminate].
  destruct (bool_decide (f ∈ directories)) eqn:Hin; simpl; [|discriminate].
  intros _. exists f, u, entries. repeat split; try done.
  apply bool_decide_eq_true in Hin.
  eapply filter_m_subset; [|exact Hin]. by rewrite Hfilter.
Qed.

End validate_fuzzer.

Lemma validate_fuzzer_rejects_before_listing_witness :
  exists e,
    validate_fuzzer (Sample.oracle VNone ["AFL"] [] false) Sample.ROOT_DIR
      Sample.py_str (VStr "AFL") Sample.world
    = (Raise e, Sample.world).
Proof.
  apply (validate_fuzzer_rejects_before_listing
           (Sample.oracle VNone ["AFL"] [] false) Sample.ROOT_DIR
           Sample.py_str (VStr "AFL") Sample.world).
  intros f u [= <-] Hu Hne.
  destruct u as [|c u]; [done|]. str_simpl.
  apply andb_true_iff in Hu as [Hc _].
  split; intros [= <- _]; vm_compute in Hc; discriminate.
Defined.

Lemma validate_fuzzer_sound_witness :
  exists f u entries,
    VStr "afl" = VStr f
    /\ all_in (lower_digit "_") u = true
    /\ u <> EmptyString
    /\ (f = u \/ f = u +:+ newline)
    /\ Sample.oracle VNone ["afl"; "libfuzzer"] [] false _
         (os_listdir (path_join Sample.ROOT_DIR "fuzzers")) Sample.world
       = Ok entries
    /\ f ∈ entries.
Proof.
  apply (validate_fuzzer_sound
           (Sample.oracle VNone ["afl"; "libfuzzer"] [] false)
           Sample.ROOT_DIR Sample.py_str (VStr "afl") Sample.world).
  vm_compute. reflexivity.
Defined.

(** ** What passes validate_fuzzer_config *)

Section validate_fuzzer_config.

Context (oracle : Oracle) (ROOT_DIR : string) (py_str : PyValue -> string).

(** X5.  When [validate_fuzzer_config] returns normally, the configuration
    has the 'fuzzer' key and no key other than 'name', 'env' and 'fuzzer';
    its 'env', if any, is a dict; its 'name', if any, is falsy or a string
    that matches the name pattern; and its 'fuzzer' is falsy or accepted by
    [validate_fuzzer]. *)
Theorem validate_fuzzer_config_sound (fuzzer_config : gmap string PyValue)
  (w : World)
  (Hok : (validate_fuzzer_config oracle ROOT_DIR py_str fuzzer_config w).1
         = Ok tt) :
  is_Some (fuzzer_config !! "fuzzer")
  /\ (forall key, is_Some (fuzzer_config !! key) -> key ∈ allowed_fields)
  /\ (forall env, fuzzer_config !! "env" = Some env ->
                  isinstance_dict env = true)
  /\ (forall name, fuzzer_config !! "name" = Some name ->
        truthy name = false
        \/ exists n, name = VStr n /\ re_match FUZZER_NAME_REGEX n = true)
  /\ (forall fuzzer, fuzzer_config !! "fuzzer" = Some fuzzer ->
        truthy fuzzer = false
        \/ (validate_fuzzer oracle ROOT_DIR py_str fuzzer w).1 = Ok tt).
Proof.
  revert Hok. unfold validate_fuzzer_config.
  destruct (contains fuzzer_config "fuzzer") eqn:Hfuzzer; simpl;
    [|discriminate].
  apply bool_decide_eq_true in Hfuzzer.
  destruct (List.filter _ _) as [|key rest] eqn:Hkeys; [|discriminate].
  destruct (match fuzzer_config !! "env" with
            | Some env => negb (isinstance_dict env)
            | None => false
            end) eqn:Henv; [discriminate|].
  unfold bind at 1. intros Hok.
  split; [done|]. split; [|split; [|split]].
  - intros key [value Hvalue].
    pose proof (filter_nil_inv _ _ Hkeys key) as Hkey. simpl in Hkey.
    apply negb_false_iff, bool_decide_eq_true in Hkey; [done|].
    apply list_elem_of_fmap. exists (key, value).
    split; [done|]. by apply elem_of_map_to_list.
  - intros env Heq. rewrite Heq in Henv. by apply negb_false_iff in Henv.
  - intros name Hname. unfold get in Hok. rewrite Hname in Hok.
    destruct (truthy name) eqn:Htruthy; [right|by left].
    unfold bind at 1, lift, py_re_match in Hok.
    destruct name as [| | | |n| |]; try (simpl in Hok; discriminate).
    destruct (re_match FUZZER_NAME_REGEX n) eqn:Hmatch; [eauto|].
    simpl in Hok. discriminate.
  - intros fuzzer Heq.
    destruct (_ w) as [[[]|e] w'] eqn:Hname in Hok; [|discriminate].
    assert (w' = w) as ->.
    { destruct (truthy _) in Hname; [|by injection Hname].
      unfold bind, lift in Hname.
      destruct (py_re_match _ _) as [[]|e] in Hname; simpl in Hname;
        unfold raise, ret in Hname; congruence. }
    unfold get in Hok. rewrite Heq in Hok.
    destruct (truthy fuzzer); [by right|by left].
Qed.

(** X6.  A 'name' that is present, falsy and not a string (None, False, 0,
    an empty list or dict) is not checked by [validate_fuzzer_config],
    which returns normally on a configuration that is valid otherwise; and
    [get_full_fuzzer_name] then raises TypeError on it. *)
Theorem falsy_name_passes_validation_and_breaks_naming
  (fuzzer_config : gmap string PyValue) (name : PyValue) (fuzzer : string)
  (w : World)
  (Hname : fuzzer_config !! "name" = Some name)
  (Hfalsy : truthy name = false)
  (Hnot_str : isinstance_str name = false)
  (Hfuzzer : fuzzer_config !! "fuzzer" = Some (VStr fuzzer))
  (Hkeys : forall key, is_Some (fuzzer_config !! key) ->
                       key ∈ allowed_fields)
  (Henv : forall env, fuzzer_config !! "env" = Some env ->
                      isinstance_dict env = true)
  (Hbase : (validate_fuzzer oracle ROOT_DIR py_str (VStr fuzzer) w).1
           = Ok tt) :
  (validate_fuzzer_config oracle ROOT_DIR py_str fuzzer_config w).1 = Ok tt
  /\ get_full_fuzzer_name fuzzer_config = Raise TypeError.
Proof.
  split.
  - unfold validate_fuzzer_config.
    rewrite (contains_true _ _ _ Hfuzzer). simpl.
    rewrite (no_invalid_entry _ Hkeys).
    assert (Henv' : match fuzzer_config !! "env" with
                    | Some env => negb (isinstance_dict env)
                    | None => false
                    end = false).
    { destruct (fuzzer_config !! "env") as [env|] eqn:E; [|done].
      by rewrite (Henv env). }
    rewrite Henv'. unfold get. rewrite Hname, Hfuzzer, Hfalsy. simpl.
    unfold bind, ret. simpl.
    destruct (negb (String.eqb fuzzer EmptyString)); [exact Hbase|done].
  - unfold get_full_fuzzer_name, getitem.
    rewrite (contains_true _ _ _ Hname), Hfuzzer, Hname. simpl.
    by destruct name.
Qed.

End validate_fuzzer_config.

Lemma validate_fuzzer_config_sound_witness :
  let fuzzer_config : gmap string PyValue :=
    {[ "fuzzer" := VStr "afl"; "name" := VStr "fast" ]} in
  is_Some (fuzzer_config !! "fuzzer")
  /\ (forall key, is_Some (fuzzer_config !! key) -> key ∈ allowed_fields).
Proof.
  intros fuzzer_config.
  destruct (validate_fuzzer_config_sound
              (Sample.oracle VNone ["afl"; "libfuzzer"] [] false)
              Sample.ROOT_DIR Sample.py_str fuzzer_config Sample.world)
    as (Hfuzzer & Hkeys & _).
  - vm_compute. reflexivity.
  - split; [exact Hfuzzer | exact Hkeys].
Defined.

Lemma falsy_name_passes_validation_and_breaks_naming_witness :
  let fuzzer_config : gmap string PyValue :=
    {[ "fuzzer" := VStr "afl"; "name" := VNone ]} in
  (validate_fuzzer_config (Sample.oracle VNone ["afl"; "libfuzzer"] [] false)
     Sample.ROOT_DIR Sample.py_str fuzzer_config Sample.world).1 = Ok tt
  /\ get_full_fuzzer_name fuzzer_config = Raise TypeError.
Proof.
  intros fuzzer_config.
  apply (falsy_name_passes_validation_and_breaks_naming
           (Sample.oracle VNone ["afl"; "libfuzzer"] [] false)
           Sample.ROOT_DIR Sample.py_str fuzzer_config VNone "afl"
           Sample.world).
  - vm_compute. reflexivity.
  - reflexivity.
  - reflexivity.
  - vm_compute. reflexivity.
  - intros key [value Hvalue].
    destruct (decide (key = "fuzzer")) as [->|Hne1];
      [apply elem_of_by_list; vm_compute; reflexivity|].
    destruct (decide (key = "name")) as [->|Hne2];
      [apply elem_of_by_list; vm_compute; reflexivity|].
    subst fuzzer_config.
    rewrite lookup_insert_ne, lookup_singleton_ne in Hvalue by done.
    discriminate.
  - intros env Henv. subst fuzzer_config.
    rewrite lookup_insert_ne, lookup_singleton_ne in Henv by done.
    discriminate.
  - vm_compute. reflexivity.
Defined.

(** ** The fuzzer configuration files *)

(** Unfolds the functions of the program, then applies the rules for runs
    whose events are all of one kind. *)
Ltac only_prog :=
  repeat first
    [ only_step
    | progress unfold
        check_no_local_changes, get_git_hash, validate_param,
        validate_experiment_config, read_and_validate_experiment_config,
        get_directories, validate_fuzzer, validate_fuzzer_config,
        set_up_experiment_config_file, set_up_fuzzer_config_files,
        environ_contains, os_getenv, environ_getitem, environ_setitem,
        os_remove, write_archive, copy_resources_to_bucket, create_async,
        LocalDispatcher_start, GoogleCloudDispatcher_start, start,
        start_dispatcher, make_sure_we_can_connect_to_database,
        start_experiment ].

Lemma write_events_app t1 t2 :
  write_events (t1 ++ t2) = write_events t1 ++ write_events t2.
Proof. apply omap_app. Qed.

Lemma write_events_none t :
  Forall (fun e => not_write e = true) t -> write_events t = [].
Proof.
  induction 1 as [|e t He _ IH]; [done|].
  change (e :: t) with ([e] ++ t). rewrite write_events_app, IH.
  unfold not_write in He. unfold write_events. cbn [omap list_omap].
  by destruct (write_event e).
Qed.

(** X7.  [get_full_fuzzer_name] does not tell a variant from a base fuzzer
    whose own name has the same text: the base fuzzer [f_n] and the variant
    [n] of the fuzzer [f] get the same full name. *)
Theorem get_full_fuzzer_name_collides (f n : string) :
  get_full_fuzzer_name {[ "fuzzer" := VStr (f +:+ "_" +:+ n) ]}
  = Ok (VStr (f +:+ "_" +:+ n))
  /\ get_full_fuzzer_name {[ "fuzzer" := VStr f; "name" := VStr n ]}
     = Ok (VStr (f +:+ "_" +:+ n)).
Proof.
  unfold get_full_fuzzer_name, getitem, contains. split.
  - rewrite lookup_singleton_ne by done.
    rewrite bool_decide_eq_false_2 by by intros [? ?].
    simpl. by rewrite lookup_singleton_eq.
  - rewrite (lookup_insert_ne _ "fuzzer" "name") by done.
    rewrite lookup_singleton_eq.
    rewrite bool_decide_eq_true_2 by by eexists.
    simpl. rewrite lookup_insert_eq. simpl. by rewrite string_app_assoc.
Qed.

Section fuzzer_config_files.

Context (oracle : Oracle) (ROOT_DIR : string) (py_str : PyValue -> string).

Lemma only_not_write_validate_fuzzer_config fuzzer_config :
  only not_write (validate_fuzzer_config oracle ROOT_DIR py_str fuzzer_config).
Proof. only_prog. Qed.

(** X8.  [set_up_fuzzer_config_files] raises on an empty list before any
    call.  When it returns normally, its writes are, in the order of the
    list, one per configuration: the configuration itself, written under
    the fuzzer-configs directory to the file named by its full name.  Two
    configurations with the same full name are therefore written to the
    same file, the later one last. *)
Theorem fuzzer_config_files_are_named_by_full_name
  (fuzzer_configs : list (gmap string PyValue)) (w : World) :
  let run :=
    set_up_fuzzer_config_files oracle ROOT_DIR py_str fuzzer_configs w in
  let t := new_events w run.2 in
  (fuzzer_configs = [] ->
   is_ok run.1 = false /\ t = [EEnter "set_up_fuzzer_config_files"])
  /\ (run.1 = Ok tt -> Forall2 written_as fuzzer_configs (write_events t)).
Proof.
  intros run t.
  apply (wp_new_events
           (set_up_fuzzer_config_files oracle ROOT_DIR py_str fuzzer_configs)
           (fun r _ t =>
              (fuzzer_configs = [] ->
               is_ok r = false /\ t = [EEnter "set_up_fuzzer_config_files"])
              /\ (r = Ok tt ->
                  Forall2 written_as fuzzer_configs (write_events t)))).
  clear t run. unfold set_up_fuzzer_config_files. apply wp_scoped.
  destruct fuzzer_configs as [|fuzzer_config0 fuzzer_configs0] eqn:Hlist;
    [by apply wp_raise|].
  rewrite <- Hlist.
  assert (Hne : fuzzer_configs <> []) by (by rewrite Hlist).
  clear Hlist fuzzer_config0 fuzzer_configs0.
  apply wp_bind, wp_call.
  destruct (oracle _ (filesystem_recreate_directory _) _) as [[]|e];
    [|done].
  simpl. unfold for_each.
  eapply wp_mono.
  - apply (wp_for_fold _
             (fun done _ _ t => Forall2 written_as done (write_events t))
             (fun done r _ t =>
                r = Ok tt -> Forall2 written_as done (write_events t))
             fuzzer_configs [] tt _ []).
    + constructor.
    + intros done fuzzer_config [] w' t0 Hinv.
      apply wp_bind.
      apply (wp_of_only not_write);
        [apply only_not_write_validate_fuzzer_config|].
      intros [[]|e] w1 t1 H1; [|done].
      apply wp_bind, wp_lift.
      destruct (get_full_fuzzer_name fuzzer_config) as [full_name|e]
        eqn:Hfull; [|done].
      apply wp_bind, wp_lift.
      destruct full_name as [| | | |name| |]; simpl; try done.
      apply wp_call.
      destruct (oracle _ (yaml_utils_write _ _) _) as [[]|e]; [|done].
      simpl. rewrite !write_events_app, (write_events_none t1 H1). simpl.
      apply Forall2_app; [done|]. constructor; [|constructor].
      by exists name.
    + intros done acc w' t0 Hinv _. exact Hinv.
  - simpl. intros [[]|e] w' t0 Hq; (split; [done|]); [|discriminate].
    intros _. specialize (Hq eq_refl).
    unfold write_events in *. simpl.
    change (omap write_event (t0 ++ [EReturn "set_up_fuzzer_config_files"]))
      with (write_events (t0 ++ [EReturn "set_up_fuzzer_config_files"])).
    rewrite write_events_app. simpl. by rewrite app_nil_r.
Qed.

End fuzzer_config_files.

Lemma fuzzer_config_files_are_named_by_full_name_witness :
  let run :=
    set_up_fuzzer_config_files (SampleLaunch.oracle VNone false)
      Sample.ROOT_DIR Sample.py_str SampleLaunch.fuzzer_configs
      Sample.world in
  run.1 = Ok tt
  /\ Forall2 written_as SampleLaunch.fuzzer_configs
       (write_events (new_events Sample.world run.2)).
Proof.
  intros run.
  assert (Hok : run.1 = Ok tt) by (vm_compute; reflexivity).
  split; [exact Hok|].
  destruct (fuzzer_config_files_are_named_by_full_name
              (SampleLaunch.oracle VNone false) Sample.ROOT_DIR Sample.py_str
              SampleLaunch.fuzzer_configs Sample.world) as [_ Hwrites].
  apply Hwrites, Hok.
Defined.

(** ** What the launch writes *)

(** What [read_and_validate_experiment_config] returns violates no rule. *)
Lemma read_and_validate_valid (oracle : Oracle) config_filename w :
  wp (read_and_validate_experiment_config oracle config_filename)
     (fun r _ _ =>
        forall config,
          r = Ok config ->
          forall param rule,
            param ∈ required_params (local_experiment_of config) ->
            violates config param rule = false) w.
Proof.
  unfold read_and_validate_experiment_config. apply wp_bind, wp_call.
  destruct (oracle _ (yaml_utils_read config_filename) w) as [document|e];
    [|done].
  destruct document as [| | | | | |config'];
    try (apply wp_raise; discriminate).
  exists []. rewrite validate_experiment_config_run. simpl.
  rewrite app_nil_r. split; [done|].
  destruct (forallb _ _) eqn:Hvalid; [|discriminate].
  intros config [= <-] param rule Hin.
  apply (proj1 (all_valid_iff _ _) Hvalid). by apply elem_of_elements.
Qed.

Lemma validate_benchmarks_nodup (benchmarks : list string) :
  validate_benchmarks benchmarks = Ok tt <-> NoDup benchmarks.
Proof.
  unfold validate_benchmarks.
  destruct (List.filter _ _) as [|benchmark rest] eqn:Hfilter.
  - split; [intros _|done].
    apply NoDup_ListNoDup, (NoDup_count_occ string_dec). intros x.
    destruct (decide (x ∈ benchmarks)) as [Hin|Hout].
    + pose proof (filter_nil_inv _ _ Hfilter x) as Hx. simpl in Hx.
      apply Nat.ltb_ge. apply Hx.
      by apply elem_of_elements, elem_of_list_to_set.
    + rewrite (proj1 (count_occ_not_In string_dec benchmarks x)); [lia|].
      by rewrite <- list_elem_of_In.
  - apply filter_head_inv in Hfilter as [_ Hcount].
    apply Nat.ltb_lt in Hcount.
    split; [discriminate|]. intros Hnodup. exfalso.
    apply NoDup_ListNoDup in Hnodup.
    pose proof (proj1 (NoDup_count_occ string_dec benchmarks) Hnodup
                  benchmark).
    lia.
Qed.

Section launch_writes.

Context (oracle : Oracle).
Context (ROOT_DIR : string).
Context (get_dispatcher_instance_name : PyValue -> string).
Context (get_base_docker_tag : PyValue -> string).
Context (get_experiment_filestore_path : gmap string string -> string).
Context (abspath : string -> string).
Context (py_str : PyValue -> string).

Lemma only_not_config_write_read config_filename :
  only not_config_write
    (read_and_validate_experiment_config oracle config_filename).
Proof. only_prog. Qed.

Lemma only_not_dump_fuzzer_config_files fuzzer_configs :
  only not_dump
    (set_up_fuzzer_config_files oracle ROOT_DIR py_str fuzzer_configs).
Proof. only_prog. Qed.

Lemma only_not_config_write_connect config :
  only not_config_write (make_sure_we_can_connect_to_database oracle config).
Proof. only_prog. Qed.

Lemma only_not_config_write_dispatcher config config_dir :
  only not_config_write
    (start_dispatcher oracle ROOT_DIR get_dispatcher_instance_name
       get_base_docker_tag get_experiment_filestore_path abspath py_str
       config config_dir).
Proof. only_prog. Qed.

(** Splits [Forall] along [::] and [++]. *)
Ltac forall_norm :=
  repeat (progress (rewrite ?Forall_cons, ?Forall_app, ?Forall_nil)).

(** Close the goal that every writing event of a trace is good: from
    [Hquiet] for the events that write nothing, and from [Hlater],
    [Hno_dump] and [Hdump] for the others. *)
Ltac quiet_trace Hquiet :=
  forall_norm; repeat apply conj;
  first
    [ exact I
    | by apply Hquiet
    | let Hw := fresh in intros Hw; discriminate Hw ].

Ltac good_trace Hquiet Hlater Hno_dump Hdump :=
  forall_norm; repeat apply conj;
  first
    [ exact I
    | by apply Hquiet
    | by apply Hlater
    | let Hw := fresh in
      intros Hw;
      first [ discriminate Hw
            | clear Hw; first [by apply Hno_dump | apply Hdump] ] ].


End launch_writes.


(** ** Manual experiments *)

Section dispatcher.

Context (oracle : Oracle).
Context (ROOT_DIR : string).
Context (get_dispatcher_instance_name : PyValue -> string).
Context (get_base_docker_tag : PyValue -> string).
Context (get_experiment_filestore_path : gmap string string -> string).
Context (abspath : string -> string).
Context (py_str : PyValue -> string).

Lemma only_not_dispatcher_step_bundling config_dir config :
  only not_dispatcher_step
    (copy_resources_to_bucket oracle ROOT_DIR get_experiment_filestore_path
       config_dir config).
Proof. only_prog. Qed.

Lemma get_dispatcher_of_experiment config :
  is_Some (config !! "experiment") ->
  is_ok (get_dispatcher get_dispatcher_instance_name config) = true.
Proof.
  intros [experiment Hexperiment].
  unfold get_dispatcher, init, getitem. rewrite Hexperiment. simpl.
  by destruct (truthy _).
Qed.

(** X10.  [start_dispatcher] reads MANUAL_EXPERIMENT from the process
    environment.  When it is set to a non-empty string, nothing brings the
    dispatcher up: the run never enters [create_async] or [start] and makes
    none of their calls, and the bundling is the first thing it does.  When
    it is unset or empty, the run begins with [create_async], before the
    bundling. *)
Theorem manual_experiment_skips_the_dispatcher
  (config : gmap string PyValue) (config_dir : string) (w : World) :
  let run :=
    start_dispatcher oracle ROOT_DIR get_dispatcher_instance_name
      get_base_docker_tag get_experiment_filestore_path abspath py_str
      config config_dir w in
  let t := new_events w run.2 in
  let manual := getenv_truthy (environ w !! "MANUAL_EXPERIMENT") in
  (manual = true ->
   Forall (fun e => dispatcher_step e = false) t
   /\ (is_Some (config !! "experiment") ->
       exists rest, t = EEnter "copy_resources_to_bucket" :: rest))
  /\ (manual = false ->
      is_Some (config !! "experiment") ->
      exists rest, t = EEnter "create_async" :: rest).
Proof.
  intros run t manual. subst t run.
  apply (wp_new_events
           (start_dispatcher oracle ROOT_DIR get_dispatcher_instance_name
              get_base_docker_tag get_experiment_filestore_path abspath
              py_str config config_dir)
           (fun _ _ t =>
              (manual = true ->
               Forall (fun e => dispatcher_step e = false) t
               /\ (is_Some (config !! "experiment") ->
                   exists rest, t = EEnter "copy_resources_to_bucket" :: rest))
              /\ (manual = false ->
                  is_Some (config !! "experiment") ->
                  exists rest, t = EEnter "create_async" :: rest))).
  unfold start_dispatcher.
  apply wp_bind, wp_lift.
  pose proof (get_dispatcher_of_experiment config) as Hdispatcher.
  destruct (get_dispatcher get_dispatcher_instance_name config)
    as [dispatcher|e].
  2: { split; intros _; [split; [constructor|]|];
       intros Hexperiment; by specialize (Hdispatcher Hexperiment). }
  clear Hdispatcher.
  apply wp_bind. unfold os_getenv. apply wp_bind, wp_get_world, wp_ret.
  simpl. fold manual. destruct manual; simpl.
  - apply wp_bind, wp_ret. apply wp_bind.
    unfold copy_resources_to_bucket.
    apply (wp_scoped_only not_dispatcher_step); [only_prog|].
    intros r w' b Hb.
    assert (Hquiet : Forall (fun e => dispatcher_step e = false) b).
    { eapply Forall_impl; [exact Hb|]. intros e He.
      by apply negb_true_iff in He. }
    assert (Hall : Forall (fun e => dispatcher_step e = false)
                     (EEnter "copy_resources_to_bucket" :: b
                        ++ [EReturn "copy_resources_to_bucket"])).
    { constructor; [done|]. apply Forall_app. split; [done|].
      by repeat constructor. }
    destruct r as [[]|e]; simpl; [apply wp_ret|];
      (split; [intros _|discriminate]);
      (split; [|intros _; by eexists]);
      rewrite ?app_nil_r; [exact Hall|by constructor].
  - apply wp_bind. unfold create_async.
    apply (wp_scoped_only (fun _ => true)); [only_prog|].
    intros r w' b _.
    destruct r as [created|e]; simpl.
    + apply (wp_of_only (fun _ => true)); [only_prog|].
      intros r w'' t _. split; [discriminate|]. intros _ _.
      rewrite <- app_assoc. by eexists.
    + split; [discriminate|]. intros _ _. by eexists.
Qed.

End dispatcher.

Lemma manual_experiment_skips_the_dispatcher_witness :
  let w := mkWorld [] [] {[ "MANUAL_EXPERIMENT" := "1" ]} ∅ in
  let run :=
    start_dispatcher (SampleLaunch.oracle VNone false) Sample.ROOT_DIR
      Sample.instance_name Sample.docker_tag Sample.filestore_path
      Sample.abspath Sample.py_str
      (SampleLaunch.stamped Sample.cloud_config) CONFIG_DIR w in
  run.1 = Ok tt
  /\ Forall (fun e => dispatcher_step e = false) (new_events w run.2).
Proof.
  intros w run. split; [vm_compute; reflexivity|].
  destruct (manual_experiment_skips_the_dispatcher
              (SampleLaunch.oracle VNone false) Sample.ROOT_DIR
              Sample.instance_name Sample.docker_tag Sample.filestore_path
              Sample.abspath Sample.py_str
              (SampleLaunch.stamped Sample.cloud_config) CONFIG_DIR w)
    as [Hmanual _].
  apply Hmanual. reflexivity.
Defined.

(** ** A local experiment stays local *)

Lemma truthy_get_default (config : gmap string PyValue) key :
  truthy (get config key VNone) = truthy (get config key (VBool false)).
Proof. unfold get. by destruct (config !! key). Qed.

Lemma local_experiment_of_stamp config benchmarks experiment_name git_hash :
  local_experiment_of (stamp config benchmarks experiment_name git_hash)
  = local_experiment_of config.
Proof.
  unfold local_experiment_of, get, stamp.
  by rewrite !lookup_insert_ne by done.
Qed.

(** Closes the goal that every event of a trace is of one kind, from
    hypotheses about its parts. *)
Ltac all_of_kind :=
  simpl;
  repeat (progress (rewrite ?Forall_app, ?Forall_cons, ?Forall_nil));
  repeat apply conj; first [exact I | assumption | reflexivity].

Section local_launch.

Context (oracle : Oracle).
Context (ROOT_DIR : string).
Context (get_dispatcher_instance_name : PyValue -> string).
Context (get_base_docker_tag : PyValue -> string).
Context (get_experiment_filestore_path : gmap string string -> string).
Context (abspath : string -> string).
Context (py_str : PyValue -> string).

Lemma only_not_cloud_check :
  only not_cloud (check_no_local_changes oracle ROOT_DIR).
Proof. only_prog. Qed.

Lemma only_not_cloud_read config_filename :
  only not_cloud (read_and_validate_experiment_config oracle config_filename).
Proof. only_prog. Qed.

Lemma only_not_cloud_git_hash : only not_cloud (get_git_hash oracle ROOT_DIR).
Proof. only_prog. Qed.

Lemma only_not_cloud_experiment_config_file config :
  only not_cloud (set_up_experiment_config_file oracle config).
Proof. only_prog. Qed.

Lemma only_not_cloud_fuzzer_config_files fuzzer_configs :
  only not_cloud
    (set_up_fuzzer_config_files oracle ROOT_DIR py_str fuzzer_configs).
Proof. only_prog. Qed.

Lemma only_not_cloud_bundling config_dir config :
  only not_cloud
    (copy_resources_to_bucket oracle ROOT_DIR get_experiment_filestore_path
       config_dir config).
Proof. only_prog. Qed.

Lemma only_not_cloud_local_start self :
  only not_cloud
    (LocalDispatcher_start oracle get_base_docker_tag abspath py_str self).
Proof. only_prog. Qed.

(** X11.  When the configuration file holds a mapping whose
    'local_experiment' is truthy, no run of [start_experiment] calls Google
    Cloud: it does not switch the default project, starts or joins no
    worker that creates an instance, and runs no command over ssh. *)
Theorem local_experiment_never_touches_the_cloud
  (experiment_name config_filename : string) (benchmarks : list string)
  (fuzzer_configs : list (gmap string PyValue)) (w : World)
  (Hlocal : forall w' config,
      oracle _ (yaml_utils_read config_filename) w' = Ok (VDict config) ->
      truthy (local_experiment_of config) = true) :
  let run :=
    start_experiment oracle ROOT_DIR get_dispatcher_instance_name
      get_base_docker_tag get_experiment_filestore_path abspath py_str
      experiment_name config_filename benchmarks fuzzer_configs w in
  Forall (fun e => touches_cloud e = false) (new_events w run.2).
Proof.
  intros run.
  eapply Forall_impl;
    [|intros e He; apply negb_true_iff; exact He].
  subst run.
  apply (wp_new_events
           (start_experiment oracle ROOT_DIR get_dispatcher_instance_name
              get_base_docker_tag get_experiment_filestore_path abspath
              py_str experiment_name config_filename benchmarks
              fuzzer_configs)
           (fun _ _ t => Forall (fun e => not_cloud e = true) t)).
  unfold start_experiment.
  apply wp_bind. apply (wp_of_only not_cloud); [apply only_not_cloud_check|].
  intros [[]|e] w1 t1 H1; [|all_of_kind].
  apply wp_bind, wp_lift.
  destruct (validate_experiment_name experiment_name) as [[]|e];
    [|all_of_kind].
  apply wp_bind, wp_lift.
  destruct (validate_benchmarks benchmarks) as [[]|e]; [|all_of_kind].
  apply wp_bind. eapply wp_mono.
  { apply wp_and;
      [apply (only_not_cloud_read config_filename)
      |apply read_and_validate_result]. }
  intros [config|e] w2 t2 [H2 Hread]; simpl; [|all_of_kind].
  specialize (Hlocal _ _ (Hread config eq_refl)). clear Hread.
  apply wp_bind. apply (wp_of_only not_cloud); [apply only_not_cloud_git_hash|].
  intros [git_hash|e] w3 t3 H3; [|all_of_kind].
  fold (stamp config benchmarks experiment_name git_hash).
  set (stamped := stamp config benchmarks experiment_name git_hash).
  assert (Hstamped : truthy (local_experiment_of stamped) = true).
  { unfold stamped. by rewrite local_experiment_of_stamp. }
  clearbody stamped.
  apply wp_bind. apply (wp_of_only not_cloud);
    [apply only_not_cloud_experiment_config_file|].
  intros [[]|e] w4 t4 H4; [|all_of_kind].
  apply wp_bind. apply (wp_of_only not_cloud);
    [apply only_not_cloud_fuzzer_config_files|].
  intros [[]|e] w5 t5 H5; [|all_of_kind].
  apply wp_bind. unfold make_sure_we_can_connect_to_database.
  fold (local_experiment_of stamped). rewrite Hstamped. simpl. apply wp_ret.
  unfold start_dispatcher. apply wp_bind, wp_lift.
  unfold get_dispatcher. rewrite truthy_get_default.
  fold (local_experiment_of stamped). rewrite Hstamped.
  destruct (init get_dispatcher_instance_name stamped) as [self|e]; simpl;
    [|all_of_kind].
  apply wp_bind. unfold os_getenv. apply wp_bind, wp_get_world, wp_ret.
  simpl. destruct (getenv_truthy _); simpl.
  - apply wp_bind, wp_ret. apply wp_bind.
    apply (wp_of_only not_cloud); [apply only_not_cloud_bundling|].
    intros [[]|e] w6 t6 H6; [apply wp_ret|]; all_of_kind.
  - apply wp_bind. unfold create_async. apply wp_scoped, wp_ret. simpl.
    apply wp_bind.
    apply (wp_of_only not_cloud); [apply only_not_cloud_bundling|].
    intros [[]|e] w6 t6 H6; [|all_of_kind].
    apply wp_bind. unfold start.
    apply (wp_scoped_only not_cloud); [apply only_not_cloud_local_start|].
    intros [v|e] w7 t7 H7; simpl; [apply wp_ret|]; all_of_kind.
Qed.

End local_launch.

Lemma local_experiment_never_touches_the_cloud_witness :
  let run :=
    SampleLaunch.launch (VDict Sample.local_config) false Sample.world in
  Forall (fun e => touches_cloud e = false) (new_events Sample.world run.2).
Proof.
  intros run.
  apply (local_experiment_never_touches_the_cloud
           (SampleLaunch.oracle (VDict Sample.local_config) false)
           Sample.ROOT_DIR Sample.instance_name Sample.docker_tag
           Sample.filestore_path Sample.abspath Sample.py_str
           "exp-1" "experiment.yaml" ["libpng"] SampleLaunch.fuzzer_configs
           Sample.world).
  intros w' config [= <-]. reflexivity.
Defined.

(** ** The life cycle of the cloud dispatcher *)

Section cloud_dispatcher.

Context (oracle : Oracle).
Context (get_base_docker_tag : PyValue -> string).
Context (abspath : string -> string).
Context (py_str : PyValue -> string).

(** X12.  A cloud dispatcher as [get_dispatcher] builds it has no worker.
    [start] on it raises AttributeError and calls nothing.  [create_async]
    starts a worker for the instance name and the configuration of the
    dispatcher and raises if the call does; when it returns, [start] on
    the object it returns first joins that same worker. *)
Theorem cloud_dispatcher_joins_the_worker_it_started
  (config : gmap string PyValue) (instance_name : string) (w : World) :
  let unstarted := GoogleCloudDispatcher (mkSelf config instance_name None) in
  let worker :=
    {| proc_instance_name := instance_name; proc_config := config |} in
  let created := create_async oracle unstarted w in
  let started := GoogleCloudDispatcher
                   (mkSelf config instance_name (Some worker)) in
  start oracle get_base_docker_tag abspath py_str unstarted w
  = (Raise AttributeError, emit (EEnter "start") w)
  /\ (exists returned,
        new_events w created.2
        = EEnter "create_async" :: ECall (process_start worker) returned
            :: (if returned then [EReturn "create_async"] else [])
        /\ is_ok created.1 = returned
        /\ (returned = true -> created.1 = Ok started))
  /\ (forall w',
        exists returned rest,
          new_events w'
            (start oracle get_base_docker_tag abspath py_str started w').2
          = EEnter "start" :: ECall (process_join worker) returned :: rest).
Proof.
  intros unstarted worker created started. split; [done|]. split.
  - subst created.
    apply (wp_new_events (create_async oracle unstarted)
             (fun r _ t =>
                exists returned,
                  t = EEnter "create_async"
                        :: ECall (process_start worker) returned
                        :: (if returned then [EReturn "create_async"]
                            else [])
                  /\ is_ok r = returned
                  /\ (returned = true -> r = Ok started))).
    unfold create_async. apply wp_scoped. simpl. fold worker.
    apply wp_bind, wp_call.
    destruct (oracle _ (process_start worker) _) as [[]|e]; simpl.
    + apply wp_ret. simpl. by exists true.
    + by exists false.
  - intros w'.
    apply (wp_new_events
             (start oracle get_base_docker_tag abspath py_str started)
             (fun _ _ t =>
                exists returned rest,
                  t = EEnter "start" :: ECall (process_join worker) returned
                        :: rest)).
    unfold start. apply wp_scoped. simpl.
    unfold GoogleCloudDispatcher_start. simpl.
    apply wp_bind, wp_call.
    destruct (oracle _ (process_join worker) _) as [[]|e]; simpl.
    + apply (wp_of_only (fun _ => true)); [only_prog|].
      intros [v|e] w'' t _; simpl; by eexists _, _.
    + by eexists _, _.
Qed.

End cloud_dispatcher.

Lemma cloud_dispatcher_joins_the_worker_it_started_witness :
  let worker :=
    {| proc_instance_name := "d-exp-1";
       proc_config := Sample.cloud_config |} in
  (create_async (SampleLaunch.oracle VNone false)
     (GoogleCloudDispatcher (mkSelf Sample.cloud_config "d-exp-1" None))
     Sample.world).1
  = Ok (GoogleCloudDispatcher
          (mkSelf Sample.cloud_config "d-exp-1" (Some worker))).
Proof.
  intros worker.
  destruct (cloud_dispatcher_joins_the_worker_it_started
              (SampleLaunch.oracle VNone false) Sample.docker_tag
              Sample.abspath Sample.py_str Sample.cloud_config "d-exp-1"
              Sample.world)
    as (_ & (returned & _ & Hok & Hcreated) & _).
  apply Hcreated. rewrite <- Hok. vm_compute. reflexivity.
Defined.

(** ** The keys the validation reads *)

Lemma forallb_ext_in {A} (f g : A -> bool) (l : list A) :
  (forall x, x ∈ l -> f x = g x) -> forallb f l = forallb g l.
Proof.
  induction l as [|x l IH]; intros H; [done|]. simpl.
  rewrite (H x) by (apply elem_of_cons; auto).
  rewrite IH; [done|]. intros y Hy. apply H, elem_of_cons. auto.
Qed.

Lemma omap_ext_in {A B} (f g : A -> option B) (l : list A) :
  (forall x, x ∈ l -> f x = g x) -> omap f l = omap g l.
Proof.
  induction l as [|x l IH]; intros H; [done|]. cbn [omap list_omap].
  rewrite (H x) by (apply elem_of_cons; auto).
  fold (omap f l). fold (omap g l).
  rewrite IH; [done|]. intros y Hy. apply H, elem_of_cons. auto.
Qed.

Lemma not_elem_of_by_list (l : list string) (x : string) :
  bool_decide (x ∈ l) = false -> x ∉ l.
Proof. apply bool_decide_eq_false_1. Qed.

Lemma required_params_validated local_experiment param :
  param ∈ required_params local_experiment -> param ∈ validated_keys.
Proof.
  unfold required_params, int_params, filestore_params, cloud_config.
  intros H. apply elem_of_by_list.
  destruct (negb (truthy local_experiment));
    repeat (apply elem_of_union in H as [H|H]);
    apply elem_of_singleton in H as ->; reflexivity.
Qed.

Section agreeing_configurations.

Context (config config' : gmap string PyValue).
Context (Hagree : forall key, key ∈ validated_keys ->
                              config !! key = config' !! key).

Lemma agree_local_experiment :
  local_experiment_of config' = local_experiment_of config.
Proof.
  unfold local_experiment_of, get. rewrite Hagree; [done|].
  by apply elem_of_by_list.
Qed.

Lemma agree_legacy : has_legacy_key config' = has_legacy_key config.
Proof.
  unfold has_legacy_key, contains.
  by rewrite !Hagree by by apply elem_of_by_list.
Qed.

Lemma agree_violates param rule :
  param ∈ validated_keys ->
  violates config' param rule = violates config param rule.
Proof.
  intros Hparam. unfold violates.
  by rewrite agree_local_experiment, (Hagree param Hparam).
Qed.

Lemma agree_first_violation param :
  param ∈ validated_keys ->
  first_violation config' param = first_violation config param.
Proof.
  intros Hparam. unfold first_violation, all_rules. cbn [List.find].
  by rewrite !agree_violates.
Qed.

Lemma agree_param_report param :
  param ∈ validated_keys ->
  param_report config' param = param_report config param.
Proof.
  intros Hparam. unfold param_report.
  rewrite agree_first_violation by done.
  destruct (first_violation config param) as [rule|]; [|done]. simpl.
  unfold report, get.
  by rewrite agree_local_experiment, (Hagree param Hparam).
Qed.

(** X13.  The validation reads eight keys of the mapping: the five
    parameters it may require, 'local_experiment' and the two legacy bucket
    keys.  Two mappings that agree on these keys are treated alike: the
    same messages are logged, and either both are returned or both are
    rejected with the same exception.  A misspelt or unknown key is
    ignored. *)
Theorem validation_reads_eight_keys (config_filename : string) (w : World) :
  let run := validate_experiment_config config_filename config w in
  let run' := validate_experiment_config config_filename config' w in
  run'.2 = run.2
  /\ ((run.1 = Ok config /\ run'.1 = Ok config')
      \/ exists e, run.1 = Raise e /\ run'.1 = Raise e).
Proof.
  intros run run'. subst run run'.
  rewrite !validate_experiment_config_run. simpl.
  rewrite agree_local_experiment, agree_legacy.
  set (required := elements (required_params (local_experiment_of config))).
  assert (Hrequired : forall param, param ∈ required ->
                                    param ∈ validated_keys).
  { intros param Hparam. apply elem_of_elements in Hparam.
    by apply required_params_validated in Hparam. }
  rewrite (omap_ext_in (param_report config') (param_report config)).
  2: { intros param Hparam. by apply agree_param_report, Hrequired. }
  rewrite (forallb_ext_in
             (fun param =>
                bool_decide (first_violation config' param = None))
             (fun param =>
                bool_decide (first_violation config param = None))).
  2: { intros param Hparam.
       by rewrite agree_first_violation by by apply Hrequired. }
  split; [done|].
  destruct (forallb _ required); [by left|right; by eexists].
Qed.

End agreeing_configurations.

Lemma validation_reads_eight_keys_witness :
  let config := <[ "local_experimnt" := VBool false ]> Sample.local_config in
  (validate_experiment_config "experiment.yaml" config Sample.world).2
  = (validate_experiment_config "experiment.yaml" Sample.local_config
       Sample.world).2.
Proof.
  intros config.
  apply (validation_reads_eight_keys Sample.local_config config).
  assert (Hnot : "local_experimnt" ∉ validated_keys)
    by (apply not_elem_of_by_list; reflexivity).
  intros key Hkey. unfold config.
  rewrite lookup_insert_ne; [done|]. by intros <-.
Defined.

(** ** What a validated configuration holds *)

Lemma required_int param local_experiment :
  param ∈ int_params -> param ∈ required_params local_experiment.
Proof.
  intros H. unfold required_params.
  destruct (negb (truthy local_experiment)).
  - apply elem_of_union_l. by apply elem_of_union_l.
  - by apply elem_of_union_l.
Qed.

(** A string parameter that violates no rule holds a lowercase string. *)
Lemma valid_string_param config param :
  param ∈ string_params ->
  violates config param MissingKey = false ->
  violates config param NonLowercaseString = false ->
  exists s, config !! param = Some (VStr s) /\ lower s = s.
Proof.
  intros Hparam. unfold violates.
  destruct (config !! param) as [value|]; [intros _|discriminate].
  rewrite bool_decide_eq_true_2 by done. simpl.
  destruct value as [| | | |s| |]; try discriminate. simpl.
  intros Hlower. apply negb_false_iff, String.eqb_eq in Hlower.
  exists s. by split.
Qed.

(** X14.  A mapping that [read_and_validate_experiment_config] returns is
    the one the file held, and it has: an int under 'trials' and under
    'max_total_time'; under 'experiment_filestore' and 'report_filestore'
    a lowercase string that starts with '/' when 'local_experiment' is
    truthy and with 'gs://' otherwise; and, unless 'local_experiment' is
    truthy, a lowercase string under 'cloud_compute_zone'. *)
Theorem validated_configuration_is_well_formed (oracle : Oracle)
  (config_filename : string) (w : World) (config : gmap string PyValue)
  (Hok : (read_and_validate_experiment_config oracle config_filename w).1
         = Ok config) :
  let local := truthy (get config "local_experiment" (VBool false)) in
  oracle _ (yaml_utils_read config_filename) w = Ok (VDict config)
  /\ (forall param, param ∈ ["trials"; "max_total_time"] ->
        exists value,
          config !! param = Some value /\ isinstance_int value = true)
  /\ (forall param, param ∈ ["experiment_filestore"; "report_filestore"] ->
        exists s,
          config !! param = Some (VStr s)
          /\ lower s = s
          /\ startswith s (if local then "/" else "gs://") = true)
  /\ (local = false ->
      exists zone,
        config !! "cloud_compute_zone" = Some (VStr zone)
        /\ lower zone = zone).
Proof.
  intros local.
  pose proof (wp_result _ _ w
                (read_and_validate_result oracle config_filename w)
                config Hok) as Hread.
  pose proof (wp_result _ _ w
                (read_and_validate_valid oracle config_filename w)
                config Hok) as Hvalid.
  fold (local_experiment_of config) in local.
  split; [exact Hread|]. split; [|split].
  - intros param Hparam.
    assert (Hint : param ∈ int_params).
    { unfold int_params.
      apply elem_of_cons in Hparam as [->|Hparam];
        [apply elem_of_union_l|apply elem_of_union_r];
        apply elem_of_singleton; [done|].
      by apply list_elem_of_singleton in Hparam. }
    pose proof (Hvalid param MissingKey (required_int _ _ Hint)) as Hkey.
    pose proof (Hvalid param NonIntValue (required_int _ _ Hint)) as Hvalue.
    unfold violates in Hkey, Hvalue.
    destruct (config !! param) as [value|]; [|discriminate].
    rewrite bool_decide_eq_true_2 in Hvalue by done. simpl in Hvalue.
    exists value. split; [done|]. by apply negb_false_iff.
  - intros param Hparam.
    assert (Hfilestore : param ∈ filestore_params).
    { unfold filestore_params.
      apply elem_of_cons in Hparam as [->|Hparam];
        [apply elem_of_union_l|apply elem_of_union_r];
        apply elem_of_singleton; [done|].
      by apply list_elem_of_singleton in Hparam. }
    pose proof (required_filestore _ (local_experiment_of config) Hfilestore)
      as Hrequired.
    destruct (valid_string_param config param
                (filestore_is_string _ Hfilestore)
                (Hvalid _ _ Hrequired) (Hvalid _ _ Hrequired))
      as (s & Hs & Hlower).
    pose proof (Hvalid param WrongScheme Hrequired) as Hscheme.
    unfold violates in Hscheme. rewrite Hs in Hscheme.
    rewrite bool_decide_eq_true_2 in Hscheme by done. simpl in Hscheme.
    exists s. split; [done|]. split; [done|].
    by apply negb_false_iff in Hscheme.
  - intros Hcloud.
    assert (Hrequired : "cloud_compute_zone"
                        ∈ required_params (local_experiment_of config)).
    { unfold required_params. fold local. rewrite Hcloud. simpl.
      apply elem_of_union_r. by apply elem_of_singleton. }
    apply valid_string_param; [|by apply Hvalid..].
    unfold string_params. apply elem_of_union_l. by apply elem_of_singleton.
Qed.

Lemma validated_configuration_is_well_formed_witness :
  exists zone,
    Sample.cloud_config !! "cloud_compute_zone" = Some (VStr zone)
    /\ lower zone = zone.
Proof.
  assert (Hok : (read_and_validate_experiment_config
                   (Sample.oracle (VDict Sample.cloud_config) [] [] false)
                   "experiment.yaml" Sample.world).1
                = Ok Sample.cloud_config)
    by (vm_compute; reflexivity).
  destruct (validated_configuration_is_well_formed _ _ _ _ Hok)
    as (_ & _ & _ & Hzone).
  apply Hzone. vm_compute. reflexivity.
Defined.

(** ** What the bundling changes *)

(** Closes [bundling_frame] between a world and the same world after
    updates of the archive and of the two variables. *)
Ltac frame_auto :=
  unfold bundling_frame, source_archive; simpl;
  repeat apply conj; [intros path Hpath|intros key Hkey1 Hkey2|];
  rewrite ?lookup_delete_ne, ?lookup_insert_ne by done; reflexivity.

Section bundling.

Context (oracle : Oracle).
Context (ROOT_DIR : string).
Context (get_experiment_filestore_path : gmap string string -> string).

Lemma copy_resources_to_bucket_run config_dir config w :
  wp (copy_resources_to_bucket oracle ROOT_DIR get_experiment_filestore_path
        config_dir config)
     (fun r w' t =>
        bundling_frame w w'
        /\ (r = Ok tt ->
            exists filestore experiment,
              config !! "experiment_filestore" = Some (VStr filestore)
              /\ config !! "experiment" = Some (VStr experiment)
              /\ environ w'
                 = <["EXPERIMENT" := experiment]>
                     (<["EXPERIMENT_FILESTORE" := filestore]> (environ w))
              /\ files w' = delete source_archive (files w)
              /\ t = bundled_trace ROOT_DIR config_dir
                       (path_join
                          (get_experiment_filestore_path (environ w'))
                          "input"))
        /\ (is_ok r = false ->
            (exists filestore,
                config !! "experiment_filestore" = Some (VStr filestore)) ->
            (exists experiment,
                config !! "experiment" = Some (VStr experiment)) ->
            exists t0 A (c : Call A), t = t0 ++ [ECall c false])) w.
Proof.
  unfold copy_resources_to_bucket. apply wp_scoped.
  apply wp_bind, wp_lift. unfold getitem.
  destruct (config !! "experiment_filestore") as [experiment_filestore|]
    eqn:Hfilestore.
  2: { split; [frame_auto|]. split; [discriminate|].
       by intros _ [? ?]. }
  apply wp_bind. unfold environ_setitem.
  destruct experiment_filestore as [| | | |filestore| |];
    try (apply wp_raise; split; [frame_auto|]; split; [discriminate|];
         by intros _ [? ?]).
  apply wp_modify; [done|].
  apply wp_bind, wp_lift.
  destruct (config !! "experiment") as [experiment|] eqn:Hexperiment.
  2: { split; [frame_auto|]. split; [discriminate|].
       by intros _ _ [? ?]. }
  apply wp_bind.
  destruct experiment as [| | | |experiment| |];
    try (apply wp_raise; split; [frame_auto|]; split; [discriminate|];
         by intros _ _ [? ?]).
  apply wp_modify; [done|].
  apply wp_bind, wp_get_world.
  apply wp_bind. unfold write_archive.
  apply wp_bind. apply wp_call.
  destruct (oracle _ (tarfile_open_w _) _) as [[]|e]; simpl.
  2: { split; [frame_auto|]. split; [discriminate|]. intros _ _ _.
       by eexists [_], _, _. }
  apply wp_bind, wp_modify; [done|].
  apply wp_bind. apply wp_call.
  destruct (oracle _ (tar_walk _) _) as [members|e]; simpl.
  2: { split; [frame_auto|]. split; [discriminate|]. intros _ _ _.
       by eexists [_; _], _, _. }
  apply wp_modify; [done|]. simpl.
  apply wp_bind. apply wp_call.
  destruct (oracle _ (filestore_utils_cp _ _) _) as [[]|e]; simpl.
  2: { split; [frame_auto|]. split; [discriminate|]. intros _ _ _.
       by eexists [_; _; _], _, _. }
  apply wp_bind. unfold os_remove. apply wp_bind, wp_get_world. simpl.
  rewrite lookup_insert_eq. apply wp_modify; [done|]. simpl.
  apply wp_call.
  destruct (oracle _ (filestore_utils_rsync _ _) _) as [[]|e]; simpl.
  2: { split; [frame_auto|]. split; [discriminate|]. intros _ _ _.
       by eexists [_; _; _; _], _, _. }
  split; [frame_auto|]. split; [|discriminate]. intros _.
  exists filestore, experiment.
  split; [done|]. split; [done|]. split; [done|].
  split; [|reflexivity].
  by rewrite !delete_insert_eq.
Qed.

(** X15.  When [copy_resources_to_bucket] returns, the configuration held
    strings under 'experiment_filestore' and 'experiment'; the process
    environment is the one before with EXPERIMENT_FILESTORE and EXPERIMENT
    set to them; the local archive 'src.tar.gz' is gone;
    and the run made exactly four calls, which all returned: it opened the
    archive, walked the root directory, copied the archive to the input
    directory of the experiment's filestore path, and synchronised
    [config_dir] to the directory config below it. *)
Theorem bundling_returns_after_upload_and_sync
  (config_dir : string) (config : gmap string PyValue) (w : World) :
  let run :=
    copy_resources_to_bucket oracle ROOT_DIR get_experiment_filestore_path
      config_dir config w in
  run.1 = Ok tt ->
  exists filestore experiment,
    config !! "experiment_filestore" = Some (VStr filestore)
    /\ config !! "experiment" = Some (VStr experiment)
    /\ environ run.2
       = <["EXPERIMENT" := experiment]>
           (<["EXPERIMENT_FILESTORE" := filestore]> (environ w))
    /\ files run.2 = delete source_archive (files w)
    /\ new_events w run.2
       = bundled_trace ROOT_DIR config_dir
           (path_join (get_experiment_filestore_path (environ run.2))
              "input").
Proof.
  intros run Hok. subst run.
  by destruct (wp_new_events _ _ w
                 (copy_resources_to_bucket_run config_dir config w))
    as (_ & Hreturns & _); apply Hreturns.
Qed.

(** X16.  Whatever the collaborators answer and however the run ends,
    [copy_resources_to_bucket] by its own statements, calls to
    collaborators aside, writes or removes no local archive other than
    'src.tar.gz', sets no environment variable other than
    EXPERIMENT_FILESTORE and EXPERIMENT, and logs nothing. *)
Theorem bundling_changes_the_archive_and_two_variables_only
  (config_dir : string) (config : gmap string PyValue) (w : World) :
  let run :=
    copy_resources_to_bucket oracle ROOT_DIR get_experiment_filestore_path
      config_dir config w in
  bundling_frame w run.2.
Proof.
  intros run. subst run.
  by destruct (wp_new_events _ _ w
                 (copy_resources_to_bucket_run config_dir config w))
    as (Hframe & _).
Qed.


End bundling.

Lemma bundling_returns_after_upload_and_sync_witness :
  let run := SampleLaunch.bundle Sample.local_config false Sample.world in
  environ run.2
  = {[ "EXPERIMENT" := "exp-1";
       "EXPERIMENT_FILESTORE" := "/data/experiment" ]}
  /\ new_events Sample.world run.2
     = bundled_trace Sample.ROOT_DIR CONFIG_DIR "/data/experiment/exp-1/input".
Proof.
  intros run.
  destruct (bundling_returns_after_upload_and_sync
              (SampleLaunch.oracle VNone false) Sample.ROOT_DIR
              Sample.filestore_path CONFIG_DIR
              (SampleLaunch.stamped Sample.local_config) Sample.world)
    as (filestore & experiment & Hfilestore & Hexperiment & Henviron & _
        & Htrace).
  { vm_compute. reflexivity. }
  subst run. unfold SampleLaunch.bundle.
  vm_compute in Hfilestore. vm_compute in Hexperiment.
  injection Hfilestore as <-. injection Hexperiment as <-.
  split; [rewrite Henviron|rewrite Htrace]; vm_compute; reflexivity.
Defined.


(** ** The bundling inside a launch *)

Lemma unmarked_no_entry t :
  Forall (fun e => unmarked e = true) t ->
  EEnter "copy_resources_to_bucket" ∉ t.
Proof.
  intros Hall Hin. rewrite Forall_forall in Hall.
  by specialize (Hall _ Hin).
Qed.

(** No event of the kind [P] in a trace: [e], of that kind, is not in
    it. *)
Lemma absent_by_kind (P : Event -> bool) (e : Event) t :
  P e = true -> forallb (fun x => negb (P x)) t = true -> e ∉ t.
Proof.
  intros He Hall Hin. rewrite forallb_forall in Hall.
  apply list_elem_of_In in Hin. specialize (Hall e Hin).
  by rewrite He in Hall.
Qed.

(** Closes the case of a run that stopped before the bundling. *)
Ltac stopped_early :=
  let Hin := fresh in
  intros Hin _; exfalso; revert Hin; apply unmarked_no_entry; all_of_kind.

Section launch_bundling.

Context (oracle : Oracle).
Context (ROOT_DIR : string).
Context (get_dispatcher_instance_name : PyValue -> string).
Context (get_base_docker_tag : PyValue -> string).
Context (get_experiment_filestore_path : gmap string string -> string).
Context (abspath : string -> string).
Context (py_str : PyValue -> string).

Lemma only_unmarked_check :
  only unmarked (check_no_local_changes oracle ROOT_DIR).
Proof. only_prog. Qed.

Lemma only_unmarked_read config_filename :
  only unmarked (read_and_validate_experiment_config oracle config_filename).
Proof. only_prog. Qed.

Lemma only_unmarked_git_hash : only unmarked (get_git_hash oracle ROOT_DIR).
Proof. only_prog. Qed.

Lemma only_unmarked_experiment_config_file config :
  only unmarked (set_up_experiment_config_file oracle config).
Proof. only_prog. Qed.

Lemma only_unmarked_fuzzer_config_files fuzzer_configs :
  only unmarked
    (set_up_fuzzer_config_files oracle ROOT_DIR py_str fuzzer_configs).
Proof. only_prog. Qed.

Lemma only_unmarked_connect config :
  only unmarked (make_sure_we_can_connect_to_database oracle config).
Proof. only_prog. Qed.

Lemma only_unmarked_create_async dispatcher :
  only unmarked (create_async oracle dispatcher).
Proof. only_prog. Qed.


End launch_bundling.


(** ** What the cloud dispatcher needs to start *)

Section cloud_start.

Context (oracle : Oracle).
Context (get_base_docker_tag : PyValue -> string).
Context (abspath : string -> string).
Context (py_str : PyValue -> string).

(** X19.  [GoogleCloudDispatcher.start] returns only if [create_async] set
    the worker, the configuration has the keys 'cloud_compute_zone',
    'cloud_project', 'cloud_sql_instance_connection_name', 'experiment' and
    'experiment_filestore', and POSTGRES_PASSWORD is in the process
    environment; it then made three calls, which returned: it joined the
    worker, checked the ssh connection and ran one command on the
    instance. *)
Theorem cloud_start_requirements (self : Self) (w : World) :
  let run :=
    start oracle get_base_docker_tag abspath py_str
      (GoogleCloudDispatcher self) w in
  is_ok run.1 = true ->
  (forall key,
      key ∈ [ "cloud_compute_zone"; "cloud_project";
              "cloud_sql_instance_connection_name"; "experiment";
              "experiment_filestore" ] ->
      is_Some (self_config self !! key))
  /\ is_Some (environ w !! "POSTGRES_PASSWORD")
  /\ exists worker zone command,
       self_process self = Some worker
       /\ self_config self !! "cloud_compute_zone" = Some zone
       /\ new_events w run.2
          = [ EEnter "start";
              ECall (process_join worker) true;
              ECall (gcloud_robust_begin_gcloud_ssh
                       (self_instance_name self) zone) true;
              ECall (gcloud_ssh (self_instance_name self) command zone) true;
              EReturn "start" ].
Proof.
  intros run. subst run.
  apply (wp_new_events
           (start oracle get_base_docker_tag abspath py_str
              (GoogleCloudDispatcher self))
           (fun r w' t =>
              is_ok r = true ->
              (forall key,
                  key ∈ [ "cloud_compute_zone"; "cloud_project";
                          "cloud_sql_instance_connection_name"; "experiment";
                          "experiment_filestore" ] ->
                  is_Some (self_config self !! key))
              /\ is_Some (environ w !! "POSTGRES_PASSWORD")
              /\ exists worker zone command,
                   self_process self = Some worker
                   /\ self_config self !! "cloud_compute_zone" = Some zone
                   /\ t = [ EEnter "start";
                           ECall (process_join worker) true;
                           ECall (gcloud_robust_begin_gcloud_ssh
                                    (self_instance_name self) zone) true;
                           ECall (gcloud_ssh (self_instance_name self)
                                    command zone) true;
                           EReturn "start" ])).
  unfold start. apply wp_scoped. cbv beta iota.
  unfold GoogleCloudDispatcher_start, getitem.
  destruct (self_process self) as [worker|]; [|by apply wp_raise].
  apply wp_bind, wp_call.
  destruct (oracle _ (process_join worker) _) as [[]|e]; [|done]. simpl.
  apply wp_bind, wp_lift.
  destruct (self_config self !! "cloud_compute_zone") as [zone|] eqn:Hzone;
    [|done].
  apply wp_bind, wp_call.
  destruct (oracle _ (gcloud_robust_begin_gcloud_ssh _ _) _) as [[]|e];
    [|done]. simpl.
  apply wp_bind, wp_lift.
  destruct (self_config self !! "cloud_project") as [project|] eqn:Hproject;
    [|done].
  apply wp_bind, wp_lift.
  destruct (self_config self !! "cloud_sql_instance_connection_name")
    as [connection|] eqn:Hconnection; [|done].
  apply wp_bind. unfold environ_getitem. apply wp_bind, wp_get_world. simpl.
  destruct (environ w !! "POSTGRES_PASSWORD") as [password|] eqn:Hpassword;
    [apply wp_ret|by apply wp_raise].
  apply wp_bind, wp_lift.
  destruct (self_config self !! "experiment") as [experiment|]
    eqn:Hexperiment; [|done].
  apply wp_bind, wp_lift. apply wp_bind, wp_lift.
  destruct (self_config self !! "experiment_filestore") as [filestore|]
    eqn:Hfilestore; [|done].
  apply wp_bind, wp_lift. apply wp_call.
  destruct (oracle _ (gcloud_ssh _ _ _) _) as [v|e]; [|done]. simpl.
  intros _. split; [|split; [done|]].
  - intros key Hkey.
    repeat (apply elem_of_cons in Hkey as [->|Hkey]; [by eexists|]).
    by apply elem_of_nil in Hkey.
  - by eexists _, _, _.
Qed.

End cloud_start.

Lemma cloud_start_requirements_witness :
  let config :=
    <[ "cloud_project" := VStr "fuzzbench" ]>
      (<[ "cloud_sql_instance_connection_name" := VStr "fuzzbench:db" ]>
         (SampleLaunch.stamped Sample.cloud_config)) in
  let worker := {| proc_instance_name := "d-exp-1"; proc_config := config |} in
  let run :=
    start (SampleLaunch.oracle VNone false) Sample.docker_tag Sample.abspath
      Sample.py_str
      (GoogleCloudDispatcher (mkSelf config "d-exp-1" (Some worker)))
      world_with_password in
  run.1 = Ok VNone /\ is_Some (config !! "cloud_project").
Proof.
  intros config worker run.
  assert (Hok : run.1 = Ok VNone) by (vm_compute; reflexivity).
  split; [exact Hok|].
  destruct (cloud_start_requirements
              (SampleLaunch.oracle VNone false) Sample.docker_tag
              Sample.abspath Sample.py_str
              (mkSelf config "d-exp-1" (Some worker)) world_with_password)
    as [Hkeys _].
  { fold run. by rewrite Hok. }
  apply Hkeys. by apply elem_of_by_list.
Defined.

(** ** Where the launch changes the environment and the local archive *)

Lemma keeps_ret {A} (a : A) : keeps_state (ret a).
Proof. done. Qed.

Lemma keeps_raise {A} e : keeps_state (@raise A e).
Proof. done. Qed.

Lemma keeps_lift {A} (r : Result A) : keeps_state (lift r).
Proof. done. Qed.

Lemma keeps_get_world : keeps_state get_world.
Proof. done. Qed.

Lemma keeps_emit e : keeps_state (modify (emit e)).
Proof. done. Qed.

Lemma keeps_logs_error e : keeps_state (logs_error e).
Proof. done. Qed.

Lemma keeps_call (oracle : Oracle) {A} (c : Call A) :
  keeps_state (call oracle c).
Proof. done. Qed.

Lemma keeps_bind {A B} (m : M A) (f : A -> M B) :
  keeps_state m -> (forall a, keeps_state (f a)) -> keeps_state (bind m f).
Proof.
  intros Hm Hf w. unfold bind. specialize (Hm w).
  destruct (m w) as [[a|e] w']; simpl in *; [|done].
  destruct (Hf a w') as [Henviron Hfiles].
  destruct Hm as [<- <-]. done.
Qed.

Lemma keeps_scoped {A} function (body : M A) :
  keeps_state body -> keeps_state (scoped function body).
Proof.
  intros H. unfold scoped.
  apply keeps_bind; [apply keeps_emit|intros _].
  apply keeps_bind; [exact H|intros a].
  apply keeps_bind; [apply keeps_emit|intros _]. apply keeps_ret.
Qed.

Lemma keeps_for_fold {A B} (l : list A) (acc : B) (body : B -> A -> M B) :
  (forall acc x, keeps_state (body acc x)) ->
  keeps_state (for_fold l acc body).
Proof.
  intros H. revert acc. induction l as [|x l IH]; intros acc; simpl.
  - apply keeps_ret.
  - apply keeps_bind; [apply H|intros acc']. apply IH.
Qed.

Lemma keeps_filter_m {A} (p : A -> M bool) (l : list A) :
  (forall x, keeps_state (p x)) -> keeps_state (filter_m p l).
Proof.
  intros H. induction l as [|x l IH]; simpl.
  - apply keeps_ret.
  - apply keeps_bind; [apply H|intros keep].
    apply keeps_bind; [exact IH|intros rest]. apply keeps_ret.
Qed.

(** Applies the rules above along the structure of a computation, after
    unfolding the functions of the program. *)
Ltac keeps_prog :=
  repeat first
    [ lazymatch goal with
      | |- keeps_state (bind _ _) => apply keeps_bind; [|intros ?]
      | |- keeps_state (ret _) => apply keeps_ret
      | |- keeps_state (raise _) => apply keeps_raise
      | |- keeps_state (lift _) => apply keeps_lift
      | |- keeps_state get_world => apply keeps_get_world
      | |- keeps_state (logs_error _) => apply keeps_logs_error
      | |- keeps_state (modify (emit _)) => apply keeps_emit
      | |- keeps_state (call _ _) => apply keeps_call
      | |- keeps_state (scoped _ _) => apply keeps_scoped
      | |- keeps_state (for_each _ _) =>
          unfold for_each; apply keeps_for_fold; intros ? ?
      | |- keeps_state (for_fold _ _ _) => apply keeps_for_fold; intros ? ?
      | |- keeps_state (filter_m _ _) => apply keeps_filter_m; intros ?
      | |- keeps_state (if ?b then _ else _) => destruct b
      | |- keeps_state (match ?x with _ => _ end) => destruct x
      end
    | progress unfold
        check_no_local_changes, get_git_hash, validate_param,
        validate_experiment_config, read_and_validate_experiment_config,
        get_directories, validate_fuzzer, validate_fuzzer_config,
        set_up_experiment_config_file, set_up_fuzzer_config_files,
        environ_contains, os_getenv, environ_getitem, create_async,
        LocalDispatcher_start, GoogleCloudDispatcher_start, start,
        make_sure_we_can_connect_to_database ].

(** Closes the case of a run that stopped with the state as it was. *)
Ltac untouched :=
  split; [intros _; split; congruence|split; intros; congruence].

(** A computation of one kind of events that keeps the state. *)
Lemma wp_only_keeps {A} P (m : M A) w
  (Q : Result A -> World -> list Event -> Prop) :
  only P m -> keeps_state m ->
  (forall r w' t,
      Forall (fun e => P e = true) t ->
      environ w' = environ w -> files w' = files w ->
      Q r w' t) ->
  wp m Q w.
Proof.
  intros Honly Hkeeps HQ. destruct (Honly w) as (t & Ht & Hall).
  exists t. split; [exact Ht|]. destruct (Hkeeps w). by apply HQ.
Qed.

Section launch_state.

Context (oracle : Oracle).
Context (ROOT_DIR : string).
Context (get_dispatcher_instance_name : PyValue -> string).
Context (get_base_docker_tag : PyValue -> string).
Context (get_experiment_filestore_path : gmap string string -> string).
Context (abspath : string -> string).
Context (py_str : PyValue -> string).

Lemma keeps_check : keeps_state (check_no_local_changes oracle ROOT_DIR).
Proof. keeps_prog. Qed.

Lemma keeps_read config_filename :
  keeps_state (read_and_validate_experiment_config oracle config_filename).
Proof. keeps_prog. Qed.

Lemma keeps_git_hash : keeps_state (get_git_hash oracle ROOT_DIR).
Proof. keeps_prog. Qed.

Lemma keeps_experiment_config_file config :
  keeps_state (set_up_experiment_config_file oracle config).
Proof. keeps_prog. Qed.

Lemma keeps_fuzzer_config_files fuzzer_configs :
  keeps_state
    (set_up_fuzzer_config_files oracle ROOT_DIR py_str fuzzer_configs).
Proof. keeps_prog. Qed.

Lemma keeps_connect config :
  keeps_state (make_sure_we_can_connect_to_database oracle config).
Proof. keeps_prog. Qed.

Lemma keeps_create_async dispatcher :
  keeps_state (create_async oracle dispatcher).
Proof. keeps_prog. Qed.

Lemma keeps_start dispatcher :
  keeps_state (start oracle get_base_docker_tag abspath py_str dispatcher).
Proof. keeps_prog. Qed.

Lemma bundling_enters config_dir config w :
  wp (copy_resources_to_bucket oracle ROOT_DIR get_experiment_filestore_path
        config_dir config)
     (fun _ _ t => exists rest, t = EEnter "copy_resources_to_bucket" :: rest)
     w.
Proof.
  unfold copy_resources_to_bucket.
  apply (wp_scoped_only (fun _ => true)); [only_prog|].
  intros r w' b _. by eexists.
Qed.

(** X20.  By its own statements, calls to collaborators aside, a run of
    [start_experiment] changes the process environment and the local
    archives in the bundling only: a run that never enters
    [copy_resources_to_bucket] leaves both as they were, and any run leaves
    every environment variable other than EXPERIMENT_FILESTORE and
    EXPERIMENT and every archive other than 'src.tar.gz' as they were. *)
Theorem launch_changes_state_in_the_bundling_only
  (experiment_name config_filename : string) (benchmarks : list string)
  (fuzzer_configs : list (gmap string PyValue)) (w : World) :
  let run :=
    start_experiment oracle ROOT_DIR get_dispatcher_instance_name
      get_base_docker_tag get_experiment_filestore_path abspath py_str
      experiment_name config_filename benchmarks fuzzer_configs w in
  let t := new_events w run.2 in
  (EEnter "copy_resources_to_bucket" ∉ t ->
   environ run.2 = environ w /\ files run.2 = files w)
  /\ (forall key, key <> "EXPERIMENT_FILESTORE" -> key <> "EXPERIMENT" ->
        environ run.2 !! key = environ w !! key)
  /\ (forall path, path <> source_archive ->
        files run.2 !! path = files w !! path).
Proof.
  intros run t. subst t run.
  apply (wp_new_events
           (start_experiment oracle ROOT_DIR get_dispatcher_instance_name
              get_base_docker_tag get_experiment_filestore_path abspath
              py_str experiment_name config_filename benchmarks
              fuzzer_configs)
           (fun _ w' t =>
              (EEnter "copy_resources_to_bucket" ∉ t ->
               environ w' = environ w /\ files w' = files w)
              /\ (forall key,
                    key <> "EXPERIMENT_FILESTORE" -> key <> "EXPERIMENT" ->
                    environ w' !! key = environ w !! key)
              /\ (forall path, path <> source_archive ->
                    files w' !! path = files w !! path))).
  unfold start_experiment.
  apply wp_bind.
  apply (wp_only_keeps (fun _ => true)); [only_prog|apply keeps_check|].
  intros [[]|e] w1 t1 _ E1 F1; [|untouched].
  apply wp_bind, wp_lift.
  destruct (validate_experiment_name experiment_name) as [[]|e];
    [|untouched].
  apply wp_bind, wp_lift.
  destruct (validate_benchmarks benchmarks) as [[]|e]; [|untouched].
  apply wp_bind.
  apply (wp_only_keeps (fun _ => true)); [only_prog|apply keeps_read|].
  intros [config|e] w2 t2 _ E2 F2; [|untouched].
  apply wp_bind.
  apply (wp_only_keeps (fun _ => true)); [only_prog|apply keeps_git_hash|].
  intros [git_hash|e] w3 t3 _ E3 F3; [|untouched].
  apply wp_bind.
  apply (wp_only_keeps (fun _ => true));
    [only_prog|apply keeps_experiment_config_file|].
  intros [[]|e] w4 t4 _ E4 F4; [|untouched].
  apply wp_bind.
  apply (wp_only_keeps (fun _ => true));
    [only_prog|apply keeps_fuzzer_config_files|].
  intros [[]|e] w5 t5 _ E5 F5; [|untouched].
  apply wp_bind.
  apply (wp_only_keeps (fun _ => true)); [only_prog|apply keeps_connect|].
  intros [[]|e] w6 t6 _ E6 F6; [|untouched].
  unfold start_dispatcher. apply wp_bind, wp_lift.
  destruct (get_dispatcher _ _) as [dispatcher|e]; [|untouched].
  apply wp_bind. unfold os_getenv. apply wp_bind, wp_get_world, wp_ret.
  simpl. apply wp_bind.
  apply (wp_only_keeps (fun _ => true)).
  { destruct (negb _); only_prog. }
  { destruct (negb _); [apply keeps_create_async|apply keeps_ret]. }
  intros [created|e] w7 t7 _ E7 F7; [|untouched].
  apply wp_bind. eapply wp_mono.
  { apply wp_and;
      [apply copy_resources_to_bucket_run|apply bundling_enters]. }
  intros r w8 t8 [((Hfiles & Henviron & _) & _) [rest ->]].
  assert (Hentered : forall before after : list Event,
             EEnter "copy_resources_to_bucket"
             ∈ t1 ++ t2 ++ t3 ++ t4 ++ t5 ++ t6 ++ t7
                 ++ (EEnter "copy_resources_to_bucket" :: rest) ++ after).
  { intros _ after. do 7 (apply elem_of_app; right).
    apply elem_of_app. left. apply in_trace_here. }
  destruct r as [[]|e]; simpl.
  - apply (wp_only_keeps (fun _ => true)).
    { destruct (negb _); only_prog. }
    { destruct (negb _); [|apply keeps_ret].
      apply keeps_bind; [apply keeps_start|intros _; apply keeps_ret]. }
    intros r w9 t9 _ E9 F9. split; [|split].
    + intros Hnot. exfalso. apply Hnot. simpl. apply (Hentered [] t9).
    + intros key Hkey1 Hkey2. rewrite E9, Henviron by done. congruence.
    + intros path Hpath. rewrite F9, Hfiles by done. congruence.
  - split; [|split].
    + intros Hnot. exfalso. apply Hnot.
      specialize (Hentered [] []). by rewrite app_nil_r in Hentered.
    + intros key Hkey1 Hkey2. rewrite Henviron by done. congruence.
    + intros path Hpath. rewrite Hfiles by done. congruence.
Qed.

End launch_state.

Lemma launch_changes_state_in_the_bundling_only_witness :
  let run :=
    SampleLaunch.launch (VDict Sample.local_config) false
      world_with_password in
  environ run.2 !! "POSTGRES_PASSWORD" = Some "secret".
Proof.
  intros run.
  destruct (launch_changes_state_in_the_bundling_only
              (SampleLaunch.oracle (VDict Sample.local_config) false)
              Sample.ROOT_DIR Sample.instance_name Sample.docker_tag
              Sample.filestore_path Sample.abspath Sample.py_str
              "exp-1" "experiment.yaml" ["libpng"]
              SampleLaunch.fuzzer_configs world_with_password)
    as (_ & Henviron & _).
  unfold run, SampleLaunch.launch. by rewrite Henviron.
Defined.
